(** * PetroGuard: the article analysis pipeline of [app.py]

    A shallow embedding of the fetch / detect / classify / persist pipeline
    behind the [/api/analyze] endpoint, and the properties of it that the
    specification states.

    Conventions of the embedding.
    - A Python [str] is a Rocq [string]; a character is a code point below
      256 (the Latin-1 range), and the character classes of [re] and of the
      [str] methods are the ones Python has on that range.
    - A decoded JSON document, and every value stored in an article, is a
      [pyval].  JSON numbers are integers.  A [dict] is an association list
      in insertion order, read at the first binding of a key.
    - A Python [set] of strings is a duplicate-free list.  Python leaves
      the iteration order of such a set unspecified, so the statements below
      speak of membership only.
    - An uncaught exception is a [Raise] result.  The outside world (the
      providers, the language model, the clock) is a record of oracles;
      the calls made to it are recorded in a trace.
    - The store has the two tables.  Whether the storage engine raises
      during a write is an oracle of the world too; the code catches the
      exception, and the write leaves the store as it was.
    - [print] calls are diagnostic output and are left out. *)

From Stdlib Require Import ZArith NArith Ascii String DecimalString.
From stdpp Require Import base option list strings sorting gmap.

Local Open Scope string_scope.
Local Open Scope list_scope.

(** ** Characters and text *)

Module Text.

Definition code (c : ascii) : N := N_of_ascii c.

Definition between (lo hi n : N) : bool := ((lo <=? n) && (n <=? hi))%N.

Definition is_ascii_alnum (c : ascii) : bool :=
  let n := code c in
  between 48 57 n || between 65 90 n || between 97 122 n.

(** The class [\w] of a [str] pattern: alphanumeric code points and the
    underscore. *)
Definition is_word (c : ascii) : bool :=
  let n := code c in
  is_ascii_alnum c || (n =? 95)%N
  || (n =? 170)%N || between 178 179 n || (n =? 181)%N
  || between 185 186 n || between 188 190 n
  || between 192 214 n || between 216 246 n || between 248 255 n.

(** [str.isspace], which is what [str.strip] removes. *)
Definition is_space (c : ascii) : bool :=
  let n := code c in
  between 9 13 n || between 28 32 n || (n =? 133)%N || (n =? 160)%N.

(** [str.isprintable], used by [repr]. *)
Definition is_printable (c : ascii) : bool :=
  let n := code c in
  between 32 126 n || between 161 172 n || between 174 255 n.

(** [str.lower] on one character; also the folding [re.IGNORECASE] applies. *)
Definition lower_char (c : ascii) : ascii :=
  let n := code c in
  if between 65 90 n || between 192 214 n || between 216 222 n
  then ascii_of_N (n + 32) else c.

Fixpoint lower (s : string) : string :=
  match s with
  | EmptyString => EmptyString
  | String c s' => String (lower_char c) (lower s')
  end.

Fixpoint lstrip (s : string) : string :=
  match s with
  | EmptyString => EmptyString
  | String c s' => if is_space c then lstrip s' else s
  end.

Fixpoint rstrip (s : string) : string :=
  match s with
  | EmptyString => EmptyString
  | String c s' =>
      match rstrip s' with
      | EmptyString => if is_space c then EmptyString else String c EmptyString
      | r => String c r
      end
  end.

(** [s.strip()] *)
Definition strip (s : string) : string := rstrip (lstrip s).

(** [s.startswith(p)] *)
Fixpoint startswith (p s : string) : bool :=
  match p with
  | EmptyString => true
  | String a p' =>
      match s with
      | EmptyString => false
      | String b s' => Ascii.eqb a b && startswith p' s'
      end
  end.

(** [p in s] for two strings. *)
Fixpoint contains (p s : string) : bool :=
  startswith p s ||
  match s with
  | EmptyString => false
  | String _ s' => contains p s'
  end.

Definition is_empty (s : string) : bool :=
  match s with EmptyString => true | _ => false end.

Definition has_char (c : ascii) (s : string) : bool :=
  existsb (Ascii.eqb c) (list_ascii_of_string s).

(** [sep.join(l)] *)
Definition join (sep : string) (l : list string) : string := String.concat sep l.

End Text.

(** ** Python values *)

Module Py.
Import Text.

(** The exceptions of the program: two of Python's own, and [sqlite3.Error],
    the class of what the [sqlite3] module raises. *)
Inductive exn := AttributeError | TypeError | Sqlite3Error.

Inductive result (A : Type) :=
| Ok (a : A)
| Raise (e : exn).
Arguments Ok {A} a.
Arguments Raise {A} e.

#[warnings="-register-all"] Inductive pyval :=
| VNone
| VBool (b : bool)
| VInt (z : Z)
| VStr (s : string)
| VList (l : list pyval)
| VDict (d : list (string * pyval)).

Definition dict := list (string * pyval).

(** Truth value of an object, as [if], [not] and [or] test it. *)
Definition truthy (v : pyval) : bool :=
  match v with
  | VNone => false
  | VBool b => b
  | VInt z => negb (z =? 0)%Z
  | VStr s => negb (is_empty s)
  | VList l => match l with [] => false | _ => true end
  | VDict d => match d with [] => false | _ => true end
  end.

(** [a or b] *)
Definition py_or (a b : pyval) : pyval := if truthy a then a else b.

Fixpoint dict_lookup (k : string) (d : dict) : option pyval :=
  match d with
  | [] => None
  | (k', v) :: d' => if String.eqb k k' then Some v else dict_lookup k d'
  end.

(** [d.get(k, default)] on a dict. *)
Definition dict_get (k : string) (default : pyval) (d : dict) : pyval :=
  match dict_lookup k d with Some v => v | None => default end.

(** [d[k] = v]: the binding of an existing key is replaced in place, a new
    key is added at the end. *)
Fixpoint dict_set (k : string) (v : pyval) (d : dict) : dict :=
  match d with
  | [] => [(k, v)]
  | (k', v') :: d' =>
      if String.eqb k k' then (k, v) :: d' else (k', v') :: dict_set k v d'
  end.

(** [x.get(k, default)] on an arbitrary object: only a dict has the method. *)
Definition py_get (k : string) (default : pyval) (x : pyval) : result pyval :=
  match x with
  | VDict d => Ok (dict_get k default d)
  | _ => Raise AttributeError
  end.

(** The items a [for] loop over [x] visits: the elements of a list, the
    keys of a dict, the characters of a string; other objects are not
    iterable. *)
Definition py_iter (x : pyval) : result (list pyval) :=
  match x with
  | VList l => Ok l
  | VDict d => Ok (map (fun kv => VStr (fst kv)) d)
  | VStr s => Ok (map (fun c => VStr (String c EmptyString)) (list_ascii_of_string s))
  | _ => Raise TypeError
  end.

(** [x != s] for a string literal [s]. *)
Definition ne_str (x : pyval) (s : string) : bool :=
  match x with
  | VStr t => negb (String.eqb t s)
  | _ => true
  end.

(** *** [str] and [repr] *)

Definition dec (z : Z) : string := NilZero.string_of_int (Z.to_int z).

Definition hex_digit (n : N) : ascii :=
  match String.get (N.to_nat n) "0123456789abcdef" with
  | Some c => c
  | None => "0"%char
  end.

Definition hex_escape (c : ascii) : string :=
  "\x" +:+ String (hex_digit (code c / 16)) (String (hex_digit (code c mod 16)) EmptyString).

Definition squote : ascii := ascii_of_N 39.
Definition dquote : ascii := ascii_of_N 34.
Definition backslash : ascii := ascii_of_N 92.

Definition repr_char (q c : ascii) : string :=
  let n := code c in
  if Ascii.eqb c q || Ascii.eqb c backslash then String backslash (String c EmptyString)
  else if (n =? 9)%N then "\t"
  else if (n =? 10)%N then "\n"
  else if (n =? 13)%N then "\r"
  else if is_printable c then String c EmptyString
  else hex_escape c.

(** [repr] of a string: single quotes, unless the string has a single quote
    and no double quote. *)
Definition repr_str (s : string) : string :=
  let q := if has_char squote s && negb (has_char dquote s) then dquote else squote in
  String q (String.concat "" (map (repr_char q) (list_ascii_of_string s)))
  +:+ String q EmptyString.

Fixpoint py_repr (v : pyval) : string :=
  match v with
  | VNone => "None"
  | VBool b => if b then "True" else "False"
  | VInt z => dec z
  | VStr s => repr_str s
  | VList l => "[" +:+ join ", " (map py_repr l) +:+ "]"
  | VDict d =>
      "{" +:+ join ", " (map (fun kv => match kv with
                                       | (k, x) => repr_str k +:+ ": " +:+ py_repr x
                                       end) d) +:+ "}"
  end.

(** [str(v)], also what an f-string field formats to. *)
Definition py_str (v : pyval) : string :=
  match v with
  | VStr s => s
  | _ => py_repr v
  end.

End Py.

(** ** The regular expressions of the program *)

Module Re.
Import Text.

Definition head (s : string) : option ascii :=
  match s with
  | EmptyString => None
  | String c _ => Some c
  end.

Definition word_opt (c : option ascii) : bool :=
  match c with
  | Some c => is_word c
  | None => false
  end.

(** [\b] between the character before the position ([None] at the start of
    the text) and the rest of the text: exactly one side is a word
    character. *)
Definition at_boundary (prev : option ascii) (s : string) : bool :=
  xorb (word_opt prev) (word_opt (head s)).

(** Two characters agree under [re.IGNORECASE]. *)
Definition eq_ci (a b : ascii) : bool := Ascii.eqb (lower_char a) (lower_char b).

(** The literal [w], then [\b], matched at the start of [s]. *)
Fixpoint literal_then_boundary (prev : option ascii) (w s : string) : bool :=
  match w with
  | EmptyString => at_boundary prev s
  | String a w' =>
      match s with
      | EmptyString => false
      | String b s' => eq_ci a b && literal_then_boundary (Some b) w' s'
      end
  end.

Fixpoint search_word_from (prev : option ascii) (w s : string) : bool :=
  (at_boundary prev s && literal_then_boundary prev w s)
  || match s with
     | EmptyString => false
     | String c s' => search_word_from (Some c) w s'
     end.

(** Whether [re.search(r'\b{}\b'.format(re.escape(w)), s, re.IGNORECASE)]
    finds a match. *)
Definition search_word (w s : string) : bool := search_word_from None w s.

(** [s] without the literal prefix [p]. *)
Fixpoint drop_prefix (p s : string) : option string :=
  match p with
  | EmptyString => Some s
  | String a p' =>
      match s with
      | EmptyString => None
      | String b s' => if Ascii.eqb a b then drop_prefix p' s' else None
      end
  end.

(** The longest prefix in the class [[a-zA-Z0-9]]. *)
Fixpoint take_alnum (s : string) : string :=
  match s with
  | EmptyString => EmptyString
  | String c s' => if is_ascii_alnum c then String c (take_alnum s') else EmptyString
  end.

Definition label_at (marker s : string) : option string :=
  match drop_prefix marker s with
  | Some r => let g := take_alnum r in if is_empty g then None else Some g
  | None => None
  end.

(** Group 1 of [re.search] for the marker followed by a group of one or
    more characters of the class [[a-zA-Z0-9]]: the leftmost place
    where the marker is followed by a character of the class, and the
    longest run of the class from there. *)
Fixpoint search_label (marker s : string) : option string :=
  match label_at marker s with
  | Some g => Some g
  | None =>
      match s with
      | EmptyString => None
      | String _ s' => search_label marker s'
      end
  end.

Definition newline : ascii := ascii_of_N 10.

(** The longest prefix [.*] matches: up to the first line feed. *)
Fixpoint until_newline (s : string) : string :=
  match s with
  | EmptyString => EmptyString
  | String c s' => if Ascii.eqb c newline then EmptyString else String c (until_newline s')
  end.

(** Group 1 of [re.search] for the marker followed by a group of any
    characters other than a line feed, as many as there are. *)
Fixpoint search_rest (marker s : string) : option string :=
  match drop_prefix marker s with
  | Some r => Some (until_newline r)
  | None =>
      match s with
      | EmptyString => None
      | String _ s' => search_rest marker s'
      end
  end.

(** The length of the shortest match of [.*?>] at the start of [s]: the
    characters up to and including the first [>], when no line feed comes
    before it. *)
Fixpoint tag_end (s : string) : option nat :=
  match s with
  | EmptyString => None
  | String c s' =>
      if Ascii.eqb c ">"%char then Some 1%nat
      else if Ascii.eqb c newline then None
      else match tag_end s' with
           | Some k => Some (S k)
           | None => None
           end
  end.

(** [re.sub("<.*?>", "", s)], with [skip] characters of a match still to
    drop. *)
Fixpoint sub_tags_from (skip : nat) (s : string) : string :=
  match s with
  | EmptyString => EmptyString
  | String c s' =>
      match skip with
      | S k => sub_tags_from k s'
      | O =>
          if Ascii.eqb c "<"%char then
            match tag_end s' with
            | Some k => sub_tags_from k s'
            | None => String c (sub_tags_from 0 s')
            end
          else String c (sub_tags_from 0 s')
      end
  end.

Definition sub_tags (s : string) : string := sub_tags_from 0 s.

End Re.

Import Text Py Re.

(** ** Exceptions, the outside world and the state of a request *)

#[global] Instance result_ret : MRet result := fun A a => Ok a.

#[global] Instance result_bind : MBind result := fun A B k m =>
  match m with
  | Ok a => k a
  | Raise e => Raise e
  end.

Fixpoint result_mapM {A B : Type} (f : A -> result B) (l : list A) : result (list B) :=
  match l with
  | [] => Ok []
  | x :: l' => y ← f x; ys ← result_mapM f l'; Ok (y :: ys)
  end.

(** *** The counter store ([init_db]) *)

Record source_profile := SourceProfile {
  flag_count : Z;
  last_seen : string
}.

(** The two tables, each keyed by its [TEXT PRIMARY KEY] column.  A counter
    is a whole number: in the 64-bit range it is an SQLite INTEGER; outside
    of it, it stands for the REAL of that value, which is what an
    overflowing sum leaves in the column. *)
Record database := Database {
  source_profiles : gmap string source_profile;
  keyword_trends : gmap string Z
}.

(** *** Calls to the outside, and what they answer *)

Inductive event :=
| EvHttpGet (url : pyval) (params headers : dict)
| EvGenerateContent (prompt : string)
| EvDbConnect.

Inductive http_outcome :=
| ConnectionFailed
| Responded (status_code : Z) (json : option pyval).

Inductive gemini_outcome :=
| GText (text : string)
| GNoText (shown : string)
| GError (message : string).

(** Every oracle sees the calls made so far, so its answers may change over
    time.  [http_get] is [requests.get]: no answer at all, or a status code
    and a body that decodes as JSON or does not.  [generate_content] is the
    model call: a response with a [text], a response without one (and its
    [str]), or an exception (and its message).  [db_raises] tells whether
    the storage engine raises somewhere between [sqlite3.connect] and
    [con.close] (a locked file, a missing table, a failed commit): in the
    [try] block of a write function, where nothing is committed then, or
    in a read endpoint, which has no [try]. *)
Record world := World {
  getenv : string -> option string;
  http_get : list event -> pyval -> dict -> dict -> http_outcome;
  generate_content : list event -> string -> gemini_outcome;
  current_timestamp : list event -> string;
  db_raises : list event -> bool
}.

Record state := State {
  db : database;
  trace : list event
}.

(** A computation of the request: it may raise, and it changes the store and
    extends the trace. *)
Definition M (A : Type) : Type := state -> result A * state.

#[global] Instance M_ret : MRet M := fun A a s => (Ok a, s).

#[global] Instance M_bind : MBind M := fun A B k m s =>
  match m s with
  | (Ok a, s') => k a s'
  | (Raise e, s') => (Raise e, s')
  end.

Definition lift {A : Type} (r : result A) : M A := fun s => (r, s).

Definition emit (e : event) : M unit :=
  fun s => (Ok tt, State (db s) (trace s ++ [e])).

Definition history : M (list event) := fun s => (Ok (trace s), s).

Definition update_db (f : database -> database) : M unit :=
  fun s => (Ok tt, State (f (db s)) (trace s)).

(** ** 2. Configuration *)

(** [os.getenv(name) or fallback] *)
Definition getenv_or (W : world) (name fallback : string) : string :=
  match getenv W name with
  | Some v => if is_empty v then fallback else v
  | None => fallback
  end.

Definition API_CONFIGS (W : world) : list dict :=
  [ [("name", VStr "NewsAPI"); ("type", VStr "newsapi");
     ("base_url", VStr "https://newsapi.org/v2/everything");
     ("api_key", VStr (getenv_or W "NEWSAPI_KEY" "YOUR_FALLBACK_KEY"))];
    [("name", VStr "NewsData.io"); ("type", VStr "newsdata");
     ("base_url", VStr "https://newsdata.io/api/1/latest");
     ("api_key", VStr (getenv_or W "NEWSDATA_KEY" "YOUR_FALLBACK_KEY"))];
    [("name", VStr "Wikipedia"); ("type", VStr "wikipedia");
     ("base_url", VStr "https://en.wikipedia.org/w/api.php")] ].

Definition HARMFUL_KEYWORDS : list string :=
  ["scam"; "fraud"; "bomb"; "attack"; "terror"; "hack"; "threat";
   "arrested"; "kill"; "bad"; "murder"; "shoot"].

(** ** 3. Database write functions *)

(** The text a bound parameter is stored as in a [TEXT] key column: a string
    as it is, an integer of the 64-bit range (a [bool] is one) in decimal.
    Binding another object raises, which the callers catch.  [None] does not
    reach the statement: the caller has replaced it by the sentinel. *)
Definition sql_text (v : pyval) : option string :=
  match v with
  | VStr s => Some s
  | VInt z => if ((- 2 ^ 63 <=? z) && (z <? 2 ^ 63))%Z then Some (dec z) else None
  | VBool b => Some (if b then "1" else "0")
  | _ => None
  end.

(** The range of an SQLite INTEGER. *)
Definition is_int64 (n : Z) : bool := ((- 2 ^ 63 <=? n) && (n <=? 2 ^ 63 - 1))%Z.

(** [n + 1] as SQLite computes it on a counter.  On an INTEGER the sum is
    exact; the sum of the largest INTEGER, [2 ^ 63 - 1], does not fit, and
    SQLite computes it as the REAL [2 ^ 63].  On a REAL, which lies outside
    the 64-bit range, adding 1 is below the precision of the value and
    leaves it as it is. *)
Definition sql_succ (n : Z) : Z := if is_int64 n then (n + 1)%Z else n.

(** [INSERT ... VALUES (?, 1, CURRENT_TIMESTAMP) ON CONFLICT(source_name)
    DO UPDATE SET flag_count = flag_count + 1, last_seen = CURRENT_TIMESTAMP] *)
Definition upsert_source (name now : string) (d : database) : database :=
  let row :=
    match source_profiles d !! name with
    | Some r => SourceProfile (sql_succ (flag_count r)) now
    | None => SourceProfile 1 now
    end in
  Database (<[name := row]> (source_profiles d)) (keyword_trends d).

(** [INSERT ... VALUES (?, 1) ON CONFLICT(keyword) DO UPDATE SET
    count = count + 1] *)
Definition upsert_keyword (kw : string) (d : database) : database :=
  let n :=
    match keyword_trends d !! kw with
    | Some n => sql_succ n
    | None => 1%Z
    end in
  Database (source_profiles d) (<[kw := n]> (keyword_trends d)).

Definition update_source_profile (W : world) (source_name : pyval) : M unit :=
  let source_name := if truthy source_name then source_name else VStr "unknown_source" in
  emit EvDbConnect;;
  h ← history;
  if db_raises W h then mret tt
  else
    match sql_text source_name with
    | Some name => update_db (upsert_source name (current_timestamp W h))
    | None => mret tt
    end.

(** The keywords are the strings the classification step stored in the
    article. *)
Definition update_keyword_trends (W : world) (keywords : list string) : M unit :=
  match keywords with
  | [] => mret tt
  | _ =>
      emit EvDbConnect;;
      h ← history;
      if db_raises W h then mret tt
      else update_db (fun d => fold_left (fun d kw => upsert_keyword kw d) keywords d)
  end.

(** ** 4. Analysis functions *)

(** [v == s] for a string literal [s]. *)
Definition is_str (v : pyval) (s : string) : bool := negb (ne_str v s).

Definition headers : dict :=
  [("User-Agent", VStr "my-osint-tool/1.0 (contact: you@example.com)")].

Definition request_params (api : dict) (query language country : string)
    (max_results : Z) : dict :=
  let api_type := dict_get "type" VNone api in
  if is_str api_type "wikipedia" then
    [("action", VStr "query"); ("list", VStr "search"); ("srsearch", VStr query);
     ("format", VStr "json"); ("srlimit", VInt max_results)]
  else if is_str api_type "newsdata" then
    [("q", VStr query); ("language", VStr language); ("country", VStr country);
     ("apikey", dict_get "api_key" VNone api)]
  else
    [("q", VStr query); ("language", VStr language); ("pageSize", VInt max_results);
     ("apiKey", dict_get "api_key" VNone api)].

(** [resp.raise_for_status()] raises on a 4xx or 5xx status. *)
Definition raises_for_status (status_code : Z) : bool :=
  ((400 <=? status_code) && (status_code <? 600))%Z.

(** What the [try] block leaves in [data]; [None] when it raised (no
    [base_url] in the configuration, no answer, an error status, a body that
    is not JSON) and the loop went on to the next provider. *)
Definition try_request (W : world) (api params : dict) : M (option pyval) :=
  match dict_lookup "base_url" api with
  | None => mret None
  | Some url =>
      h ← history;
      emit (EvHttpGet url params headers);;
      mret (match http_get W h url params headers with
            | ConnectionFailed => None
            | Responded status_code json =>
                if raises_for_status status_code then None else json
            end)
  end.

Definition wikipedia_article (item : pyval) : result dict :=
  match item with
  | VDict d =>
      match dict_get "snippet" (VStr "") d with
      | VStr snippet =>
          Ok [("source", VStr "Wikipedia");
              ("title", dict_get "title" VNone d);
              ("description", VStr (sub_tags snippet));
              ("link", VStr ("https://en.wikipedia.org/?curid="
                             +:+ py_str (dict_get "pageid" VNone d)));
              ("pub_date", VStr "");
              ("keywords", VList []);
              ("api_type", VStr "wikipedia")]
      | _ => Raise TypeError
      end
  | _ => Raise AttributeError
  end.

Definition newsdata_article (item : pyval) : result dict :=
  match item with
  | VDict d =>
      Ok [("source", py_or (dict_get "source_id" VNone d)
                       (py_or (dict_get "source_name" VNone d) (VStr "NewsData.io")));
          ("title", dict_get "title" VNone d);
          ("description", py_or (dict_get "description" VNone d) (VStr ""));
          ("link", dict_get "link" VNone d);
          ("pub_date", dict_get "pubDate" VNone d);
          ("keywords", py_or (dict_get "keywords" VNone d) (VList []));
          ("api_type", VStr "news")]
  | _ => Raise AttributeError
  end.

Definition newsapi_article (item : pyval) : result dict :=
  match item with
  | VDict d =>
      match dict_get "source" (VDict []) d with
      | VDict source =>
          Ok [("source", dict_get "name" (VStr "NewsAPI") source);
              ("title", dict_get "title" VNone d);
              ("description", py_or (dict_get "description" VNone d) (VStr ""));
              ("link", dict_get "url" VNone d);
              ("pub_date", dict_get "publishedAt" VNone d);
              ("keywords", VList []);
              ("api_type", VStr "news")]
      | _ => Raise AttributeError
      end
  | _ => Raise AttributeError
  end.

(** The part of the loop body after the [try] block: the articles of one
    decoded response. *)
Definition normalize (api_type data : pyval) : result (list dict) :=
  if is_str api_type "wikipedia" then
    query ← py_get "query" (VDict []) data;
    search ← py_get "search" (VList []) query;
    items ← py_iter search;
    result_mapM wikipedia_article items
  else if is_str api_type "newsdata" then
    status ← py_get "status" VNone data;
    if ne_str status "success" then Ok []
    else
      results ← py_get "results" (VList []) data;
      items ← py_iter results;
      result_mapM newsdata_article items
  else
    status ← py_get "status" VNone data;
    if ne_str status "ok" then Ok []
    else
      articles ← py_get "articles" (VList []) data;
      items ← py_iter articles;
      result_mapM newsapi_article items.

(** One turn of the loop of [fetch_all_news]: the articles the provider
    adds, none when the loop continues early. *)
Definition fetch_provider (W : world) (query language country : string)
    (max_results : Z) (api : dict) : M (list dict) :=
  data ← try_request W api (request_params api query language country max_results);
  match data with
  | None => mret []
  | Some data => lift (normalize (dict_get "type" VNone api) data)
  end.

Fixpoint fetch_loop (W : world) (query language country : string)
    (max_results : Z) (api_configs : list dict) (all_articles : list dict)
    : M (list dict) :=
  match api_configs with
  | [] => mret all_articles
  | api :: rest =>
      articles ← fetch_provider W query language country max_results api;
      fetch_loop W query language country max_results rest (all_articles ++ articles)
  end.

Definition fetch_all_news (W : world) (api_configs : list dict)
    (query language country : string) (max_results : Z) : M (list dict) :=
  fetch_loop W query language country max_results api_configs [].

(** [set(l)] and [list] of a set. *)
Definition set_of (l : list string) : list string := remove_dups l.

Definition detect_harmful_words (text : pyval) : list string :=
  if truthy text then
    set_of (map lower (List.filter (fun word => search_word word (py_str text))
                                   HARMFUL_KEYWORDS))
  else [].

Definition nl : string := String newline EmptyString.

Definition build_prompt (text harm_words : string) : string :=
  "You are analyzing potentially harmful or scam-related news." +:+ nl +:+
  "I will provide news/article content and a list of detected harmful words." +:+ nl +:+
  "Please classify:" +:+ nl +:+
  "- Sentiment: one of [positive1, positive2, negative1, negative2, neutral]" +:+ nl +:+
  "- Intent: one of [harmful1, harmful2, harmless1, harmless2]" +:+ nl +:+
  "Definitions:" +:+ nl +:+
  "- positive1: mildly positive, positive2: strongly positive." +:+ nl +:+
  "- negative1: mildly negative, negative2: highly negative." +:+ nl +:+
  "- harmful1: contains mild threat/scam indicators, harmful2: high threat/scam/severe issue." +:+ nl +:+
  "- harmless1: content totally safe, harmless2: content with minor caution but not an actual threat." +:+ nl +:+
  "Base your answer on the article and the detected harmful words." +:+ nl +:+
  "Return in the exact format:" +:+ nl +:+
  "SENTIMENT={sentiment_label} INTENT={intent_label} REASON={short_reason}" +:+ nl +:+ nl +:+
  "Article: " +:+ text +:+ nl +:+
  "Harmful words: " +:+ harm_words +:+ nl.

(** What the [try] statement returns for each outcome of the model call. *)
Definition returned_text (outcome : gemini_outcome) : string :=
  match outcome with
  | GText t => strip t
  | GNoText shown => shown
  | GError e => "[Gemini API error: " +:+ e +:+ "]"
  end.

Definition fetch_from_gemini_sentiment_intent (W : world) (text harm_words : string)
    : M string :=
  let prompt := build_prompt text harm_words in
  h ← history;
  emit (EvGenerateContent prompt);;
  mret (returned_text (generate_content W h prompt)).

(** The labels read from the reply: lines 207 to 217 of the loop body.  A
    pattern that finds nothing makes [.group] raise; the [except] clause
    keeps what was assigned before. *)
Definition parse_labels (gemini_result : string) : string * string * string :=
  if contains "SENTIMENT=" gemini_result && contains "INTENT=" gemini_result then
    match search_label "SENTIMENT=" gemini_result with
    | None => ("", "", "")
    | Some sentiment_label =>
        match search_label "INTENT=" gemini_result with
        | None => (sentiment_label, "", "")
        | Some intent_label =>
            (sentiment_label, intent_label,
             match search_rest "REASON=" gemini_result with
             | Some g => strip g
             | None => ""
             end)
        end
    end
  else ("", "", "").

(** The operand of [+] with a string must be a string. *)
Definition str_operand (v : pyval) : result string :=
  match v with
  | VStr s => Ok s
  | _ => Raise TypeError
  end.

(** The harmful words found in the provider's keyword tags. *)
Definition harmful_in_tags (kws : list pyval) : list string :=
  flat_map (fun kw => List.filter (fun word => contains word (lower (py_str kw)))
                                  HARMFUL_KEYWORDS) kws.

(** The body of the loop of [full_categorize]. *)
Definition categorize_article (W : world) (article : dict) : M dict :=
  let harmful_in_title := detect_harmful_words (dict_get "title" (VStr "") article) in
  let harmful_in_desc := detect_harmful_words (dict_get "description" (VStr "") article) in
  kws ← lift (py_iter (py_or (dict_get "keywords" VNone article) (VList [])));
  let harmful_in_keywords := harmful_in_tags kws in
  let harmful_words := set_of (harmful_in_title ++ harmful_in_desc ++ harmful_in_keywords) in
  title ← lift (str_operand (py_or (dict_get "title" VNone article) (VStr "")));
  description ← lift (str_operand (py_or (dict_get "description" VNone article) (VStr "")));
  let text := title +:+ ". " +:+ description in
  gemini_result ← fetch_from_gemini_sentiment_intent W text
                    (match harmful_words with
                     | [] => "None"
                     | _ => join ", " harmful_words
                     end);
  let '(sentiment_label, intent_label, reason_text) := parse_labels gemini_result in
  let is_harmful := startswith "harmful" intent_label in
  mret (dict_set "gemini_raw" (VStr gemini_result)
       (dict_set "gemini_reason" (VStr reason_text)
       (dict_set "gemini_intent" (VStr intent_label)
       (dict_set "gemini_sentiment" (VStr sentiment_label)
       (dict_set "harmful_words" (VList (map VStr harmful_words))
       (dict_set "harmful" (VBool is_harmful) article)))))).

Fixpoint categorize_loop (W : world) (articles categorized : list dict) : M (list dict) :=
  match articles with
  | [] => mret categorized
  | article :: rest =>
      article' ← categorize_article W article;
      categorize_loop W rest (categorized ++ [article'])
  end.

Definition full_categorize (W : world) (articles : list dict) : M (list dict) :=
  categorize_loop W articles [].

(** ** 5. Routes *)

(** What a view returns to the client: a JSON document with a status code,
    a rendered page, or the server error Flask answers with when the view
    raised. *)
Inductive response :=
| Json (status_code : Z) (payload : pyval)
| Page (template : string)
| ServerError (e : exn).

Definition status_of (r : response) : Z :=
  match r with
  | Json status_code _ => status_code
  | Page _ => 200
  | ServerError _ => 500
  end.

(** The strings of a list object. *)
Definition str_items (v : pyval) : list string :=
  match v with
  | VList l => omap (fun x => match x with VStr s => Some s | _ => None end) l
  | _ => []
  end.

(** Step 3 of [api_analyze]: the loop that updates the database. *)
Fixpoint persist (W : world) (categorized_hits : list dict) : M unit :=
  match categorized_hits with
  | [] => mret tt
  | article :: rest =>
      (if truthy (dict_get "harmful" VNone article) then
         update_source_profile W (dict_get "source" (VStr "unknown_source") article);;
         update_keyword_trends W (str_items (dict_get "harmful_words" (VList []) article))
       else mret tt);;
      persist W rest
  end.

(** Steps 1 to 3 of [api_analyze] for a query that is there. *)
Definition analyze (W : world) (query : string) : M (list dict) :=
  all_hits ← fetch_all_news W (API_CONFIGS W) query "en" "my" 5;
  categorized_hits ← full_categorize W all_hits;
  persist W categorized_hits;;
  mret categorized_hits.

(** [q] is [request.args.get('q', None)]. *)
Definition api_analyze (W : world) (q : option string) (s : state) : response * state :=
  let query := match q with Some query => query | None => "" end in
  if is_empty query then
    (Json 400 (VDict [("error", VStr "A 'q' (query) parameter is required")]), s)
  else
    match analyze W query s with
    | (Ok categorized_hits, s') => (Json 200 (VList (map VDict categorized_hits)), s')
    | (Raise e, s') => (ServerError e, s')
    end.

Definition route_login (s : state) : response * state := (Page "login.html", s).

Definition route_dashboard (s : state) : response * state := (Page "dashboard.html", s).

Definition connect (s : state) : state := State (db s) (trace s ++ [EvDbConnect]).

Definition by_count_desc {A : Type} (count : A -> Z) (x y : string * A) : Prop :=
  (count (snd y) <= count (snd x))%Z.

#[global] Instance by_count_desc_dec {A : Type} (count : A -> Z) :
  RelDecision (by_count_desc count) :=
  fun x y => decide (count (snd y) <= count (snd x))%Z.

(** [SELECT * FROM source_profiles ORDER BY flag_count DESC LIMIT 20]; rows
    with equal counters come in an order SQL leaves open. *)
Definition top_profiles (d : database) : list (string * source_profile) :=
  take 20 (merge_sort (by_count_desc flag_count) (map_to_list (source_profiles d))).

(** [SELECT * FROM keyword_trends ORDER BY count DESC LIMIT 20] *)
Definition top_trends (d : database) : list (string * Z) :=
  take 20 (merge_sort (by_count_desc id) (map_to_list (keyword_trends d))).

(** [dict(row)] for a row of [source_profiles]: the columns in the order of
    the table.  The counter is handed over as the number it is (an [int],
    or the [float] of the same value when the column holds a REAL). *)
Definition profile_row (kr : string * source_profile) : pyval :=
  VDict [("source_name", VStr (fst kr));
         ("flag_count", VInt (flag_count (snd kr)));
         ("last_seen", VStr (last_seen (snd kr)))].

(** [dict(row)] for a row of [keyword_trends]. *)
Definition trend_row (kn : string * Z) : pyval :=
  VDict [("keyword", VStr (fst kn)); ("count", VInt (snd kn))].

(** The two read endpoints have no [try]: when the storage engine raises,
    the exception leaves the view and the request ends in a server error. *)
Definition get_profiles (W : world) (s : state) : response * state :=
  let s' := connect s in
  if db_raises W (trace s') then (ServerError Sqlite3Error, s')
  else (Json 200 (VList (map profile_row (top_profiles (db s)))), s').

Definition get_trends (W : world) (s : state) : response * state :=
  let s' := connect s in
  if db_raises W (trace s') then (ServerError Sqlite3Error, s')
  else (Json 200 (VList (map trend_row (top_trends (db s)))), s').

(** [CREATE TABLE IF NOT EXISTS] twice: the tables of a store that has them
    stay as they are. *)
Definition init_db (s : state) : state := connect s.

(** The operations of the system on the store. *)
Inductive operation :=
| OpInitDb
| OpLogin
| OpDashboard
| OpAnalyze (q : option string)
| OpProfiles
| OpTrends.

Definition run_operation (W : world) (op : operation) (s : state) : state :=
  match op with
  | OpInitDb => init_db s
  | OpLogin => snd (route_login s)
  | OpDashboard => snd (route_dashboard s)
  | OpAnalyze q => snd (api_analyze W q s)
  | OpProfiles => snd (get_profiles W s)
  | OpTrends => snd (get_trends W s)
  end.

(** ** Notions the statements use *)

(** *** Text *)

(** The last character of [s], or [prev] when [s] is empty. *)
Fixpoint last_or (prev : option ascii) (s : string) : option ascii :=
  match s with
  | EmptyString => prev
  | String c s' => last_or (Some c) s'
  end.

(** The specification's whole-word rule: [w] stands somewhere in [text], in
    any mix of cases, with no word character right before it and none right
    after it. *)
Definition occurs_as_whole_word (w text : string) : Prop :=
  exists before mid after,
    text = before +:+ mid +:+ after /\
    lower mid = lower w /\
    word_opt (last_or None before) = false /\
    word_opt (head after) = false.

(** [w] stands somewhere in [text], in any mix of cases. *)
Definition occurs_ignoring_case (w text : string) : Prop :=
  exists before after, lower text = before +:+ w +:+ after.

Definition forall_bool (f : bool -> bool) : bool := f true && f false.

(** A check of all 256 characters. *)
Definition forall_ascii (P : ascii -> bool) : bool :=
  forall_bool (fun b0 => forall_bool (fun b1 => forall_bool (fun b2 =>
  forall_bool (fun b3 => forall_bool (fun b4 => forall_bool (fun b5 =>
  forall_bool (fun b6 => forall_bool (fun b7 =>
    P (Ascii b0 b1 b2 b3 b4 b5 b6 b7))))))))).

Definition is_lower_letter (c : ascii) : bool := between 97 122 (code c).

Definition lower_letters (w : string) : bool :=
  forallb is_lower_letter (list_ascii_of_string w).

(** *** Replies *)

Definition has_both_markers (reply : string) : bool :=
  contains "SENTIMENT=" reply && contains "INTENT=" reply.

(** Somewhere in [reply] the marker is directly followed by a letter or a
    digit. *)
Definition label_follows (marker reply : string) : Prop :=
  exists before c after,
    reply = before +:+ marker +:+ String c after /\ is_ascii_alnum c = true.

Definition all_alnum (g : string) : bool :=
  forallb is_ascii_alnum (list_ascii_of_string g).

Definition alnum_opt (c : option ascii) : bool :=
  match c with
  | Some c => is_ascii_alnum c
  | None => false
  end.

(** [label] is a run of letters and digits that stands right after the
    marker somewhere in [reply] and is not followed by one more. *)
Definition label_after (marker reply label : string) : Prop :=
  label <> "" /\ all_alnum label = true /\
  exists before after,
    reply = before +:+ marker +:+ label +:+ after /\
    alnum_opt (head after) = false.

(** The raw reply after a failure with the message [e]. *)
Definition error_text (e : string) : string := "[Gemini API error: " +:+ e +:+ "]".

(** The format the prompt asks for: two labels of letters and digits and a
    reason on the same line. *)
Definition formatted_reply (sentiment intent reason : string) : string :=
  "SENTIMENT=" +:+ sentiment +:+ " INTENT=" +:+ intent +:+ " REASON=" +:+ reason.

(** *** Articles *)

(** The value of a field of an article, [None] when the key is not there. *)
Definition field (k : string) (article : dict) : pyval := dict_get k VNone article.

(** The keys of an Article record, in the order the adapters write them. *)
Definition article_keys : list string :=
  ["source"; "title"; "description"; "link"; "pub_date"; "keywords"; "api_type"].

Definition text_or_empty (v : pyval) : bool :=
  match v with
  | VStr _ => true
  | _ => negb (truthy v)
  end.

Definition iterable_or_empty (v : pyval) : bool :=
  match v with
  | VStr _ | VList _ | VDict _ => true
  | _ => negb (truthy v)
  end.

(** An article the classification step accepts: its tags can be iterated
    and its title and description can be joined into one text. *)
Definition classifiable (article : dict) : bool :=
  iterable_or_empty (field "keywords" article)
  && text_or_empty (field "title" article)
  && text_or_empty (field "description" article).

Definition all_empty_harmless (a' : dict) : Prop :=
  field "gemini_sentiment" a' = VStr "" /\
  field "gemini_intent" a' = VStr "" /\
  field "gemini_reason" a' = VStr "" /\
  field "harmful" a' = VBool false.

Definition is_flagged (article : dict) : bool := truthy (field "harmful" article).

(** The name [api_analyze] and [update_source_profile] record a flag of the
    article under; [None] when binding the name raises. *)
Definition source_key (article : dict) : option string :=
  let name := dict_get "source" (VStr "unknown_source") article in
  sql_text (if truthy name then name else VStr "unknown_source").

Definition harmful_words_of (article : dict) : list string :=
  str_items (dict_get "harmful_words" (VList []) article).

(** *** The store *)

(** The counter of a source, zero when the source has no row. *)
Definition flag_total (d : database) (name : string) : Z :=
  match source_profiles d !! name with
  | Some r => flag_count r
  | None => 0%Z
  end.

(** How many articles of the list are flagged harmful under the name. *)
Definition flags_for (name : string) (hits : list dict) : nat :=
  length (List.filter (fun a => is_flagged a && bool_decide (source_key a = Some name)) hits).

(** Every row of [d] is in [d'] with a counter at least as large. *)
Definition grows (d d' : database) : Prop :=
  (forall name r, source_profiles d !! name = Some r ->
     exists r', source_profiles d' !! name = Some r' /\ (flag_count r <= flag_count r')%Z) /\
  (forall kw n, keyword_trends d !! kw = Some n ->
     exists n', keyword_trends d' !! kw = Some n' /\ (n <= n')%Z).

(** The effect on the store of the two updates for one flagged article. *)
Definition record_source (key : option string) (now : string) (d : database) : database :=
  match key with
  | Some name => upsert_source name now d
  | None => d
  end.

Definition record_keywords (keywords : list string) (d : database) : database :=
  fold_left (fun d kw => upsert_keyword kw d) keywords d.

(** The storage engine never raises. *)
Definition engine_ok (W : world) : Prop := forall h, db_raises W h = false.

(** The state after the two writes for one flagged article. *)
Definition flag_article (W : world) (article : dict) (s : state) : state :=
  let t1 := trace s ++ [EvDbConnect] in
  let d1 := if db_raises W t1 then db s
            else record_source (source_key article) (current_timestamp W t1) (db s) in
  match harmful_words_of article with
  | [] => State d1 t1
  | keywords =>
      let t2 := t1 ++ [EvDbConnect] in
      State (if db_raises W t2 then d1 else record_keywords keywords d1) t2
  end.

(** A computation that leaves the store as it is. *)
Definition keeps_db {A : Type} (m : M A) : Prop :=
  forall s, db (snd (m s)) = db s.

(** *** Requests *)

Definition after_request (url : pyval) (params : dict) (s : state) : state :=
  State (db s) (trace s ++ [EvHttpGet url params headers]).

(** The provider's request ends in a transport exception, in an error
    status, or in a body whose own status field is not the success word of
    a news provider. *)
Definition provider_fails (W : world) (api : dict) (url : pyval) (params : dict)
    (s : state) : Prop :=
  dict_lookup "base_url" api = Some url /\
  (http_get W (trace s) url params headers = ConnectionFailed \/
   (exists status_code json,
      http_get W (trace s) url params headers = Responded status_code json /\
      raises_for_status status_code = true) \/
   (exists status_code body,
      http_get W (trace s) url params headers = Responded status_code (Some (VDict body)) /\
      raises_for_status status_code = false /\
      is_str (dict_get "type" VNone api) "wikipedia" = false /\
      ne_str (dict_get "status" VNone body)
             (if is_str (dict_get "type" VNone api) "newsdata" then "success" else "ok")
      = true)).

(** *** Answers of the expected shape *)

Definition is_dict (v : pyval) : bool :=
  match v with VDict _ => true | _ => false end.

Definition is_text (v : pyval) : bool :=
  match v with VStr _ => true | _ => false end.

Definition wikipedia_item_ok (item : pyval) : bool :=
  match item with
  | VDict d => text_or_empty (field "title" d) && is_text (dict_get "snippet" (VStr "") d)
  | _ => false
  end.

Definition newsdata_item_ok (item : pyval) : bool :=
  match item with
  | VDict d =>
      text_or_empty (field "title" d) && text_or_empty (field "description" d)
      && iterable_or_empty (field "keywords" d)
  | _ => false
  end.

Definition newsapi_item_ok (item : pyval) : bool :=
  match item with
  | VDict d =>
      text_or_empty (field "title" d) && text_or_empty (field "description" d)
      && is_dict (dict_get "source" (VDict []) d)
  | _ => false
  end.

Definition items_ok (item_ok : pyval -> bool) (v : pyval) : bool :=
  match v with
  | VList items => forallb item_ok items
  | _ => false
  end.

(** A decoded body the adapter of the provider kind reads without raising,
    into articles the classification step accepts: an object; its items a
    list of objects; titles and descriptions strings or empty; tags a
    list or empty; no null snippet, no null source. *)
Definition body_ok (api_type data : pyval) : bool :=
  match data with
  | VDict d =>
      if is_str api_type "wikipedia" then
        match dict_get "query" (VDict []) d with
        | VDict q => items_ok wikipedia_item_ok (dict_get "search" (VList []) q)
        | _ => false
        end
      else if is_str api_type "newsdata" then
        ne_str (field "status" d) "success"
        || items_ok newsdata_item_ok (dict_get "results" (VList []) d)
      else
        ne_str (field "status" d) "ok"
        || items_ok newsapi_item_ok (dict_get "articles" (VList []) d)
  | _ => false
  end.

(** Every body the providers of the list answer with has the expected
    shape. *)
Definition answers_ok (W : world) (api_configs : list dict) : Prop :=
  forall api h url params status_code data,
    api ∈ api_configs ->
    http_get W h url params headers = Responded status_code (Some data) ->
    raises_for_status status_code = false ->
    body_ok (dict_get "type" VNone api) data = true.

Definition required_message : string := "A 'q' (query) parameter is required".

(** *** Calls to the outside *)

(** The request one turn of the loop of [fetch_all_news] sends: none when
    the configuration has no [base_url]. *)
Definition request_of (query language country : string) (max_results : Z)
    (api : dict) : list event :=
  match dict_lookup "base_url" api with
  | Some url =>
      [EvHttpGet url (request_params api query language country max_results) headers]
  | None => []
  end.

(** The requests of the whole loop, in the order of the list. *)
Definition requests_of (query language country : string) (max_results : Z)
    (api_configs : list dict) : list event :=
  flat_map (request_of query language country max_results) api_configs.

(** The string a title or a description adds to the text of the prompt. *)
Definition text_of (v : pyval) : string :=
  match v with
  | VStr s => s
  | _ => ""
  end.

(** The prompt of a classified article, read from the article itself. *)
Definition prompt_of (a' : dict) : string :=
  build_prompt (text_of (field "title" a') +:+ ". " +:+ text_of (field "description" a'))
               (match harmful_words_of a' with
                | [] => "None"
                | ws => join ", " ws
                end).

(** The keys the classification step adds, in the order it writes them. *)
Definition classification_keys : list string :=
  ["harmful"; "harmful_words"; "gemini_sentiment"; "gemini_intent"; "gemini_reason";
   "gemini_raw"].

(** The connections the third step opens for one article of the list. *)
Definition connections_of (article : dict) : nat :=
  if is_flagged article then
    match harmful_words_of article with
    | [] => 1
    | _ => 2
    end
  else 0.

(** The connections of the third step, over the whole list. *)
Definition connections (hits : list dict) : nat :=
  sum_list (map connections_of hits).

(** No provider gives a body: each request ends in a transport exception,
    an error status, or a body that is not JSON. *)
Definition no_provider_answers (W : world) : Prop :=
  forall h url params hd,
    match http_get W h url params hd with
    | ConnectionFailed => True
    | Responded status_code json => raises_for_status status_code = true \/ json = None
    end.

(** The call is a connection to the store. *)
Definition is_db_connect (e : event) : bool :=
  match e with
  | EvDbConnect => true
  | _ => false
  end.



(** *** Bodies the adapters read *)

Definition returns {A : Type} (r : result A) : bool :=
  match r with
  | Ok _ => true
  | Raise _ => false
  end.

Definition wikipedia_item_reads (item : pyval) : bool :=
  match item with
  | VDict d => is_text (dict_get "snippet" (VStr "") d)
  | _ => false
  end.

Definition newsapi_item_reads (item : pyval) : bool :=
  match item with
  | VDict d => is_dict (dict_get "source" (VDict []) d)
  | _ => false
  end.

(** The value can be iterated and each of its items is read. *)
Definition items_read (item_reads : pyval -> bool) (v : pyval) : bool :=
  match py_iter v with
  | Ok items => forallb item_reads items
  | Raise _ => false
  end.

(** The decoded bodies the adapter of a provider kind reads to the end: an
    object; for the encyclopedia its [query] an object, its [search] items
    objects whose snippet is missing or a string; for a news provider either
    a status other than the success word, or items that are objects (with a
    [source] that is missing or an object for NewsAPI). *)
Definition body_reads (api_type data : pyval) : bool :=
  match data with
  | VDict d =>
      if is_str api_type "wikipedia" then
        match dict_get "query" (VDict []) d with
        | VDict q => items_read wikipedia_item_reads (dict_get "search" (VList []) q)
        | _ => false
        end
      else if is_str api_type "newsdata" then
        ne_str (field "status" d) "success"
        || items_read is_dict (dict_get "results" (VList []) d)
      else
        ne_str (field "status" d) "ok"
        || items_read newsapi_item_reads (dict_get "articles" (VList []) d)
  | _ => false
  end.

(** *** The keyword table *)

(** The counter of a keyword, zero when the keyword has no row. *)
Definition trend_total (d : database) (kw : string) : Z :=
  match keyword_trends d !! kw with
  | Some n => n
  | None => 0%Z
  end.

(** How many flagged articles of the list have the keyword among their
    harmful words. *)
Definition mentions_for (kw : string) (hits : list dict) : nat :=
  length (List.filter (fun a => is_flagged a && bool_decide (kw ∈ harmful_words_of a)) hits).

(** Every keyword of the table is a word of the harmful list. *)
Definition in_vocabulary (d : database) : Prop :=
  forall kw n, keyword_trends d !! kw = Some n -> kw ∈ HARMFUL_KEYWORDS.

(** *** Worlds that differ in the store only *)

(** The environment, the providers and the model answer alike in the two
    worlds; the storage engine and the clock may differ. *)
Definition same_outside (W W' : world) : Prop :=
  (forall name, getenv W name = getenv W' name) /\
  (forall h url params hd, http_get W h url params hd = http_get W' h url params hd) /\
  (forall h prompt, generate_content W h prompt = generate_content W' h prompt).

(** *** Text without tags *)

(** A text that [re.sub] with the tag pattern leaves as it is: after no
    [<] of it does a [>] come before the end of the line. *)
Fixpoint tag_free (s : string) : bool :=
  match s with
  | EmptyString => true
  | String c s' =>
      (if Ascii.eqb c "<"%char then
         match tag_end s' with Some _ => false | None => true end
       else true)
      && tag_free s'
  end.

(** ** Sample inputs *)

Definition empty_db : database := Database ∅ ∅.

Definition fresh : state := State empty_db [].

(** A world whose providers all give the same answer and whose model always
    gives the same outcome. *)
Definition sample_world (answer : http_outcome) (outcome : gemini_outcome) : world :=
  World (fun _ => None) (fun _ _ _ _ => answer) (fun _ _ => outcome)
        (fun _ => "2025-01-01 00:00:00") (fun _ => false).

Definition newsapi_hits : pyval :=
  VDict [("status", VStr "ok");
         ("articles", VList [VDict [("source", VDict [("id", VNone); ("name", VStr "Reuters")]);
                                    ("title", VStr "Tanker attack in the strait");
                                    ("description", VNone);
                                    ("url", VStr "https://example.org/tanker");
                                    ("publishedAt", VStr "2025-01-01T00:00:00Z")]])].

Definition newsapi_null_source : pyval :=
  VDict [("status", VStr "ok");
         ("articles", VList [VDict [("source", VNone); ("title", VStr "Oil prices")]])].

Definition wikipedia_hits : pyval :=
  VDict [("query", VDict [("search",
     VList [VDict [("title", VStr "Oil spill"); ("pageid", VInt 42);
                   ("snippet", VStr "An <b>attack</b> on a tanker")]])])].

(** NewsAPI and Wikipedia answer; NewsData.io answers with an error status. *)
Definition one_provider_down (outcome : gemini_outcome) : world :=
  World (fun _ => None)
        (fun _ url _ _ =>
           if is_str url "https://en.wikipedia.org/w/api.php"
           then Responded 200 (Some wikipedia_hits)
           else if is_str url "https://newsapi.org/v2/everything"
           then Responded 200 (Some newsapi_hits)
           else Responded 503 None)
        (fun _ _ => outcome)
        (fun _ => "2025-01-01 00:00:00")
        (fun _ => false).

(** The same world with a store that raises in every write. *)
Definition locked_store (W : world) : world :=
  World (getenv W) (http_get W) (generate_content W) (current_timestamp W)
        (fun _ => true).

(** A store with two flagged sources. *)
Definition two_sources : state :=
  State (Database (<["Reuters" := SourceProfile 3 "2025-01-01 00:00:00"]>
                     (<["Wikipedia" := SourceProfile 5 "2025-01-02 00:00:00"]> ∅)) ∅)
        [].

Definition tagged_article : dict :=
  [("source", VStr "newsroom"); ("title", VStr "Market report");
   ("description", VStr "Prices rose."); ("link", VNone); ("pub_date", VNone);
   ("keywords", VList [VStr "scammer"]); ("api_type", VStr "news")].

Definition plain_article : dict :=
  [("source", VStr ""); ("title", VStr "Bomb threat at the port"); ("description", VNone);
   ("link", VStr "https://example.org/1"); ("pub_date", VStr "2025-01-01");
   ("keywords", VList []); ("api_type", VStr "news")].

Definition exact_reply : string :=
  "SENTIMENT=neutral INTENT=harmless1 REASON=no issue found".

Definition harmful_reply : string :=
  "SENTIMENT=negative2 INTENT=harmful2 REASON=an attack is reported".

(** A reply that copies the braces of the format line of the prompt. *)
Definition braced_reply : string := "SENTIMENT={negative2} INTENT={harmful2}".

(** * Proofs *)

#[local] Arguments String.append !s1 s2 : simpl nomatch.

(** ** Characters *)

Lemma forall_bool_spec (f : bool -> bool) :
  forall_bool f = true -> forall b, f b = true.
Proof.
  unfold forall_bool. intros H b.
  apply andb_true_iff in H as [Ht Hf]. destruct b; assumption.
Qed.

Lemma forall_ascii_spec (P : ascii -> bool) :
  forall_ascii P = true -> forall c, P c = true.
Proof.
  intros H [b0 b1 b2 b3 b4 b5 b6 b7]. unfold forall_ascii in H.
  pose proof (forall_bool_spec _ H b0) as H0; cbv beta in H0.
  pose proof (forall_bool_spec _ H0 b1) as H1; cbv beta in H1.
  pose proof (forall_bool_spec _ H1 b2) as H2; cbv beta in H2.
  pose proof (forall_bool_spec _ H2 b3) as H3; cbv beta in H3.
  pose proof (forall_bool_spec _ H3 b4) as H4; cbv beta in H4.
  pose proof (forall_bool_spec _ H4 b5) as H5; cbv beta in H5.
  pose proof (forall_bool_spec _ H5 b6) as H6; cbv beta in H6.
  exact (forall_bool_spec _ H6 b7).
Qed.

(** A character that matches a lower-case letter under [re.IGNORECASE] is a
    word character. *)
Lemma eq_ci_letter_word (a b : ascii) :
  is_lower_letter a = true -> eq_ci a b = true -> is_word b = true.
Proof.
  intros Ha Hb.
  assert (H : forall_ascii (fun a => forall_ascii (fun b =>
              implb (is_lower_letter a && eq_ci a b) (is_word b))) = true)
    by (vm_compute; reflexivity).
  pose proof (forall_ascii_spec _ (forall_ascii_spec _ H a) b) as H'.
  cbv beta in H'. rewrite Ha, Hb in H'. exact H'.
Qed.

Lemma eq_ci_lower (a b : ascii) :
  eq_ci a b = true <-> lower_char b = lower_char a.
Proof.
  unfold eq_ci. rewrite Ascii.eqb_eq. split; congruence.
Qed.

Lemma lower_letter_fixed (a : ascii) :
  is_lower_letter a = true -> lower_char a = a.
Proof.
  intros Ha.
  assert (H : forall_ascii (fun a =>
              implb (is_lower_letter a) (Ascii.eqb (lower_char a) a)) = true)
    by (vm_compute; reflexivity).
  pose proof (forall_ascii_spec _ H a) as H'. cbv beta in H'.
  rewrite Ha in H'. now apply Ascii.eqb_eq.
Qed.

(** ** Strings *)

Lemma append_empty_r (s : string) : s +:+ "" = s.
Proof. induction s as [|c s IH]; simpl; [reflexivity | now rewrite IH]. Qed.

Lemma append_assoc (a b c : string) : (a +:+ b) +:+ c = a +:+ (b +:+ c).
Proof. induction a as [|x a IH]; simpl; [reflexivity | now rewrite IH]. Qed.

Lemma lower_empty (s : string) : lower s = "" -> s = "".
Proof. destruct s; simpl; [reflexivity | discriminate]. Qed.

Lemma lower_append (a b : string) : lower (a +:+ b) = lower a +:+ lower b.
Proof. induction a as [|x a IH]; simpl; [reflexivity | now rewrite IH]. Qed.

Lemma lower_letters_fixed (w : string) :
  lower_letters w = true -> lower w = w.
Proof.
  unfold lower_letters. induction w as [|a w IH]; simpl; [reflexivity |].
  intros H. apply andb_true_iff in H as [Ha Hw].
  now rewrite (lower_letter_fixed a Ha), IH.
Qed.

(** ** The keyword detector *)

(** After a word character: the literal, then the closing boundary. *)
Lemma literal_then_boundary_spec (v s : string) (prev : option ascii) :
  lower_letters v = true ->
  word_opt prev = true ->
  literal_then_boundary prev v s = true <->
  exists mid after,
    s = mid +:+ after /\ lower mid = lower v /\ word_opt (head after) = false.
Proof.
  revert s prev. induction v as [|a v IH]; intros s prev Hv Hprev; simpl.
  - unfold at_boundary. rewrite Hprev. split.
    + intros H. exists "", s. simpl. repeat split.
      destruct (word_opt (head s)); [discriminate | reflexivity].
    + intros (mid & after & -> & Hmid & Hafter).
      apply lower_empty in Hmid as ->. simpl. now rewrite Hafter.
  - unfold lower_letters in Hv. simpl in Hv.
    apply andb_true_iff in Hv as [Ha Hv].
    destruct s as [|b s].
    + split; [discriminate |].
      intros (mid & after & Hs & Hmid & _).
      destruct mid; simpl in *; discriminate.
    + rewrite andb_true_iff, eq_ci_lower. split.
      * intros [Hab Hrest].
        apply (IH s (Some b) Hv) in Hrest as (mid & after & -> & Hmid & Hafter).
        -- exists (String b mid), after. simpl. rewrite Hab, Hmid. auto.
        -- simpl. apply (eq_ci_letter_word a b Ha). now apply eq_ci_lower.
      * intros (mid & after & Hs & Hmid & Hafter).
        destruct mid as [|b' mid]; simpl in Hmid; [discriminate |].
        simpl in Hs. injection Hs as Hbb ->. subst b'. injection Hmid as Hb Hmid.
        split; [assumption |].
        apply (IH _ (Some b) Hv).
        -- simpl. apply (eq_ci_letter_word a b Ha). now apply eq_ci_lower.
        -- exists mid, after. auto.
Qed.

(** At one position: the opening boundary, the literal, the closing
    boundary. *)
Lemma match_here_spec (w s : string) (prev : option ascii) :
  lower_letters w = true -> w <> "" ->
  at_boundary prev s && literal_then_boundary prev w s = true <->
  word_opt prev = false /\
  exists mid after,
    s = mid +:+ after /\ lower mid = lower w /\ word_opt (head after) = false.
Proof.
  intros Hw Hne. destruct w as [|a v]; [congruence |]. clear Hne.
  pose proof Hw as Hw'. unfold lower_letters in Hw'. simpl in Hw'.
  apply andb_true_iff in Hw' as [Ha Hv].
  destruct s as [|b s].
  - simpl. rewrite andb_false_r. split; [discriminate |].
    intros (_ & mid & after & Hs & Hmid & _).
    destruct mid; simpl in *; discriminate.
  - simpl. destruct (eq_ci a b) eqn:Hab; simpl.
    + assert (Hb : is_word b = true) by exact (eq_ci_letter_word a b Ha Hab).
      unfold at_boundary. simpl. rewrite Hb.
      rewrite andb_true_iff.
      rewrite (literal_then_boundary_spec v s (Some b) Hv Hb).
      apply eq_ci_lower in Hab.
      split.
      * intros [Hp (mid & after & -> & Hmid & Hafter)].
        split; [destruct (word_opt prev); [discriminate | reflexivity] |].
        exists (String b mid), after. simpl. rewrite Hab, Hmid. auto.
      * intros (Hp & mid & after & Hs & Hmid & Hafter).
        rewrite Hp. split; [reflexivity |].
        destruct mid as [|b' mid]; simpl in Hmid; [discriminate |].
        simpl in Hs. injection Hs as Hbb ->. subst b'. injection Hmid as _ Hmid.
        exists mid, after. auto.
    + rewrite andb_false_r. split; [discriminate |].
      intros (_ & mid & after & Hs & Hmid & _).
      destruct mid as [|b' mid]; simpl in Hmid; [discriminate |].
      simpl in Hs. injection Hs as Hbb ->. subst b'. injection Hmid as Hb _.
      apply eq_ci_lower in Hb. congruence.
Qed.

Lemma search_word_from_spec (w s : string) (prev : option ascii) :
  lower_letters w = true -> w <> "" ->
  search_word_from prev w s = true <->
  exists before mid after,
    s = before +:+ mid +:+ after /\
    lower mid = lower w /\
    word_opt (last_or prev before) = false /\
    word_opt (head after) = false.
Proof.
  intros Hw Hne. revert prev. induction s as [|c s IH]; intros prev.
  - simpl search_word_from. rewrite orb_false_r, (match_here_spec w "" prev Hw Hne).
    split.
    + intros (Hp & mid & after & Hs & Hmid & Hafter).
      exists "", mid, after. auto.
    + intros (before & mid & after & Hs & Hmid & Hp & Hafter).
      destruct before; [| discriminate]. simpl in *. eauto 6.
  - simpl search_word_from.
    rewrite orb_true_iff, (match_here_spec w (String c s) prev Hw Hne), IH.
    split.
    + intros [(Hp & mid & after & Hs & Hmid & Hafter)
             | (before & mid & after & Hs & Hmid & Hp & Hafter)].
      * exists "", mid, after. auto.
      * exists (String c before), mid, after. simpl. rewrite Hs. auto.
    + intros (before & mid & after & Hs & Hmid & Hp & Hafter).
      destruct before as [|c' before]; simpl in Hs, Hp.
      * left. eauto 6.
      * injection Hs as Hcc ->. subst c'. right. eauto 7.
Qed.

(** On a keyword made of lower-case letters the pattern finds exactly the
    whole-word occurrences. *)
Lemma search_word_whole_word (w s : string) :
  lower_letters w = true -> w <> "" ->
  search_word w s = true <-> occurs_as_whole_word w s.
Proof.
  intros Hw Hne. unfold search_word, occurs_as_whole_word.
  apply search_word_from_spec; assumption.
Qed.

Lemma HARMFUL_KEYWORDS_letters (w : string) :
  w ∈ HARMFUL_KEYWORDS -> lower_letters w = true /\ w <> "".
Proof.
  unfold HARMFUL_KEYWORDS. intros H.
  repeat (apply elem_of_cons in H as [-> | H];
          [split; [vm_compute; reflexivity | discriminate] |]).
  now apply elem_of_nil in H.
Qed.

Lemma elem_of_detect_harmful_words (text : pyval) (w : string) :
  w ∈ detect_harmful_words text <->
  truthy text = true /\ w ∈ HARMFUL_KEYWORDS /\ search_word w (py_str text) = true.
Proof.
  unfold detect_harmful_words, set_of. destruct (truthy text).
  - rewrite elem_of_remove_dups, list_elem_of_fmap. split.
    + intros (k & -> & Hk).
      apply list_elem_of_In, filter_In in Hk as [Hk Hs].
      apply list_elem_of_In in Hk.
      destruct (HARMFUL_KEYWORDS_letters k Hk) as [Hl _].
      rewrite (lower_letters_fixed k Hl). auto.
    + intros (_ & Hk & Hs). exists w. split.
      * destruct (HARMFUL_KEYWORDS_letters w Hk) as [Hl _].
        now rewrite (lower_letters_fixed w Hl).
      * apply list_elem_of_In, filter_In. split; [now apply list_elem_of_In | assumption].
  - split; [intros H; now apply elem_of_nil in H | intros [H _]; discriminate].
Qed.

(** ** Prefixes and substrings *)

Lemma startswith_spec (p s : string) :
  startswith p s = true <-> exists r, s = p +:+ r.
Proof.
  revert s. induction p as [|a p IH]; intros s; simpl.
  - split; [intros _; now exists s | reflexivity].
  - destruct s as [|b s]; simpl.
    + split; [discriminate | intros [r Hr]; discriminate].
    + destruct (Ascii.eqb a b) eqn:Hab; simpl.
      * apply Ascii.eqb_eq in Hab as ->.
        rewrite IH. split; intros [r Hr]; exists r; congruence.
      * apply Ascii.eqb_neq in Hab.
        split; [discriminate | intros [r Hr]; congruence].
Qed.

Lemma contains_spec (p s : string) :
  contains p s = true <-> exists a b, s = a +:+ p +:+ b.
Proof.
  induction s as [|c s IH]; simpl contains.
  - rewrite orb_false_r, startswith_spec. split.
    + intros [r Hr]. now exists "", r.
    + intros (a & b & H). destruct a; [| discriminate]. now exists b.
  - rewrite orb_true_iff, startswith_spec, IH. split.
    + intros [[r Hr] | (a & b & ->)].
      * now exists "", r.
      * now exists (String c a), b.
    + intros (a & b & H). destruct a as [|c' a]; simpl in H.
      * left. now exists b.
      * injection H as _ ->. right. now exists a, b.
Qed.

Lemma drop_prefix_spec (p s r : string) :
  drop_prefix p s = Some r <-> s = p +:+ r.
Proof.
  revert s. induction p as [|a p IH]; intros s; simpl.
  - split; congruence.
  - destruct s as [|b s]; [split; discriminate |].
    destruct (Ascii.eqb a b) eqn:Hab.
    + apply Ascii.eqb_eq in Hab as ->. rewrite IH. split; congruence.
    + apply Ascii.eqb_neq in Hab. split; [discriminate | congruence].
Qed.

Lemma drop_prefix_startswith (p s : string) :
  is_Some (drop_prefix p s) <-> startswith p s = true.
Proof.
  rewrite startswith_spec. split.
  - intros [r Hr]. exists r. now apply drop_prefix_spec.
  - intros [r Hr]. exists r. now apply drop_prefix_spec.
Qed.

(** ** The patterns of the reply *)

Lemma search_rest_contains (marker s : string) :
  is_Some (search_rest marker s) <-> contains marker s = true.
Proof.
  induction s as [|c s IH]; simpl.
  - rewrite orb_false_r, <- drop_prefix_startswith.
    destruct (drop_prefix marker ""); split; intros [x Hx]; eauto; discriminate.
  - rewrite orb_true_iff, <- drop_prefix_startswith, <- IH.
    destruct (drop_prefix marker (String c s)).
    + split; eauto.
    + split; [now right | intros [[x Hx] | H]; [discriminate | assumption]].
Qed.

Lemma search_rest_absent (marker s : string) :
  contains marker s = false -> search_rest marker s = None.
Proof.
  intros H. destruct (search_rest marker s) eqn:Hs; [| reflexivity].
  assert (contains marker s = true) by (apply search_rest_contains; eauto).
  congruence.
Qed.

Lemma take_alnum_spec (s : string) :
  exists rest,
    s = take_alnum s +:+ rest /\
    all_alnum (take_alnum s) = true /\
    alnum_opt (head rest) = false.
Proof.
  induction s as [|c s (rest & Hs & Hall & Hrest)]; simpl.
  - now exists "".
  - destruct (is_ascii_alnum c) eqn:Hc.
    + exists rest. unfold all_alnum in *. simpl. rewrite Hc, <- Hs. auto.
    + exists (String c s). simpl. auto.
Qed.

Lemma label_at_spec (marker s g : string) :
  label_at marker s = Some g ->
  g <> "" /\ all_alnum g = true /\
  exists after, s = marker +:+ g +:+ after /\ alnum_opt (head after) = false.
Proof.
  unfold label_at. destruct (drop_prefix marker s) as [r|] eqn:Hr; [| discriminate].
  apply drop_prefix_spec in Hr as ->.
  destruct (take_alnum_spec r) as (rest & Hs & Hall & Hrest).
  destruct (take_alnum r) as [|c g'] eqn:Hg; simpl; [discriminate |].
  intros [= <-]. repeat split; [discriminate | assumption |].
  exists rest. now rewrite <- Hs.
Qed.

Lemma label_at_follows (marker s : string) :
  is_Some (label_at marker s) <->
  exists c after, s = marker +:+ String c after /\ is_ascii_alnum c = true.
Proof.
  unfold label_at. split.
  - intros [g Hg]. destruct (drop_prefix marker s) as [r|] eqn:Hr; [| discriminate].
    apply drop_prefix_spec in Hr as ->.
    destruct r as [|c r]; simpl in Hg; [discriminate |].
    destruct (is_ascii_alnum c) eqn:Hc; [| discriminate]. eauto.
  - intros (c & after & -> & Hc).
    assert (Hr : drop_prefix marker (marker +:+ String c after) = Some (String c after))
      by now apply drop_prefix_spec.
    rewrite Hr. simpl. rewrite Hc. simpl. eauto.
Qed.

(** The label pattern finds something exactly when the marker is somewhere
    followed by a letter or a digit. *)
Lemma search_label_follows (marker s : string) :
  is_Some (search_label marker s) <-> label_follows marker s.
Proof.
  unfold label_follows. induction s as [|x s IH]; simpl.
  - destruct (label_at marker "") as [g|] eqn:Hg.
    + split; [intros _ | eauto].
      destruct (proj1 (label_at_follows marker "")) as (c & after & H & Hc); [eauto |].
      exists "", c, after. auto.
    + split; [intros [y Hy]; discriminate |].
      intros (before & c & after & H & Hc).
      destruct before; [| discriminate]. simpl in H.
      assert (is_Some (label_at marker "")) as [y Hy]
        by (apply label_at_follows; eauto).
      congruence.
  - destruct (label_at marker (String x s)) as [g|] eqn:Hg.
    + split; [intros _ | eauto].
      destruct (proj1 (label_at_follows marker (String x s))) as (c & after & H & Hc);
        [eauto |].
      exists "", c, after. auto.
    + rewrite IH. split.
      * intros (before & c & after & -> & Hc). exists (String x before), c, after. auto.
      * intros (before & c & after & H & Hc).
        destruct before as [|x' before]; simpl in H.
        -- assert (is_Some (label_at marker (String x s))) as [y Hy]
             by (apply label_at_follows; eauto).
           congruence.
        -- injection H as _ ->. eauto.
Qed.

(** What the label pattern captures: a non-empty run of letters and digits
    that stands right after the marker and ends where the run ends. *)
Lemma search_label_spec (marker s g : string) :
  search_label marker s = Some g ->
  g <> "" /\ all_alnum g = true /\
  exists before after,
    s = before +:+ marker +:+ g +:+ after /\ alnum_opt (head after) = false.
Proof.
  induction s as [|x s IH]; simpl.
  - destruct (label_at marker "") as [g'|] eqn:Hg; [| discriminate].
    intros [= ->]. destruct (label_at_spec _ _ _ Hg) as (Hne & Hall & after & Hs & Ha).
    repeat split; try assumption. now exists "", after.
  - destruct (label_at marker (String x s)) as [g'|] eqn:Hg.
    + intros [= ->]. destruct (label_at_spec _ _ _ Hg) as (Hne & Hall & after & Hs & Ha).
      repeat split; try assumption. now exists "", after.
    + intros H. destruct (IH H) as (Hne & Hall & before & after & -> & Ha).
      repeat split; try assumption. now exists (String x before), after.
Qed.

Lemma search_label_absent (marker s : string) :
  ~ label_follows marker s -> search_label marker s = None.
Proof.
  intros H. destruct (search_label marker s) eqn:Hs; [| reflexivity].
  exfalso. apply H, search_label_follows. eauto.
Qed.

(** ** Dictionaries *)

Lemma dict_get_set_eq (k : string) (v default : pyval) (d : dict) :
  dict_get k default (dict_set k v d) = v.
Proof.
  unfold dict_get. induction d as [|[k' v'] d IH]; simpl.
  - now rewrite String.eqb_refl.
  - destruct (String.eqb k k') eqn:Hk; simpl.
    + now rewrite String.eqb_refl.
    + now rewrite Hk.
Qed.

Lemma dict_get_set_ne (k k' : string) (v default : pyval) (d : dict) :
  String.eqb k k' = false ->
  dict_get k default (dict_set k' v d) = dict_get k default d.
Proof.
  intros Hne. unfold dict_get. induction d as [|[k'' v''] d IH]; simpl.
  - now rewrite Hne.
  - destruct (String.eqb k' k'') eqn:Hk; simpl.
    + apply String.eqb_eq in Hk as <-. now rewrite Hne.
    + destruct (String.eqb k k''); [reflexivity | assumption].
Qed.

Ltac dict_fields :=
  unfold field;
  repeat first [ rewrite dict_get_set_eq
               | rewrite dict_get_set_ne by reflexivity ].

(** ** Running a computation *)

Lemma run_bind {A B : Type} (m : M A) (k : A -> M B) (s : state) :
  (m ≫= k) s =
  match m s with
  | (Ok a, s') => k a s'
  | (Raise e, s') => (Raise e, s')
  end.
Proof. reflexivity. Qed.

Lemma run_lift {A : Type} (r : result A) (s : state) : lift r s = (r, s).
Proof. reflexivity. Qed.

Lemma run_ret {A : Type} (a : A) (s : state) : (mret a : M A) s = (Ok a, s).
Proof. reflexivity. Qed.

(** ** The classification step *)

(** The model call never raises: whatever the outcome, a text comes back. *)
Lemma fetch_from_gemini_returns (W : world) (text harm_words : string) (s : state) :
  fetch_from_gemini_sentiment_intent W text harm_words s =
  (Ok (returned_text (generate_content W (trace s) (build_prompt text harm_words))),
   State (db s) (trace s ++ [EvGenerateContent (build_prompt text harm_words)])).
Proof. reflexivity. Qed.

Lemma categorize_article_inv (W : world) (article a' : dict) (s s' : state) :
  categorize_article W article s = (Ok a', s') ->
  exists kws prompt sentiment intent reason,
    py_iter (py_or (field "keywords" article) (VList [])) = Ok kws /\
    s' = State (db s) (trace s ++ [EvGenerateContent prompt]) /\
    let raw := returned_text (generate_content W (trace s) prompt) in
    let harmful_words :=
      set_of (detect_harmful_words (dict_get "title" (VStr "") article)
              ++ detect_harmful_words (dict_get "description" (VStr "") article)
              ++ harmful_in_tags kws) in
    parse_labels raw = (sentiment, intent, reason) /\
    a' = dict_set "gemini_raw" (VStr raw)
        (dict_set "gemini_reason" (VStr reason)
        (dict_set "gemini_intent" (VStr intent)
        (dict_set "gemini_sentiment" (VStr sentiment)
        (dict_set "harmful_words" (VList (map VStr harmful_words))
        (dict_set "harmful" (VBool (startswith "harmful" intent)) article))))).
Proof.
  unfold categorize_article, field. rewrite run_bind, run_lift.
  destruct (py_iter _) as [kws | e]; [| discriminate].
  rewrite run_bind, run_lift.
  destruct (str_operand (py_or (dict_get "title" VNone article) (VStr "")))
    as [title | e]; [| discriminate].
  rewrite run_bind, run_lift.
  destruct (str_operand (py_or (dict_get "description" VNone article) (VStr "")))
    as [description | e]; [| discriminate].
  rewrite run_bind, fetch_from_gemini_returns.
  match goal with
  | |- context [returned_text (generate_content W (trace s) ?p)] => set (prompt := p)
  end.
  destruct (parse_labels _) as [[sentiment intent] reason] eqn:Hparse.
  rewrite run_ret. intros [= <- <-].
  exists kws, prompt, sentiment, intent, reason. cbv zeta. auto.
Qed.

Lemma detect_default (k : string) (article : dict) :
  detect_harmful_words (dict_get k (VStr "") article)
  = detect_harmful_words (field k article).
Proof.
  unfold field, dict_get. now destruct (dict_lookup k article).
Qed.

Lemma elem_of_harmful_in_tags (tags : list pyval) (w : string) :
  w ∈ harmful_in_tags tags <->
  w ∈ HARMFUL_KEYWORDS /\
  exists tag, tag ∈ tags /\ occurs_ignoring_case w (py_str tag).
Proof.
  unfold harmful_in_tags, occurs_ignoring_case.
  rewrite list_elem_of_In, in_flat_map. split.
  - intros (tag & Htag & Hw). apply filter_In in Hw as [Hw Hc].
    apply list_elem_of_In in Htag, Hw. apply contains_spec in Hc. eauto.
  - intros (Hw & tag & Htag & Hc). exists tag.
    rewrite filter_In, contains_spec, <- !list_elem_of_In. auto.
Qed.

Lemma str_items_strings (ws : list string) : str_items (VList (map VStr ws)) = ws.
Proof.
  unfold str_items. induction ws as [|w ws IH]; [reflexivity |].
  simpl. f_equal. exact IH.
Qed.

(** The fields the classification step writes. *)
Lemma categorize_article_fields (W : world) (article a' : dict) (s s' : state) :
  categorize_article W article s = (Ok a', s') ->
  exists tags prompt sentiment intent reason,
    py_iter (py_or (field "keywords" article) (VList [])) = Ok tags /\
    s' = State (db s) (trace s ++ [EvGenerateContent prompt]) /\
    parse_labels (returned_text (generate_content W (trace s) prompt))
      = (sentiment, intent, reason) /\
    field "gemini_raw" a' = VStr (returned_text (generate_content W (trace s) prompt)) /\
    field "gemini_sentiment" a' = VStr sentiment /\
    field "gemini_intent" a' = VStr intent /\
    field "gemini_reason" a' = VStr reason /\
    field "harmful" a' = VBool (startswith "harmful" intent) /\
    field "harmful_words" a' =
      VList (map VStr (set_of (detect_harmful_words (field "title" article)
                               ++ detect_harmful_words (field "description" article)
                               ++ harmful_in_tags tags))) /\
    (forall default, dict_get "source" default a' = dict_get "source" default article).
Proof.
  intros H. apply categorize_article_inv in H
    as (tags & prompt & sentiment & intent & reason & Htags & Hs & Hparse & ->).
  cbv zeta in Hparse. rewrite !detect_default.
  exists tags, prompt, sentiment, intent, reason.
  repeat split; try assumption; try (dict_fields; reflexivity).
  intros default. now dict_fields.
Qed.

(** The harmful words the classification step stores are strings, so the
    list [api_analyze] hands to [update_keyword_trends] is that list. *)
Lemma categorize_article_harmful_words (W : world) (article a' : dict) (s s' : state) :
  categorize_article W article s = (Ok a', s') ->
  exists ws,
    dict_get "harmful_words" (VList []) a' = VList (map VStr ws) /\
    harmful_words_of a' = ws.
Proof.
  intros H. apply categorize_article_inv in H
    as (tags & prompt & sentiment & intent & reason & _ & _ & _ & ->).
  eexists. unfold harmful_words_of. dict_fields.
  split; [reflexivity | apply str_items_strings].
Qed.

Lemma categorize_article_total (W : world) (article : dict) (s : state) :
  classifiable article = true <->
  exists a' s', categorize_article W article s = (Ok a', s').
Proof.
  split.
  - unfold classifiable, field. intros H.
    apply andb_true_iff in H as [H Hd]. apply andb_true_iff in H as [Hk Ht].
    unfold categorize_article.
    assert (exists kws, py_iter (py_or (dict_get "keywords" VNone article) (VList []))
                        = Ok kws) as [kws ->].
    { unfold py_or. destruct (dict_get "keywords" VNone article) as [| [] | z | x | l | d];
        simpl in *; try discriminate; eauto.
      - destruct (z =? 0)%Z; simpl in *; [eauto | discriminate].
      - destruct x; simpl; eauto.
      - destruct l; simpl; eauto.
      - destruct d; simpl; eauto. }
    assert (Htext : forall v, text_or_empty v = true ->
              exists t, str_operand (py_or v (VStr "")) = Ok t).
    { intros v Hv. unfold py_or.
      destruct v as [| [] | z | x | l | d]; simpl in *; try discriminate; eauto.
      - destruct (z =? 0)%Z; simpl in *; [eauto | discriminate].
      - destruct x; simpl; eauto.
      - destruct l; simpl in *; [eauto | discriminate].
      - destruct d; simpl in *; [eauto | discriminate]. }
    destruct (Htext _ Ht) as [title ->]. destruct (Htext _ Hd) as [description ->].
    do 3 (rewrite run_bind, run_lift; cbv beta iota).
    rewrite run_bind, fetch_from_gemini_returns.
    destruct (parse_labels _) as [[sentiment intent] reason].
    rewrite run_ret. eauto.
  - intros (a' & s' & H). unfold categorize_article in H.
    rewrite run_bind, run_lift in H. unfold classifiable, field.
    assert (Htext : forall v t, str_operand (py_or v (VStr "")) = Ok t ->
              text_or_empty v = true).
    { intros v t. unfold py_or.
      destruct v as [| [] | z | x | l | d]; simpl; try discriminate; try reflexivity.
      - destruct (z =? 0)%Z; simpl; [reflexivity | discriminate].
      - destruct l; simpl; [reflexivity | discriminate].
      - destruct d; simpl; [reflexivity | discriminate]. }
    destruct (py_iter _) as [kws | e] eqn:Hk; [| discriminate].
    rewrite run_bind, run_lift in H.
    destruct (str_operand (py_or (dict_get "title" VNone article) (VStr "")))
      as [title | e] eqn:Ht; [| discriminate].
    rewrite run_bind, run_lift in H.
    destruct (str_operand (py_or (dict_get "description" VNone article) (VStr "")))
      as [description | e] eqn:Hd; [| discriminate].
    rewrite (Htext _ _ Ht), (Htext _ _ Hd), !andb_true_r.
    revert Hk. unfold py_or.
    destruct (dict_get "keywords" VNone article) as [| [] | z | x | l | d];
      simpl; try discriminate; try reflexivity.
    destruct (z =? 0)%Z; simpl; [reflexivity | discriminate].
Qed.

(** ** C2: the keyword detector *)

(** C2.  The Keyword Detector is a function of its text alone; it finds
    nothing in an absent or empty text; and a word of the harmful list is in
    its result exactly when the text is not empty and the word stands in it
    as a whole word, in any mix of cases.  So "scammer" does not match
    "scam". *)
Theorem detect_harmful_words_whole_word :
  (forall t1 t2 : pyval, t1 = t2 ->
     forall w, w ∈ detect_harmful_words t1 <-> w ∈ detect_harmful_words t2) /\
  detect_harmful_words VNone = [] /\
  detect_harmful_words (VStr "") = [] /\
  (forall (text : pyval) (w : string),
     w ∈ detect_harmful_words text <->
     truthy text = true /\ w ∈ HARMFUL_KEYWORDS /\
     occurs_as_whole_word w (py_str text)) /\
  (forall text : pyval, NoDup (detect_harmful_words text)) /\
  detect_harmful_words (VStr "scammer") = [] /\
  detect_harmful_words (VStr "A SCAM, they say") = ["scam"].
Proof.
  split; [intros t1 t2 -> w; reflexivity |].
  split; [reflexivity |]. split; [reflexivity |].
  split.
  { intros text w. rewrite elem_of_detect_harmful_words. split.
    - intros (Ht & Hw & Hs). destruct (HARMFUL_KEYWORDS_letters w Hw) as [Hl Hne].
      repeat split; try assumption. now apply search_word_whole_word.
    - intros (Ht & Hw & Hs). destruct (HARMFUL_KEYWORDS_letters w Hw) as [Hl Hne].
      repeat split; try assumption. now apply search_word_whole_word. }
  split.
  { intros text. unfold detect_harmful_words, set_of.
    destruct (truthy text); [apply NoDup_remove_dups | constructor]. }
  split; vm_compute; reflexivity.
Qed.

(** ** C3: the harmful words of an article *)

(** C3, as the code has it.  The harmful words stored in a classified
    article are the union of the Keyword Detector's result on the title, its
    result on the description, and the words of the harmful list that
    occur, in any mix of cases, anywhere inside the text of some provider
    tag: a tag is searched for substrings, not for whole words. *)
Theorem harmful_words_of_article (W : world) (article a' : dict) (s s' : state) :
  categorize_article W article s = (Ok a', s') ->
  exists tags ws,
    py_iter (py_or (field "keywords" article) (VList [])) = Ok tags /\
    field "harmful_words" a' = VList (map VStr ws) /\
    NoDup ws /\
    forall w, w ∈ ws <->
      w ∈ detect_harmful_words (field "title" article) \/
      w ∈ detect_harmful_words (field "description" article) \/
      (w ∈ HARMFUL_KEYWORDS /\
       exists tag, tag ∈ tags /\ occurs_ignoring_case w (py_str tag)).
Proof.
  intros H. apply categorize_article_fields in H
    as (tags & prompt & sentiment & intent & reason & Htags & _ & _ & _ & _ & _ & _ & _
        & Hws & _).
  eexists tags, _. split; [assumption |]. split; [exact Hws |].
  split; [apply NoDup_remove_dups |].
  intros w. unfold set_of.
  rewrite elem_of_remove_dups, !elem_of_app, elem_of_harmful_in_tags. tauto.
Qed.

Lemma harmful_words_of_article_witness :
  exists a' s',
    categorize_article (sample_world ConnectionFailed (GText "SENTIMENT=neutral"))
      tagged_article fresh = (Ok a', s') /\
    exists tags ws,
      py_iter (py_or (field "keywords" tagged_article) (VList [])) = Ok tags /\
      field "harmful_words" a' = VList (map VStr ws) /\
      NoDup ws /\
      forall w, w ∈ ws <->
        w ∈ detect_harmful_words (field "title" tagged_article) \/
        w ∈ detect_harmful_words (field "description" tagged_article) \/
        (w ∈ HARMFUL_KEYWORDS /\
         exists tag, tag ∈ tags /\ occurs_ignoring_case w (py_str tag)).
Proof.
  eexists _, _. split; [vm_compute; reflexivity |].
  eapply (harmful_words_of_article
            (sample_world ConnectionFailed (GText "SENTIMENT=neutral"))
            tagged_article _ fresh).
  vm_compute. reflexivity.
Defined.

(** The tag "scammer" puts "scam" among the harmful words of the article,
    though the Keyword Detector finds nothing in the title, the description
    or the tag. *)
Lemma tag_matches_inside_word :
  exists a' s',
    categorize_article (sample_world ConnectionFailed (GText "SENTIMENT=neutral"))
      tagged_article fresh = (Ok a', s') /\
    field "keywords" tagged_article = VList [VStr "scammer"] /\
    field "harmful_words" a' = VList [VStr "scam"] /\
    (detect_harmful_words (field "title" tagged_article)
     ++ detect_harmful_words (field "description" tagged_article)
     ++ detect_harmful_words (VStr "scammer"))%list = [].
Proof.
  eexists _, _. split; [vm_compute; reflexivity |].
  repeat split.
Qed.

(** ** C4, C5, C10: reading the reply *)

Lemma parse_labels_unmarked (reply : string) :
  has_both_markers reply = false -> parse_labels reply = ("", "", "").
Proof. unfold has_both_markers, parse_labels. now intros ->. Qed.

(** C4.  The reply of the exact form parses to sentiment "neutral", intent
    "harmless1", reason "no issue found" and is not harmful; and whatever
    the reply, the labels stored in the article are the ones parsed from the
    raw reply, and the article is flagged harmful exactly when the parsed
    intent starts with "harmful". *)
Theorem harmful_flag_is_intent_prefix (W : world) (article a' : dict) (s s' : state) :
  categorize_article W article s = (Ok a', s') ->
  exists raw sentiment intent reason flag,
    field "gemini_raw" a' = VStr raw /\
    parse_labels raw = (sentiment, intent, reason) /\
    field "gemini_sentiment" a' = VStr sentiment /\
    field "gemini_intent" a' = VStr intent /\
    field "gemini_reason" a' = VStr reason /\
    field "harmful" a' = VBool flag /\
    (flag = true <-> exists rest, intent = "harmful" +:+ rest) /\
    (raw = exact_reply ->
       sentiment = "neutral" /\ intent = "harmless1" /\
       reason = "no issue found" /\ flag = false).
Proof.
  intros H. apply categorize_article_fields in H
    as (tags & prompt & sentiment & intent & reason & _ & _ & Hparse & Hraw & Hs & Hi & Hr
        & Hh & _).
  eexists _, sentiment, intent, reason, _.
  repeat (split; [eassumption |]).
  split; [apply startswith_spec |].
  intros Hexact. rewrite Hexact in Hparse. vm_compute in Hparse.
  injection Hparse as <- <- <-. repeat split.
Qed.

Lemma harmful_flag_is_intent_prefix_witness :
  exists a' s',
    categorize_article (sample_world ConnectionFailed (GText exact_reply))
      plain_article fresh = (Ok a', s') /\
    field "gemini_sentiment" a' = VStr "neutral" /\
    field "gemini_intent" a' = VStr "harmless1" /\
    field "gemini_reason" a' = VStr "no issue found" /\
    field "harmful" a' = VBool false.
Proof.
  eassert (Hrun : categorize_article (sample_world ConnectionFailed (GText exact_reply))
                    plain_article fresh = (Ok _, _)) by (vm_compute; reflexivity).
  eexists _, _. split; [exact Hrun |].
  destruct (harmful_flag_is_intent_prefix _ _ _ _ _ Hrun)
    as (raw & sentiment & intent & reason & flag & Hraw & _ & HS & HI & HR & HH & _ & Hexact).
  vm_compute in Hraw. injection Hraw as <-.
  destruct (Hexact eq_refl) as (-> & -> & -> & ->).
  repeat split; assumption.
Defined.

Lemma startswith_snoc (m s : string) (c : ascii) :
  has_char c m = false ->
  startswith m (s +:+ String c "") = startswith m s.
Proof.
  revert s. induction m as [|a m IH]; intros s Hc; [reflexivity |].
  unfold has_char in *. simpl in Hc. apply orb_false_iff in Hc as [Hca Hm].
  destruct s as [|b s]; simpl.
  - rewrite Ascii.eqb_sym, Hca. reflexivity.
  - now rewrite IH.
Qed.

Lemma contains_snoc (m s : string) (c : ascii) :
  has_char c m = false -> m <> "" ->
  contains m (s +:+ String c "") = contains m s.
Proof.
  intros Hc Hne. induction s as [|b s IH].
  - destruct m as [|a m]; [congruence |].
    unfold has_char in Hc. simpl in Hc. apply orb_false_iff in Hc as [Hca _].
    simpl. rewrite Ascii.eqb_sym, Hca. reflexivity.
  - change (String b s +:+ String c "") with (String b (s +:+ String c "")).
    simpl contains. rewrite IH.
    change (String b (s +:+ String c "")) with (String b s +:+ String c "").
    now rewrite startswith_snoc.
Qed.

(** The wrapping of the error text adds no marker. *)
Lemma has_both_markers_error (e : string) :
  has_both_markers (error_text e) = has_both_markers e.
Proof.
  unfold has_both_markers, error_text.
  assert (H : forall m, m = "SENTIMENT=" \/ m = "INTENT=" ->
            contains m ("[Gemini API error: " +:+ e +:+ "]") = contains m e).
  { intros m [-> | ->].
    - rewrite <- (contains_snoc "SENTIMENT=" e "]"%char)
        by first [reflexivity | discriminate].
      reflexivity.
    - rewrite <- (contains_snoc "INTENT=" e "]"%char)
        by first [reflexivity | discriminate].
      reflexivity. }
  rewrite !H by auto. reflexivity.
Qed.

(** C5, as the code has it.  For an article the classification step
    accepts, the step returns whatever the model call does.  When the raw
    reply lacks one of the markers SENTIMENT= and INTENT=, the three labels
    are empty and the article is not harmful.  A failure of the model call
    is not raised: the raw reply is the error text built from the failure's
    message, and it parses to empty labels and a non-harmful article
    whenever the message itself does not hold both markers. *)
Theorem unmarked_reply_and_failed_call (W : world) (article : dict) (s : state) :
  classifiable article = true ->
  exists a' prompt raw,
    categorize_article W article s
      = (Ok a', State (db s) (trace s ++ [EvGenerateContent prompt])) /\
    raw = returned_text (generate_content W (trace s) prompt) /\
    field "gemini_raw" a' = VStr raw /\
    (has_both_markers raw = false -> all_empty_harmless a') /\
    (forall e, generate_content W (trace s) prompt = GError e ->
       raw = error_text e /\
       (has_both_markers e = false -> all_empty_harmless a')).
Proof.
  intros Hc. apply (categorize_article_total W article s) in Hc as (a' & s' & H).
  pose proof H as H'. apply categorize_article_fields in H'
    as (tags & prompt & sentiment & intent & reason & _ & -> & Hparse & Hraw & Hs & Hi & Hr
        & Hh & _).
  exists a', prompt, (returned_text (generate_content W (trace s) prompt)).
  split; [assumption |]. split; [reflexivity |]. split; [assumption |].
  assert (Hempty : has_both_markers (returned_text (generate_content W (trace s) prompt))
                   = false -> all_empty_harmless a').
  { intros Hm. rewrite (parse_labels_unmarked _ Hm) in Hparse.
    injection Hparse as <- <- <-. repeat split; assumption. }
  split; [assumption |].
  intros e He. rewrite He in *.
  change (returned_text (GError e)) with (error_text e) in *.
  split; [reflexivity |].
  intros Hm. apply Hempty. now rewrite has_both_markers_error.
Qed.

Lemma unmarked_reply_and_failed_call_witness :
  exists a' s',
    categorize_article (sample_world ConnectionFailed (GError "503 service unavailable"))
      plain_article fresh = (Ok a', s') /\
    field "gemini_raw" a' = VStr "[Gemini API error: 503 service unavailable]" /\
    all_empty_harmless a'.
Proof.
  destruct (unmarked_reply_and_failed_call
              (sample_world ConnectionFailed (GError "503 service unavailable"))
              plain_article fresh eq_refl)
    as (a' & prompt & raw & Hrun & -> & Hraw & _ & Herr).
  exists a', (State (db fresh) (trace fresh ++ [EvGenerateContent prompt])).
  split; [exact Hrun |]. split; [exact Hraw |].
  destruct (Herr _ eq_refl) as [_ Hempty]. apply Hempty. reflexivity.
Defined.

(** A failure whose message holds both markers is read as a classification:
    the labels are not empty and the article is flagged harmful. *)
Lemma error_message_with_markers :
  exists a' s',
    categorize_article
      (sample_world ConnectionFailed (GError "SENTIMENT=negative2 INTENT=harmful2"))
      plain_article fresh = (Ok a', s') /\
    field "gemini_raw" a' = VStr "[Gemini API error: SENTIMENT=negative2 INTENT=harmful2]" /\
    field "gemini_sentiment" a' = VStr "negative2" /\
    field "gemini_intent" a' = VStr "harmful2" /\
    field "harmful" a' = VBool true.
Proof.
  eexists _, _. split; [vm_compute; reflexivity |]. repeat split.
Qed.

Lemma search_label_after (marker reply label : string) :
  search_label marker reply = Some label -> label_after marker reply label.
Proof. apply search_label_spec. Qed.

(** C10, as the code has it.  Take a raw reply that has the markers
    SENTIMENT= and INTENT= and no marker REASON=.  When each of the two
    markers is somewhere directly followed by a letter or a digit, the
    sentiment and the intent are the runs of letters and digits found there,
    the reason is empty, and the article is harmful exactly when that intent
    starts with "harmful".  When SENTIMENT= is nowhere followed by a letter
    or a digit, all three labels are empty and the article is not harmful,
    as when a marker is missing.  When only INTENT= is nowhere followed by
    one, the sentiment is kept, the intent and the reason are empty and the
    article is not harmful. *)
Theorem labels_without_reason (W : world) (article a' : dict) (s s' : state) :
  categorize_article W article s = (Ok a', s') ->
  exists raw,
    field "gemini_raw" a' = VStr raw /\
    (contains "SENTIMENT=" raw = true ->
     contains "INTENT=" raw = true ->
     contains "REASON=" raw = false ->
     (label_follows "SENTIMENT=" raw -> label_follows "INTENT=" raw ->
        exists sentiment intent,
          label_after "SENTIMENT=" raw sentiment /\
          label_after "INTENT=" raw intent /\
          field "gemini_sentiment" a' = VStr sentiment /\
          field "gemini_intent" a' = VStr intent /\
          field "gemini_reason" a' = VStr "" /\
          field "harmful" a' = VBool (startswith "harmful" intent)) /\
     (~ label_follows "SENTIMENT=" raw -> all_empty_harmless a') /\
     (label_follows "SENTIMENT=" raw -> ~ label_follows "INTENT=" raw ->
        exists sentiment,
          label_after "SENTIMENT=" raw sentiment /\
          field "gemini_sentiment" a' = VStr sentiment /\
          field "gemini_intent" a' = VStr "" /\
          field "gemini_reason" a' = VStr "" /\
          field "harmful" a' = VBool false)).
Proof.
  intros H. apply categorize_article_fields in H
    as (tags & prompt & sentiment & intent & reason & _ & _ & Hparse & Hraw & Hs & Hi & Hr
        & Hh & _).
  eexists. split; [exact Hraw |].
  set (raw := returned_text (generate_content W (trace s) prompt)) in *.
  intros HS HI HR. unfold parse_labels in Hparse. rewrite HS, HI in Hparse.
  simpl in Hparse. rewrite (search_rest_absent _ _ HR) in Hparse.
  split; [| split].
  - intros HfS HfI.
    apply search_label_follows in HfS as [sl HfS], HfI as [il HfI].
    rewrite HfS, HfI in Hparse. injection Hparse as <- <- <-.
    exists sl, il.
    split; [now apply search_label_after |]. split; [now apply search_label_after |].
    repeat split; assumption.
  - intros HfS. rewrite (search_label_absent _ _ HfS) in Hparse.
    injection Hparse as <- <- <-. repeat split; assumption.
  - intros HfS HfI. apply search_label_follows in HfS as [sl HfS].
    rewrite HfS, (search_label_absent _ _ HfI) in Hparse.
    injection Hparse as <- <- <-.
    exists sl. split; [now apply search_label_after |].
    repeat split; assumption.
Qed.

Lemma labels_without_reason_witness :
  exists a' s',
    categorize_article
      (sample_world ConnectionFailed (GText "SENTIMENT=negative2 INTENT=harmful2"))
      plain_article fresh = (Ok a', s') /\
    field "gemini_sentiment" a' = VStr "negative2" /\
    field "gemini_intent" a' = VStr "harmful2" /\
    field "gemini_reason" a' = VStr "" /\
    field "harmful" a' = VBool true.
Proof.
  eassert (Hrun : categorize_article
                    (sample_world ConnectionFailed
                       (GText "SENTIMENT=negative2 INTENT=harmful2"))
                    plain_article fresh = (Ok _, _)) by (vm_compute; reflexivity).
  eexists _, _. split; [exact Hrun |].
  destruct (labels_without_reason _ _ _ _ _ Hrun) as (raw & Hraw & H).
  vm_compute in Hraw. injection Hraw as <-.
  destruct (H eq_refl eq_refl eq_refl) as [Hboth _].
  destruct Hboth as (sentiment & intent & _ & _ & HS & HI & HR & HH).
  - exists "", "n"%char, "egative2 INTENT=harmful2". split; reflexivity.
  - exists "SENTIMENT=negative2 ", "h"%char, "armful2". split; reflexivity.
  - repeat split; assumption.
Defined.

(** A reply that copies the braces of the format line has both markers and
    no reason, and yet its labels are all empty and the article is not
    flagged, although the reply says "harmful2". *)
Lemma marker_without_label :
  exists a' s',
    categorize_article (sample_world ConnectionFailed (GText braced_reply))
      plain_article fresh = (Ok a', s') /\
    field "gemini_raw" a' = VStr braced_reply /\
    contains "SENTIMENT=" braced_reply = true /\
    contains "INTENT=" braced_reply = true /\
    contains "REASON=" braced_reply = false /\
    field "gemini_sentiment" a' = VStr "" /\
    field "gemini_intent" a' = VStr "" /\
    field "harmful" a' = VBool false.
Proof.
  eexists _, _. split; [vm_compute; reflexivity |]. repeat split.
Qed.

(** ** C8, C9: the adapters *)




(** A null snippet, or a null source, makes the adapter raise. *)
Example null_field_raises :
  wikipedia_article (VDict [("title", VStr "Oil"); ("snippet", VNone)]) = Raise TypeError /\
  newsapi_article (VDict [("title", VStr "Oil"); ("source", VNone)]) = Raise AttributeError.
Proof. split; reflexivity. Qed.

(** ** The store *)

Lemma source_profiles_record_keywords (keywords : list string) (d : database) :
  source_profiles (record_keywords keywords d) = source_profiles d.
Proof.
  unfold record_keywords. revert d.
  induction keywords as [|kw kws IH]; intros d; simpl; [reflexivity |].
  now rewrite IH.
Qed.

Lemma persist_nil (W : world) (s : state) : persist W [] s = (Ok tt, s).
Proof. reflexivity. Qed.

Lemma update_source_profile_run (W : world) (source_name : pyval) (s : state) :
  update_source_profile W source_name s =
  (Ok tt,
   State (if db_raises W (trace s ++ [EvDbConnect]) then db s
          else record_source
                 (sql_text (if truthy source_name then source_name
                            else VStr "unknown_source"))
                 (current_timestamp W (trace s ++ [EvDbConnect])) (db s))
         (trace s ++ [EvDbConnect])).
Proof.
  unfold update_source_profile.
  cbv [mbind M_bind emit history mret M_ret update_db db trace].
  destruct (db_raises W _); [reflexivity |].
  destruct (sql_text _) as [name |]; reflexivity.
Qed.

Lemma update_keyword_trends_run (W : world) (keywords : list string) (s : state) :
  update_keyword_trends W keywords s =
  (Ok tt,
   match keywords with
   | [] => s
   | _ =>
       State (if db_raises W (trace s ++ [EvDbConnect]) then db s
              else record_keywords keywords (db s))
             (trace s ++ [EvDbConnect])
   end).
Proof.
  destruct keywords as [|kw kws]; [reflexivity |].
  unfold update_keyword_trends.
  cbv [mbind M_bind emit history mret M_ret update_db db trace].
  destruct (db_raises W _); reflexivity.
Qed.

Lemma persist_cons (W : world) (article : dict) (rest : list dict) (s : state) :
  persist W (article :: rest) s =
  persist W rest (if is_flagged article then flag_article W article s else s).
Proof.
  unfold is_flagged, field.
  change (persist W (article :: rest)) with
    ((if truthy (dict_get "harmful" VNone article) then
        update_source_profile W (dict_get "source" (VStr "unknown_source") article);;
        update_keyword_trends W (str_items (dict_get "harmful_words" (VList []) article))
      else mret tt);; persist W rest).
  rewrite run_bind.
  destruct (truthy (dict_get "harmful" VNone article)); [| reflexivity].
  rewrite run_bind, update_source_profile_run. cbv beta iota.
  rewrite update_keyword_trends_run. f_equal.
  unfold flag_article, harmful_words_of, source_key. cbv zeta.
  destruct (str_items (dict_get "harmful_words" (VList []) article)); reflexivity.
Qed.

Lemma persist_total (W : world) (hits : list dict) (s : state) :
  exists s', persist W hits s = (Ok tt, s').
Proof.
  revert s. induction hits as [|a hits IH]; intros s.
  - now exists s.
  - rewrite persist_cons. apply IH.
Qed.

(** Only the flagged articles reach the store. *)
Lemma persist_flagged_only (W : world) (hits : list dict) (s : state) :
  persist W hits s = persist W (List.filter is_flagged hits) s.
Proof.
  revert s. induction hits as [|a hits IH]; intros s; [reflexivity |].
  simpl List.filter. destruct (is_flagged a) eqn:Ha.
  - rewrite !persist_cons, Ha. apply IH.
  - rewrite persist_cons, Ha. apply IH.
Qed.

(** The increment of SQLite on the counters. *)
Lemma sql_succ_int64 (n : Z) : is_int64 n = true -> sql_succ n = (n + 1)%Z.
Proof. unfold sql_succ. now intros ->. Qed.

Lemma is_int64_spec (n : Z) :
  is_int64 n = true <-> (- 2 ^ 63 <= n /\ n <= 2 ^ 63 - 1)%Z.
Proof. unfold is_int64. rewrite andb_true_iff, !Z.leb_le. reflexivity. Qed.

Lemma sql_succ_le (n : Z) : (n <= sql_succ n)%Z.
Proof. unfold sql_succ. destruct (is_int64 n); lia. Qed.

(** As long as the counter stays an INTEGER, repeated increments add up. *)
Lemma iter_sql_succ (k : nat) (n : Z) :
  (- 2 ^ 63 <= n)%Z -> (n + Z.of_nat k < 2 ^ 63)%Z ->
  Nat.iter k sql_succ n = (n + Z.of_nat k)%Z.
Proof.
  induction k as [|k IH]; intros Hlo Hhi.
  - simpl. lia.
  - rewrite Nat.iter_succ, IH by lia.
    rewrite sql_succ_int64 by (apply is_int64_spec; lia). lia.
Qed.

Lemma flag_total_upsert_source (name now name' : string) (d : database) :
  flag_total (upsert_source name now d) name'
  = if bool_decide (name = name') then sql_succ (flag_total d name')
    else flag_total d name'.
Proof.
  unfold flag_total, upsert_source. simpl.
  destruct (decide (name = name')) as [-> | Hne].
  - rewrite lookup_insert_eq, bool_decide_eq_true_2 by reflexivity.
    destruct (source_profiles d !! name'); reflexivity.
  - rewrite lookup_insert_ne, bool_decide_eq_false_2 by assumption. reflexivity.
Qed.

Lemma flag_total_record (key : option string) (now name : string)
    (keywords : list string) (d : database) :
  flag_total (record_keywords keywords (record_source key now d)) name
  = if bool_decide (key = Some name) then sql_succ (flag_total d name)
    else flag_total d name.
Proof.
  unfold flag_total at 1. rewrite source_profiles_record_keywords.
  fold (flag_total (record_source key now d) name).
  destruct key as [k |]; simpl record_source.
  - rewrite flag_total_upsert_source.
    repeat case_bool_decide; first [reflexivity | congruence].
  - now rewrite bool_decide_eq_false_2 by discriminate.
Qed.

(** With an engine that does not raise, the two writes for a flagged
    article are both committed. *)
Lemma db_flag_article (W : world) (article : dict) (s : state) :
  engine_ok W ->
  exists now,
    db (flag_article W article s)
    = record_keywords (harmful_words_of article)
        (record_source (source_key article) now (db s)).
Proof.
  intros Hok. exists (current_timestamp W (trace s ++ [EvDbConnect])).
  unfold flag_article. cbv zeta. rewrite Hok.
  destruct (harmful_words_of article) as [|kw kws]; [reflexivity |].
  rewrite Hok. reflexivity.
Qed.

(** The counter of a source is incremented once for each flagged article
    of the source. *)
Lemma persist_flag_steps (W : world) (hits : list dict) (s s' : state) (name : string) :
  engine_ok W ->
  persist W hits s = (Ok tt, s') ->
  flag_total (db s') name = Nat.iter (flags_for name hits) sql_succ (flag_total (db s) name).
Proof.
  intros Hok. revert s. induction hits as [|a hits IH]; intros s.
  - rewrite persist_nil. intros [= <-]. reflexivity.
  - rewrite persist_cons. intros H. apply IH in H. rewrite H. clear H IH.
    unfold flags_for. simpl List.filter.
    destruct (is_flagged a); simpl; [| reflexivity].
    destruct (db_flag_article W a s Hok) as [now ->].
    rewrite flag_total_record.
    destruct (bool_decide (source_key a = Some name)); simpl length; [| reflexivity].
    symmetry. apply Nat.iter_succ_r.
Qed.

(** The counter of a source grows by the number of flagged articles of the
    source, as long as it stays in the 64-bit range. *)
Lemma persist_flag_total (W : world) (hits : list dict) (s s' : state) (name : string) :
  engine_ok W ->
  persist W hits s = (Ok tt, s') ->
  (- 2 ^ 63 <= flag_total (db s) name)%Z ->
  (flag_total (db s) name + Z.of_nat (flags_for name hits) < 2 ^ 63)%Z ->
  flag_total (db s') name = (flag_total (db s) name + Z.of_nat (flags_for name hits))%Z.
Proof.
  intros Hok Hp Hlo Hhi. rewrite (persist_flag_steps W hits s s' name Hok Hp).
  now apply iter_sql_succ.
Qed.

Lemma row_after_record (key : option string) (now name : string)
    (keywords : list string) (d : database) :
  is_Some (source_profiles (record_keywords keywords (record_source key now d)) !! name)
  <-> is_Some (source_profiles d !! name) \/ key = Some name.
Proof.
  rewrite source_profiles_record_keywords.
  destruct key as [k |]; simpl.
  - destruct (decide (k = name)) as [-> | Hne].
    + rewrite lookup_insert_eq. split; [auto | eauto].
    + rewrite lookup_insert_ne by assumption.
      split; [auto | intros [H | H]; [assumption | congruence]].
  - split; [auto | intros [H | H]; [assumption | discriminate]].
Qed.

(** A source flagged at least once has a row afterwards. *)
Lemma persist_row_exists (W : world) (hits : list dict) (s s' : state) (name : string) :
  engine_ok W ->
  persist W hits s = (Ok tt, s') ->
  is_Some (source_profiles (db s) !! name) \/ (0 < flags_for name hits)%nat ->
  is_Some (source_profiles (db s') !! name).
Proof.
  intros Hok. revert s. induction hits as [|a hits IH]; intros s.
  - rewrite persist_nil. intros [= <-] [H | H]; [assumption |].
    unfold flags_for in H. simpl in H. lia.
  - rewrite persist_cons. intros H Hor. apply IH in H; [assumption |]. clear IH.
    unfold flags_for in *. simpl List.filter in Hor.
    destruct (is_flagged a); simpl in *; [| assumption].
    destruct (db_flag_article W a s Hok) as [now ->].
    rewrite row_after_record.
    destruct (bool_decide (source_key a = Some name)) eqn:Hk.
    + apply bool_decide_eq_true in Hk. auto.
    + tauto.
Qed.

Lemma grows_refl (d : database) : grows d d.
Proof. split; intros k x H; exists x; (split; [assumption | lia]). Qed.

Lemma grows_trans (d1 d2 d3 : database) : grows d1 d2 -> grows d2 d3 -> grows d1 d3.
Proof.
  intros [Hs12 Hk12] [Hs23 Hk23]. split.
  - intros name r H. destruct (Hs12 _ _ H) as (r2 & H2 & Hle2).
    destruct (Hs23 _ _ H2) as (r3 & H3 & Hle3). exists r3. split; [assumption | lia].
  - intros kw n H. destruct (Hk12 _ _ H) as (n2 & H2 & Hle2).
    destruct (Hk23 _ _ H2) as (n3 & H3 & Hle3). exists n3. split; [assumption | lia].
Qed.

Lemma grows_upsert_source (name now : string) (d : database) :
  grows d (upsert_source name now d).
Proof.
  split; simpl; [| intros kw n H; exists n; split; [assumption | lia]].
  intros name' r H. destruct (decide (name = name')) as [-> | Hne].
  - rewrite lookup_insert_eq, H. eexists. split; [reflexivity |]. simpl.
    apply sql_succ_le.
  - rewrite lookup_insert_ne by assumption. exists r. split; [assumption | lia].
Qed.

Lemma grows_upsert_keyword (kw : string) (d : database) :
  grows d (upsert_keyword kw d).
Proof.
  split; simpl; [intros name r H; exists r; split; [assumption | lia] |].
  intros kw' n H. destruct (decide (kw = kw')) as [-> | Hne].
  - rewrite lookup_insert_eq, H. eexists. split; [reflexivity |]. apply sql_succ_le.
  - rewrite lookup_insert_ne by assumption. exists n. split; [assumption | lia].
Qed.

Lemma grows_record_keywords (keywords : list string) (d : database) :
  grows d (record_keywords keywords d).
Proof.
  unfold record_keywords. revert d.
  induction keywords as [|kw kws IH]; intros d; simpl; [apply grows_refl |].
  eapply grows_trans; [apply grows_upsert_keyword | apply IH].
Qed.

Lemma grows_record (key : option string) (now : string) (keywords : list string)
    (d : database) :
  grows d (record_keywords keywords (record_source key now d)).
Proof.
  eapply grows_trans; [| apply grows_record_keywords].
  destruct key; [apply grows_upsert_source | apply grows_refl].
Qed.

(** Whether the engine raises or not, no row is lost and no counter drops. *)
Lemma grows_flag_article (W : world) (article : dict) (s : state) :
  grows (db s) (db (flag_article W article s)).
Proof.
  unfold flag_article. cbv zeta.
  assert (H1 : grows (db s)
                 (if db_raises W (trace s ++ [EvDbConnect]) then db s
                  else record_source (source_key article)
                         (current_timestamp W (trace s ++ [EvDbConnect])) (db s))).
  { destruct (db_raises W _); [apply grows_refl |].
    destruct (source_key article); [apply grows_upsert_source | apply grows_refl]. }
  destruct (harmful_words_of article) as [|kw kws]; [exact H1 |].
  cbv beta iota. unfold db at 2.
  destruct (db_raises W ((trace s ++ [EvDbConnect]) ++ [EvDbConnect])); [exact H1 |].
  eapply grows_trans; [exact H1 | apply grows_record_keywords].
Qed.

Lemma persist_grows (W : world) (hits : list dict) (s : state) :
  grows (db s) (db (snd (persist W hits s))).
Proof.
  revert s. induction hits as [|a hits IH]; intros s; [apply grows_refl |].
  rewrite persist_cons. eapply grows_trans; [| apply IH].
  destruct (is_flagged a); [apply grows_flag_article | apply grows_refl].
Qed.

(** ** Fetching and classifying leave the store alone *)

Create HintDb keeps_db.

Lemma keeps_db_ret {A : Type} (a : A) : keeps_db (mret a : M A).
Proof. intros s. reflexivity. Qed.

Lemma keeps_db_lift {A : Type} (r : result A) : keeps_db (lift r).
Proof. intros s. reflexivity. Qed.

Lemma keeps_db_bind {A B : Type} (m : M A) (k : A -> M B) :
  keeps_db m -> (forall a, keeps_db (k a)) -> keeps_db (m ≫= k).
Proof.
  intros Hm Hk s. rewrite run_bind. specialize (Hm s).
  destruct (m s) as [[a | e] s1]; simpl in *; [| assumption].
  now rewrite Hk.
Qed.

#[local] Hint Resolve keeps_db_ret keeps_db_lift keeps_db_bind : keeps_db.

Section pipeline.

Context (W : world) (query language country : string) (max_results : Z).

Local Abbreviation provider := (fetch_provider W query language country max_results).
Local Abbreviation loop := (fetch_loop W query language country max_results).
Local Abbreviation fetch cs := (fetch_all_news W cs query language country max_results).

Lemma keeps_db_try_request (api params : dict) :
  keeps_db (try_request W api params).
Proof.
  intros s. unfold try_request. destruct (dict_lookup "base_url" api); reflexivity.
Qed.

Lemma keeps_db_fetch_provider (api : dict) : keeps_db (provider api).
Proof.
  apply keeps_db_bind; [apply keeps_db_try_request |].
  intros [data |]; auto with keeps_db.
Qed.

Lemma keeps_db_fetch_loop (api_configs all_articles : list dict) :
  keeps_db (loop api_configs all_articles).
Proof.
  revert all_articles. induction api_configs as [|api rest IH]; intros acc.
  - apply keeps_db_ret.
  - apply keeps_db_bind; [apply keeps_db_fetch_provider | intros articles; apply IH].
Qed.

Lemma keeps_db_categorize_article (article : dict) :
  keeps_db (categorize_article W article).
Proof.
  unfold categorize_article.
  do 3 (apply keeps_db_bind; [apply keeps_db_lift | intros ?]).
  apply keeps_db_bind; [intros s; reflexivity |].
  intros raw. destruct (parse_labels raw) as [[? ?] ?]. apply keeps_db_ret.
Qed.

Lemma keeps_db_categorize_loop (articles categorized : list dict) :
  keeps_db (categorize_loop W articles categorized).
Proof.
  revert categorized. induction articles as [|a rest IH]; intros acc.
  - apply keeps_db_ret.
  - apply keeps_db_bind; [apply keeps_db_categorize_article | intros a'; apply IH].
Qed.

(** ** The loops *)

(** The accumulator of the loop is a prefix of its result. *)
Lemma fetch_loop_acc (api_configs acc : list dict) (s : state) :
  loop api_configs acc s =
  match loop api_configs [] s with
  | (Ok l, s') => (Ok (acc ++ l), s')
  | (Raise e, s') => (Raise e, s')
  end.
Proof.
  revert acc s.
  induction api_configs as [|api rest IH]; intros acc s.
  - simpl. rewrite !run_ret, app_nil_r. reflexivity.
  - simpl. rewrite !run_bind.
    destruct (provider api s)
      as [[articles | e] s1]; [| reflexivity].
    rewrite (IH (acc ++ articles)), (IH ([] ++ articles)).
    destruct (loop rest [] s1)
      as [[l | e] s2]; [| reflexivity].
    now rewrite app_assoc.
Qed.

(** The aggregate is the articles of the first provider followed by the
    aggregate of the others. *)
Lemma fetch_all_news_cons (api : dict) (rest : list dict) (s : state) :
  fetch (api :: rest) s =
  (articles ← provider api; more ← fetch rest; mret (articles ++ more)) s.
Proof.
  unfold fetch_all_news. simpl. rewrite !run_bind.
  destruct (provider api s)
    as [[articles | e] s1]; [| reflexivity].
  rewrite fetch_loop_acc, run_bind. simpl.
  destruct (loop rest [] s1)
    as [[l | e] s2]; reflexivity.
Qed.

(** The aggregate of a list of providers is the aggregate of its first part
    followed by the aggregate of the rest. *)
Lemma fetch_all_news_app (cs1 cs2 : list dict) (s : state) :
  fetch (cs1 ++ cs2) s = (l1 ← fetch cs1; l2 ← fetch cs2; mret (l1 ++ l2)) s.
Proof.
  revert s. induction cs1 as [|api cs1 IH]; intros s.
  - simpl app. rewrite run_bind.
    change (fetch [] s) with (@Ok (list dict) [], s).
    cbv beta iota. rewrite run_bind.
    destruct (fetch cs2 s) as [[l | e] s1]; reflexivity.
  - simpl app. rewrite fetch_all_news_cons, !run_bind, fetch_all_news_cons, run_bind.
    destruct (provider api s) as [[articles | e] s1]; [| reflexivity].
    rewrite !run_bind, IH, run_bind.
    destruct (fetch cs1 s1) as [[l1 | e] s2]; [| reflexivity].
    rewrite run_ret, !run_bind.
    destruct (fetch cs2 s2) as [[l2 | e] s3]; [| reflexivity].
    rewrite !run_ret. now rewrite app_assoc.
Qed.

End pipeline.

Lemma categorize_loop_Forall2 (W : world) (articles acc hits : list dict) (s s' : state) :
  categorize_loop W articles acc s = (Ok hits, s') ->
  exists new,
    hits = acc ++ new /\
    Forall2 (fun a a' => exists sa sa', categorize_article W a sa = (Ok a', sa'))
            articles new.
Proof.
  revert acc s. induction articles as [|a rest IH]; intros acc s.
  - simpl. rewrite run_ret. intros [= <- <-]. exists []. now rewrite app_nil_r.
  - simpl. rewrite run_bind.
    destruct (categorize_article W a s) as [[a' | e] s1] eqn:Ha; [| discriminate].
    intros H. apply IH in H as (new & -> & Hnew).
    exists (a' :: new). rewrite <- app_assoc. split; [reflexivity |].
    constructor; [eauto | assumption].
Qed.

(** The three steps of [analyze]: it raises in the first or the second and
    leaves the store alone, or it returns what the second step returned
    after the third has run. *)
Lemma analyze_cases (W : world) (query : string) (s : state) :
  (exists e s', analyze W query s = (Raise e, s') /\ db s' = db s /\
     (fetch_all_news W (API_CONFIGS W) query "en" "my" 5 s = (Raise e, s') \/
      exists all_hits s1,
        fetch_all_news W (API_CONFIGS W) query "en" "my" 5 s = (Ok all_hits, s1) /\
        full_categorize W all_hits s1 = (Raise e, s'))) \/
  (exists all_hits s1 hits s2 s3,
     fetch_all_news W (API_CONFIGS W) query "en" "my" 5 s = (Ok all_hits, s1) /\
     full_categorize W all_hits s1 = (Ok hits, s2) /\
     persist W hits s2 = (Ok tt, s3) /\
     db s2 = db s /\
     analyze W query s = (Ok hits, s3)).
Proof.
  unfold analyze. rewrite run_bind.
  pose proof (keeps_db_fetch_loop W query "en" "my" 5 (API_CONFIGS W) [] s) as Hdb1.
  fold (fetch_all_news W (API_CONFIGS W) query "en" "my" 5) in Hdb1.
  destruct (fetch_all_news W (API_CONFIGS W) query "en" "my" 5 s)
    as [[all_hits | e] s1] eqn:Hfetch; simpl in Hdb1.
  - rewrite run_bind.
    pose proof (keeps_db_categorize_loop W all_hits [] s1) as Hdb2.
    fold (full_categorize W all_hits) in Hdb2.
    destruct (full_categorize W all_hits s1) as [[hits | e] s2] eqn:Hcat; simpl in Hdb2.
    + right. destruct (persist_total W hits s2) as [s3 Hp].
      exists all_hits, s1, hits, s2, s3. rewrite run_bind, Hp, run_ret.
      repeat split; congruence.
    + left. exists e, s2. repeat split; [congruence |]. right. eauto.
  - left. exists e, s1. auto.
Qed.

(** ** Answers of the expected shape *)

Lemma text_or_empty_py_or (v : pyval) :
  text_or_empty v = true -> text_or_empty (py_or v (VStr "")) = true.
Proof.
  unfold py_or.
  destruct v as [| [] | z | [] | [] | []]; simpl; try reflexivity; try discriminate.
  destruct (z =? 0)%Z; simpl; [reflexivity | discriminate].
Qed.

Lemma iterable_or_empty_py_or (v : pyval) :
  iterable_or_empty v = true -> iterable_or_empty (py_or v (VList [])) = true.
Proof.
  unfold py_or.
  destruct v as [| [] | z | [] | [] | []]; simpl; try reflexivity; try discriminate.
  destruct (z =? 0)%Z; simpl; [reflexivity | discriminate].
Qed.

Lemma result_mapM_ok {A B : Type} (f : A -> result B) (ok : A -> bool) (P : B -> Prop)
    (l : list A) :
  (forall x, ok x = true -> exists y, f x = Ok y /\ P y) ->
  forallb ok l = true ->
  exists ys, result_mapM f l = Ok ys /\ Forall P ys.
Proof.
  intros Hf. induction l as [|x l IH]; simpl.
  - intros _. exists []. split; [reflexivity | constructor].
  - intros H. apply andb_true_iff in H as [Hx Hl].
    destruct (Hf x Hx) as (y & -> & Hy). destruct (IH Hl) as (ys & -> & Hys).
    exists (y :: ys). split; [reflexivity | now constructor].
Qed.

Lemma wikipedia_article_ok (item : pyval) :
  wikipedia_item_ok item = true ->
  exists a, wikipedia_article item = Ok a /\ classifiable a = true.
Proof.
  destruct item as [| | | | | d]; try discriminate. simpl.
  intros H. apply andb_true_iff in H as [Ht Hs].
  destruct (dict_get "snippet" (VStr "") d) as [| | | snippet | |]; try discriminate.
  eexists. split; [reflexivity |].
  unfold classifiable, field, dict_get in *. simpl. now rewrite Ht.
Qed.

Lemma newsdata_article_ok (item : pyval) :
  newsdata_item_ok item = true ->
  exists a, newsdata_article item = Ok a /\ classifiable a = true.
Proof.
  destruct item as [| | | | | d]; try discriminate. simpl.
  intros H. apply andb_true_iff in H as [H Hk]. apply andb_true_iff in H as [Ht Hd].
  eexists. split; [reflexivity |].
  unfold classifiable, field, dict_get in *. simpl.
  now rewrite (iterable_or_empty_py_or _ Hk), Ht, (text_or_empty_py_or _ Hd).
Qed.

Lemma newsapi_article_ok (item : pyval) :
  newsapi_item_ok item = true ->
  exists a, newsapi_article item = Ok a /\ classifiable a = true.
Proof.
  destruct item as [| | | | | d]; try discriminate. simpl.
  intros H. apply andb_true_iff in H as [H Hs]. apply andb_true_iff in H as [Ht Hd].
  destruct (dict_get "source" (VDict []) d) as [| | | | | source]; try discriminate.
  eexists. split; [reflexivity |].
  unfold classifiable, field, dict_get in *. simpl.
  now rewrite Ht, (text_or_empty_py_or _ Hd).
Qed.

Lemma items_ok_mapM (f : pyval -> result dict) (ok : pyval -> bool) (v : pyval) :
  (forall x, ok x = true -> exists a, f x = Ok a /\ classifiable a = true) ->
  items_ok ok v = true ->
  exists articles,
    (items ← py_iter v; result_mapM f items) = Ok articles /\
    Forall (fun a => classifiable a = true) articles.
Proof.
  intros Hf. destruct v as [| | | | items |]; try discriminate. simpl.
  apply (result_mapM_ok f ok _ items Hf).
Qed.

(** A body of the expected shape is normalized, into articles the
    classification step accepts. *)
Lemma normalize_ok (api_type data : pyval) :
  body_ok api_type data = true ->
  exists articles,
    normalize api_type data = Ok articles /\
    Forall (fun a => classifiable a = true) articles.
Proof.
  unfold body_ok, normalize. destruct data as [| | | | | d]; try discriminate.
  destruct (is_str api_type "wikipedia").
  - simpl. destruct (dict_get "query" (VDict []) d) as [| | | | | q]; try discriminate.
    simpl. apply items_ok_mapM, wikipedia_article_ok.
  - destruct (is_str api_type "newsdata"); simpl; unfold field.
    + destruct (ne_str (dict_get "status" VNone d) "success"); simpl.
      * intros _. exists []. split; [reflexivity | constructor].
      * apply items_ok_mapM, newsdata_article_ok.
    + destruct (ne_str (dict_get "status" VNone d) "ok"); simpl.
      * intros _. exists []. split; [reflexivity | constructor].
      * apply items_ok_mapM, newsapi_article_ok.
Qed.

Lemma fetch_provider_ok (W : world) (query language country : string) (max_results : Z)
    (api : dict) (s : state) :
  (forall h url params status_code data,
     http_get W h url params headers = Responded status_code (Some data) ->
     raises_for_status status_code = false ->
     body_ok (dict_get "type" VNone api) data = true) ->
  exists articles s',
    fetch_provider W query language country max_results api s = (Ok articles, s') /\
    Forall (fun a => classifiable a = true) articles.
Proof.
  intros Hok. unfold fetch_provider, try_request. rewrite run_bind.
  destruct (dict_lookup "base_url" api) as [url |].
  - set (params := request_params api query language country max_results).
    change ((h ← history; emit (EvHttpGet url params headers);;
             mret (match http_get W h url params headers with
                   | ConnectionFailed => None
                   | Responded status_code json =>
                       if raises_for_status status_code then None else json
                   end)) s)
      with (Ok (match http_get W (trace s) url params headers with
                | ConnectionFailed => None
                | Responded status_code json =>
                    if raises_for_status status_code then None else json
                end), after_request url params s).
    destruct (http_get W (trace s) url params headers) as [| code [data |]] eqn:Hget;
      cbv beta iota.
    + eexists _, _. split; [reflexivity | constructor].
    + destruct (raises_for_status code) eqn:Hcode.
      * eexists _, _. split; [reflexivity | constructor].
      * destruct (normalize_ok _ _ (Hok _ _ _ _ _ Hget Hcode)) as (articles & Hn & Hall).
        rewrite run_lift, Hn. eauto.
    + destruct (raises_for_status code); eexists _, _; (split; [reflexivity | constructor]).
  - rewrite run_ret. eexists _, _. split; [reflexivity | constructor].
Qed.

Lemma fetch_all_news_ok (W : world) (query language country : string) (max_results : Z)
    (api_configs : list dict) (s : state) :
  answers_ok W api_configs ->
  exists articles s',
    fetch_all_news W api_configs query language country max_results s = (Ok articles, s') /\
    Forall (fun a => classifiable a = true) articles.
Proof.
  revert s. induction api_configs as [|api rest IH]; intros s Hok.
  - exists [], s. split; [reflexivity | constructor].
  - rewrite fetch_all_news_cons, run_bind.
    destruct (fetch_provider_ok W query language country max_results api s)
      as (articles & s1 & -> & Ha).
    { intros h url params code data. apply Hok. now left. }
    cbv beta iota. rewrite run_bind.
    destruct (IH s1) as (more & s2 & -> & Hm).
    { intros a h url params code data Hin. apply Hok. now right. }
    rewrite run_ret. exists (articles ++ more), s2.
    split; [reflexivity | now apply Forall_app].
Qed.

Lemma categorize_loop_ok (W : world) (articles categorized : list dict) (s : state) :
  Forall (fun a => classifiable a = true) articles ->
  exists hits s', categorize_loop W articles categorized s = (Ok hits, s').
Proof.
  revert categorized s. induction articles as [|a rest IH]; intros acc s Hall.
  - exists acc, s. reflexivity.
  - inversion Hall as [|? ? Ha Hrest]; subst. simpl. rewrite run_bind.
    destruct (proj1 (categorize_article_total W a s) Ha) as (a' & s1 & ->).
    apply IH. assumption.
Qed.

(** With answers of the expected shape the three steps return. *)
Lemma analyze_ok (W : world) (query : string) (s : state) :
  answers_ok W (API_CONFIGS W) ->
  exists hits s', analyze W query s = (Ok hits, s').
Proof.
  intros Hok.
  destruct (analyze_cases W query s)
    as [(e & s' & _ & _ & [Hf | (ah & t1 & Hf & Hc)])
       | (ah & t1 & h & t2 & s3 & _ & _ & _ & _ & Ha)]; [| | eauto].
  - destruct (fetch_all_news_ok W query "en" "my" 5 (API_CONFIGS W) s Hok)
      as (l & s1 & Hl & _). congruence.
  - destruct (fetch_all_news_ok W query "en" "my" 5 (API_CONFIGS W) s Hok)
      as (l & s1 & Hl & Hall).
    rewrite Hf in Hl. injection Hl as <- <-.
    destruct (categorize_loop_ok W ah [] t1 Hall) as (hits & s2 & Hcat).
    unfold full_categorize in Hc. congruence.
Qed.

(** ** C1: the analyze endpoint *)

(** C1, as the code has it.  Without a query, or with an empty one, the
    endpoint answers 400 with a JSON object that has the key "error", and
    the state is untouched: nothing was fetched, classified or stored.
    With a query, when fetching and classification return, it answers 200
    with the list classification returned, one classified article for each
    fetched one, flagged or not, after the third step has run.  They do
    return when every body the providers answer with has the expected
    shape. *)
Theorem api_analyze_responses (W : world) (q : option string) (s : state) :
  (q = None \/ q = Some "" ->
     api_analyze W q s = (Json 400 (VDict [("error", VStr required_message)]), s)) /\
  (forall query, q = Some query -> query <> "" ->
     forall all_hits s1 hits s2,
       fetch_all_news W (API_CONFIGS W) query "en" "my" 5 s = (Ok all_hits, s1) ->
       full_categorize W all_hits s1 = (Ok hits, s2) ->
       exists s3,
         persist W hits s2 = (Ok tt, s3) /\
         api_analyze W q s = (Json 200 (VList (map VDict hits)), s3) /\
         Forall2 (fun a a' => exists sa sa', categorize_article W a sa = (Ok a', sa'))
                 all_hits hits) /\
  (forall query, q = Some query -> query <> "" ->
     answers_ok W (API_CONFIGS W) ->
     exists hits s', api_analyze W q s = (Json 200 (VList (map VDict hits)), s')).
Proof.
  split; [| split].
  - intros [-> | ->]; reflexivity.
  - intros query -> Hne all_hits s1 hits s2 Hfetch Hcat.
    unfold api_analyze. destruct query as [|c query]; [congruence |]. simpl is_empty.
    cbv iota.
    destruct (analyze_cases W (String c query) s)
      as [(e & s' & _ & _ & [Hf | (ah & t1 & Hf & Hc)])
         | (ah & t1 & h & t2 & s3 & Hf & Hc & Hp & _ & Ha)].
    + congruence.
    + rewrite Hfetch in Hf. injection Hf as <- <-. congruence.
    + rewrite Hfetch in Hf. injection Hf as <- <-.
      rewrite Hcat in Hc. injection Hc as <- <-.
      exists s3. rewrite Ha. repeat split; try assumption.
      apply categorize_loop_Forall2 in Hcat as (new & -> & Hnew). exact Hnew.
  - intros query -> Hne Hok.
    destruct (analyze_ok W query s Hok) as (hits & s' & Ha).
    exists hits, s'. unfold api_analyze.
    destruct query as [|c query]; [congruence |]. simpl is_empty. cbv iota.
    now rewrite Ha.
Qed.

Lemma one_provider_down_answers_ok (outcome : gemini_outcome) :
  answers_ok (one_provider_down outcome) (API_CONFIGS (one_provider_down outcome)).
Proof.
  intros api h url params code data Hapi Hget _.
  assert (Hdata : data = wikipedia_hits \/ data = newsapi_hits).
  { simpl in Hget.
    destruct (is_str url "https://en.wikipedia.org/w/api.php"); [left; congruence |].
    destruct (is_str url "https://newsapi.org/v2/everything"); [right; congruence |].
    discriminate. }
  unfold API_CONFIGS in Hapi.
  repeat (apply elem_of_cons in Hapi as [-> | Hapi];
          [destruct Hdata as [-> | ->]; reflexivity |]).
  now apply elem_of_nil in Hapi.
Qed.

Lemma api_analyze_responses_witness :
  (exists hits s3,
     api_analyze (one_provider_down (GText harmful_reply)) (Some "oil") fresh
       = (Json 200 (VList (map VDict hits)), s3) /\
     map (field "source") hits = [VStr "Reuters"; VStr "Wikipedia"]) /\
  (exists hits s',
     api_analyze (one_provider_down (GError "quota exceeded")) (Some "oil") fresh
       = (Json 200 (VList (map VDict hits)), s')) /\
  api_analyze (one_provider_down (GText harmful_reply)) None fresh
    = (Json 400 (VDict [("error", VStr required_message)]), fresh).
Proof.
  split; [| split].
  - pose proof (api_analyze_responses (one_provider_down (GText harmful_reply))
                  (Some "oil") fresh) as (_ & H & _).
    eassert (Hfetch : fetch_all_news (one_provider_down (GText harmful_reply))
                        (API_CONFIGS (one_provider_down (GText harmful_reply)))
                        "oil" "en" "my" 5 fresh = (Ok _, _)) by (vm_compute; reflexivity).
    match type of Hfetch with
    | _ = (Ok ?all_hits, ?s1) =>
        eassert (Hcat : full_categorize (one_provider_down (GText harmful_reply))
                          all_hits s1 = (Ok _, _)) by (vm_compute; reflexivity)
    end.
    destruct (H "oil" eq_refl ltac:(discriminate) _ _ _ _ Hfetch Hcat)
      as (s3 & _ & Hrun & _).
    eexists _, s3. split; [exact Hrun | reflexivity].
  - pose proof (api_analyze_responses (one_provider_down (GError "quota exceeded"))
                  (Some "oil") fresh) as (_ & _ & H).
    apply (H "oil");
      [reflexivity | discriminate | apply one_provider_down_answers_ok].
  - pose proof (api_analyze_responses (one_provider_down (GText harmful_reply))
                  None fresh) as (H & _).
    apply H. now left.
Defined.

(** NewsAPI answers with an article whose source is null: the adapter
    raises, and the request with the query "oil" ends in a server error,
    not in a 200. *)
Lemma null_source_is_a_server_error :
  exists s',
    api_analyze (sample_world (Responded 200 (Some newsapi_null_source)) (GText exact_reply))
      (Some "oil") fresh = (ServerError AttributeError, s') /\
    status_of (ServerError AttributeError) = 500%Z.
Proof. eexists. split; [vm_compute; reflexivity | reflexivity]. Qed.

(** ** C6: one provider down *)

Lemma fetch_provider_fails (W : world) (query language country : string)
    (max_results : Z) (api : dict) (url : pyval) (s : state) :
  provider_fails W api url (request_params api query language country max_results) s ->
  fetch_provider W query language country max_results api s
  = (Ok [], after_request url (request_params api query language country max_results) s).
Proof.
  intros [Hurl Hfail]. unfold fetch_provider, try_request. rewrite Hurl.
  set (params := request_params api query language country max_results) in *.
  rewrite run_bind.
  change ((h ← history; emit (EvHttpGet url params headers);;
           mret (match http_get W h url params headers with
                 | ConnectionFailed => None
                 | Responded status_code json =>
                     if raises_for_status status_code then None else json
                 end)) s)
    with (Ok (match http_get W (trace s) url params headers with
              | ConnectionFailed => None
              | Responded status_code json =>
                  if raises_for_status status_code then None else json
              end), after_request url params s).
  destruct Hfail as [-> | [(code & json & -> & Hcode) | (code & body & -> & Hcode & Hw & Hst)]].
  - reflexivity.
  - rewrite Hcode. reflexivity.
  - rewrite Hcode. cbv beta iota. rewrite run_lift. f_equal.
    unfold normalize. rewrite Hw.
    destruct (is_str (dict_get "type" VNone api) "newsdata");
      simpl; rewrite Hst; reflexivity.
Qed.

(** C6.  When the request of one provider ends in a transport exception or
    in a non-success status, that provider adds no article and the loop goes
    on: the aggregate is the articles of the providers before it followed by
    the articles of the providers after it.  In general the aggregate of a
    list of providers is the concatenation, in configuration order, of the
    aggregates of its parts. *)
Theorem failed_provider_is_skipped (W : world) (query language country : string)
    (max_results : Z) (before after : list dict) (api : dict) (url : pyval)
    (s s1 s2 : state) (l1 l2 : list dict) :
  fetch_all_news W before query language country max_results s = (Ok l1, s1) ->
  provider_fails W api url (request_params api query language country max_results) s1 ->
  fetch_all_news W after query language country max_results
    (after_request url (request_params api query language country max_results) s1)
    = (Ok l2, s2) ->
  fetch_provider W query language country max_results api s1
    = (Ok [], after_request url (request_params api query language country max_results) s1) /\
  fetch_all_news W (before ++ api :: after) query language country max_results s
    = (Ok (l1 ++ l2), s2) /\
  (forall cs1 cs2 s0,
     fetch_all_news W (cs1 ++ cs2) query language country max_results s0 =
     (a1 ← fetch_all_news W cs1 query language country max_results;
      a2 ← fetch_all_news W cs2 query language country max_results;
      mret (a1 ++ a2)) s0).
Proof.
  intros Hbefore Hfail Hafter.
  pose proof (fetch_provider_fails W query language country max_results api url s1 Hfail)
    as Hskip.
  split; [exact Hskip |]. split; [| intros; apply fetch_all_news_app].
  rewrite fetch_all_news_app, run_bind, Hbefore. cbv beta iota.
  rewrite run_bind, fetch_all_news_cons, run_bind, Hskip. cbv beta iota.
  rewrite run_bind, Hafter. reflexivity.
Qed.

Lemma failed_provider_is_skipped_witness :
  exists s2,
    fetch_all_news (one_provider_down (GText harmful_reply))
      (API_CONFIGS (one_provider_down (GText harmful_reply))) "oil" "en" "my" 5 fresh
    = (Ok ([ [("source", VStr "Reuters");
              ("title", VStr "Tanker attack in the strait");
              ("description", VStr "");
              ("link", VStr "https://example.org/tanker");
              ("pub_date", VStr "2025-01-01T00:00:00Z");
              ("keywords", VList []);
              ("api_type", VStr "news")] ]
           ++ [ [("source", VStr "Wikipedia");
                 ("title", VStr "Oil spill");
                 ("description", VStr "An attack on a tanker");
                 ("link", VStr "https://en.wikipedia.org/?curid=42");
                 ("pub_date", VStr "");
                 ("keywords", VList []);
                 ("api_type", VStr "wikipedia")] ]), s2).
Proof.
  pose (W := one_provider_down (GText harmful_reply)).
  pose (newsdata := [("name", VStr "NewsData.io"); ("type", VStr "newsdata");
                     ("base_url", VStr "https://newsdata.io/api/1/latest");
                     ("api_key", VStr "YOUR_FALLBACK_KEY")] : dict).
  eassert (Hbefore : fetch_all_news W
                       [ [("name", VStr "NewsAPI"); ("type", VStr "newsapi");
                          ("base_url", VStr "https://newsapi.org/v2/everything");
                          ("api_key", VStr "YOUR_FALLBACK_KEY")] ]
                       "oil" "en" "my" 5 fresh = (Ok _, _)) by (vm_compute; reflexivity).
  match type of Hbefore with
  | _ = (Ok _, ?s1) =>
      assert (Hfail : provider_fails W newsdata (VStr "https://newsdata.io/api/1/latest")
                        (request_params newsdata "oil" "en" "my" 5) s1)
        by (split; [reflexivity |]; right; left; exists 503%Z, None; split; reflexivity);
      eassert (Hafter : fetch_all_news W
                          [ [("name", VStr "Wikipedia"); ("type", VStr "wikipedia");
                             ("base_url", VStr "https://en.wikipedia.org/w/api.php")] ]
                          "oil" "en" "my" 5
                          (after_request (VStr "https://newsdata.io/api/1/latest")
                             (request_params newsdata "oil" "en" "my" 5) s1)
                        = (Ok _, _)) by (vm_compute; reflexivity)
  end.
  destruct (failed_provider_is_skipped _ _ _ _ _ _ _ _ _ _ _ _ _ _ Hbefore Hfail Hafter)
    as (_ & H & _).
  eexists. exact H.
Defined.

(** ** C9: the sentinel *)

(** C9, as the code has it.  The adapters do not use the sentinel: an item
    with no source gets the provider's own name ("NewsData.io", "NewsAPI",
    and always "Wikipedia" for the encyclopedia).  The sentinel is used when
    a flag is stored: a harmful article whose source is missing, [None] or
    empty is recorded under "unknown_source", whose counter is incremented
    (by one, as long as it is an INTEGER of the 64-bit range) while the
    counters of the other sources stay as they are (the storage engine not
    raising). *)
Theorem source_defaults_and_sentinel (W : world) (article : dict) (s : state) :
  engine_ok W ->
  is_flagged article = true ->
  truthy (field "source" article) = false ->
  (source_key article = Some "unknown_source" /\
   exists s',
     persist W [article] s = (Ok tt, s') /\
     flag_total (db s') "unknown_source" = sql_succ (flag_total (db s) "unknown_source") /\
     (is_int64 (flag_total (db s) "unknown_source") = true ->
      flag_total (db s') "unknown_source" = (flag_total (db s) "unknown_source" + 1)%Z) /\
     is_Some (source_profiles (db s') !! "unknown_source") /\
     (forall name, name <> "unknown_source" ->
        flag_total (db s') name = flag_total (db s) name)) /\
  (forall d, truthy (field "source_id" d) = false ->
             truthy (field "source_name" d) = false ->
     exists a, newsdata_article (VDict d) = Ok a /\ field "source" a = VStr "NewsData.io") /\
  (forall d, dict_lookup "source" d = None \/
             (exists o, dict_lookup "source" d = Some (VDict o) /\
                        dict_lookup "name" o = None) ->
     exists a, newsapi_article (VDict d) = Ok a /\ field "source" a = VStr "NewsAPI") /\
  (forall item a, wikipedia_article item = Ok a -> field "source" a = VStr "Wikipedia").
Proof.
  intros Hok Hflag Hsrc.
  assert (Hkey : source_key article = Some "unknown_source").
  { unfold source_key. unfold field, dict_get in *.
    destruct (dict_lookup "source" article) as [v |]; [| reflexivity].
    now rewrite Hsrc. }
  assert (Hone : flags_for "unknown_source" [article] = 1%nat).
  { unfold flags_for. simpl. rewrite Hflag, Hkey. reflexivity. }
  split; [split; [exact Hkey |] | split; [| split]].
  - destruct (persist_total W [article] s) as [s' Hp]. exists s'.
    assert (Hstep : flag_total (db s') "unknown_source"
                    = sql_succ (flag_total (db s) "unknown_source")).
    { rewrite (persist_flag_steps W _ _ _ "unknown_source" Hok Hp), Hone. reflexivity. }
    split; [exact Hp |]. split; [exact Hstep |]. split; [| split].
    + intros Hrange. rewrite Hstep. now apply sql_succ_int64.
    + apply (persist_row_exists W _ _ _ "unknown_source" Hok Hp). right. rewrite Hone. lia.
    + intros name Hname. rewrite (persist_flag_steps W _ _ _ name Hok Hp).
      unfold flags_for. simpl. rewrite Hflag, Hkey.
      rewrite bool_decide_eq_false_2 by congruence. reflexivity.
  - intros d Hid Hname. eexists. split; [reflexivity |].
    unfold field in *. simpl. unfold py_or. now rewrite Hid, Hname.
  - intros d Hd. unfold newsapi_article, field, dict_get.
    destruct Hd as [-> | (o & -> & Ho)].
    + eexists. split; reflexivity.
    + eexists. split; [reflexivity |]. simpl. now rewrite Ho.
  - intros item a. unfold wikipedia_article.
    destruct item as [| | | | | d]; try discriminate.
    destruct (dict_get "snippet" (VStr "") d); try discriminate.
    intros [= <-]. reflexivity.
Qed.

Lemma source_defaults_and_sentinel_witness :
  source_key (dict_set "harmful" (VBool true) plain_article) = Some "unknown_source" /\
  exists s',
    persist (sample_world ConnectionFailed (GText harmful_reply))
      [dict_set "harmful" (VBool true) plain_article] fresh = (Ok tt, s') /\
    flag_total (db s') "unknown_source" = 1%Z.
Proof.
  destruct (source_defaults_and_sentinel
              (sample_world ConnectionFailed (GText harmful_reply))
              (dict_set "harmful" (VBool true) plain_article) fresh
              (fun _ => eq_refl) eq_refl eq_refl)
    as ((Hkey & s' & Hp & _ & Htotal & _) & _).
  split; [exact Hkey |]. exists s'. split; [exact Hp |]. exact (Htotal eq_refl).
Defined.

(** An item with no source is normalized to the provider's name, not to the
    sentinel; and a NewsAPI source with an empty name stays empty. *)
Lemma missing_source_is_provider_name :
  (exists a, newsdata_article (VDict []) = Ok a /\ field "source" a = VStr "NewsData.io") /\
  (exists a, newsapi_article (VDict []) = Ok a /\ field "source" a = VStr "NewsAPI") /\
  (exists a, newsapi_article (VDict [("source", VDict [("name", VStr "")])]) = Ok a /\
             field "source" a = VStr "").
Proof. repeat split; eexists; split; reflexivity. Qed.

(** ** C7: the counters *)

Lemma map_VDict_inj (l1 l2 : list dict) : map VDict l1 = map VDict l2 -> l1 = l2.
Proof.
  revert l2. induction l1 as [|a l1 IH]; intros [|b l2]; simpl; try discriminate.
  - reflexivity.
  - intros [= -> H]. f_equal. now apply IH.
Qed.

Lemma api_analyze_ok (W : world) (query : string) (s s' : state) (hits : list dict) :
  query <> "" ->
  analyze W query s = (Ok hits, s') ->
  api_analyze W (Some query) s = (Json 200 (VList (map VDict hits)), s').
Proof.
  intros Hne Ha. unfold api_analyze.
  destruct query; [congruence |]. simpl is_empty. cbv iota. now rewrite Ha.
Qed.

Lemma api_analyze_200 (W : world) (q : option string) (s s' : state) (hits : list dict) :
  api_analyze W q s = (Json 200 (VList (map VDict hits)), s') ->
  exists query, q = Some query /\ analyze W query s = (Ok hits, s').
Proof.
  unfold api_analyze.
  destruct q as [[|c query] |]; cbv beta iota zeta delta [is_empty]; try discriminate.
  destruct (analyze W (String c query) s) as [[hits' | e] s1] eqn:Ha; [| discriminate].
  intros [= H <-]. apply map_VDict_inj in H as ->. eauto.
Qed.

Lemma api_analyze_grows (W : world) (q : option string) (s : state) :
  grows (db s) (db (snd (api_analyze W q s))).
Proof.
  unfold api_analyze.
  destruct (is_empty _); [apply grows_refl |].
  set (query := match q with Some query => query | None => "" end).
  destruct (analyze_cases W query s)
    as [(e & s' & -> & Hdb & _)
       | (ah & t1 & h & t2 & s3 & _ & _ & Hp & Hdb & ->)]; simpl.
  - rewrite Hdb. apply grows_refl.
  - rewrite <- Hdb. pose proof (persist_grows W h t2) as Hg. now rewrite Hp in Hg.
Qed.

(** C7, as the code has it.  No operation of the system removes a row of
    the two tables or lowers a counter.  When the storage engine does not
    raise, an analyze call that answers with a list in which a source is
    flagged harmful in N articles raises the counter of that source by
    exactly N, provided the counter is and stays an INTEGER of the 64-bit
    range (beyond [2 ^ 63 - 1] the sum becomes a REAL, which later
    increments leave as it is); the source has a row afterwards when N is
    not zero (a counter that was absent counts as zero, so the first flag
    creates the row with the value 1).  Articles that are not flagged take
    no part in the updates: storing a list is storing its flagged
    articles. *)
Theorem counters_only_grow (W : world) :
  (forall op s, grows (db s) (db (run_operation W op s))) /\
  (engine_ok W ->
   forall q s hits s',
     api_analyze W q s = (Json 200 (VList (map VDict hits)), s') ->
     forall name,
       ((- 2 ^ 63 <= flag_total (db s) name)%Z ->
        (flag_total (db s) name + Z.of_nat (flags_for name hits) < 2 ^ 63)%Z ->
        flag_total (db s') name
        = (flag_total (db s) name + Z.of_nat (flags_for name hits))%Z) /\
       ((0 < flags_for name hits)%nat -> is_Some (source_profiles (db s') !! name)) /\
       (source_profiles (db s) !! name = None -> flags_for name hits = 1%nat ->
        exists r, source_profiles (db s') !! name = Some r /\ flag_count r = 1%Z)) /\
  (forall hits s, persist W hits s = persist W (List.filter is_flagged hits) s).
Proof.
  split; [| split].
  - intros op s. destruct op; simpl; try apply grows_refl.
    + apply api_analyze_grows.
    + unfold get_profiles. cbv zeta. destruct (db_raises W _); apply grows_refl.
    + unfold get_trends. cbv zeta. destruct (db_raises W _); apply grows_refl.
  - intros Hok q s hits s' H name.
    apply api_analyze_200 in H as (query & -> & Ha).
    destruct (analyze_cases W query s)
      as [(e & s0 & Ha' & _) | (ah & t1 & h & t2 & s3 & _ & _ & Hp & Hdb & Ha')];
      rewrite Ha in Ha'; [discriminate |].
    injection Ha' as <- <-. rewrite <- Hdb.
    pose proof (persist_flag_total W hits t2 s' name Hok Hp) as Htotal.
    assert (Hrow : (0 < flags_for name hits)%nat ->
                   is_Some (source_profiles (db s') !! name)).
    { intros Hpos. apply (persist_row_exists W hits t2 s' name Hok Hp). now right. }
    split; [exact Htotal |]. split; [exact Hrow |].
    intros Hnone Hone. destruct Hrow as [r Hr]; [lia |].
    exists r. split; [exact Hr |].
    unfold flag_total in Htotal. rewrite Hr, Hnone, Hone in Htotal.
    apply Htotal; [discriminate | reflexivity].
  - intros hits s. apply persist_flagged_only.
Qed.

Lemma counters_only_grow_witness :
  exists hits s',
    api_analyze (one_provider_down (GText harmful_reply)) (Some "oil") fresh
      = (Json 200 (VList (map VDict hits)), s') /\
    flag_total (db fresh) "Reuters" = 0%Z /\
    flag_total (db s') "Reuters" = 1%Z /\
    flag_total (db s') "Wikipedia" = 1%Z /\
    is_Some (source_profiles (db s') !! "Wikipedia").
Proof.
  eassert (Ha : analyze (one_provider_down (GText harmful_reply)) "oil" fresh = (Ok _, _))
    by (vm_compute; reflexivity).
  apply api_analyze_ok in Ha as Hrun; [| discriminate].
  eexists _, _. split; [exact Hrun |].
  destruct (counters_only_grow (one_provider_down (GText harmful_reply))) as (_ & H & _).
  pose proof (H (fun _ => eq_refl) _ _ _ _ Hrun "Reuters") as [HR _].
  pose proof (H (fun _ => eq_refl) _ _ _ _ Hrun "Wikipedia") as (HW & HrowW & _).
  split; [reflexivity |].
  split; [apply HR; [vm_compute; discriminate | vm_compute; reflexivity] |].
  split; [apply HW; [vm_compute; discriminate | vm_compute; reflexivity] |].
  apply HrowW. vm_compute. lia.
Defined.

(** With a store that raises in every write, the answer flags the source
    "Reuters" in one article and the counter of "Reuters" is where it was:
    there is still no row. *)
Lemma locked_store_keeps_counters :
  exists hits s',
    api_analyze (locked_store (one_provider_down (GText harmful_reply))) (Some "oil") fresh
      = (Json 200 (VList (map VDict hits)), s') /\
    flags_for "Reuters" hits = 1%nat /\
    flag_total (db fresh) "Reuters" = 0%Z /\
    flag_total (db s') "Reuters" = 0%Z /\
    source_profiles (db s') !! "Reuters" = None.
Proof.
  eassert (Ha : analyze (locked_store (one_provider_down (GText harmful_reply)))
                  "oil" fresh = (Ok _, _)) by (vm_compute; reflexivity).
  apply api_analyze_ok in Ha as Hrun; [| discriminate].
  eexists _, _. split; [exact Hrun |]. repeat split.
Qed.

(** ** The round trip of a well-formed reply *)

Lemma take_alnum_app (g rest : string) :
  all_alnum g = true -> alnum_opt (head rest) = false ->
  take_alnum (g +:+ rest) = g.
Proof.
  unfold all_alnum. induction g as [|c g IH]; simpl.
  - intros _. destruct rest as [|c rest]; simpl; [reflexivity |]. now intros ->.
  - intros H Hrest. apply andb_true_iff in H as [Hc Hg]. now rewrite Hc, IH.
Qed.

Lemma label_at_here (marker g rest : string) :
  g <> "" -> all_alnum g = true -> alnum_opt (head rest) = false ->
  label_at marker (marker +:+ g +:+ rest) = Some g.
Proof.
  intros Hne Hg Hrest. unfold label_at.
  rewrite (proj2 (drop_prefix_spec marker _ (g +:+ rest)) eq_refl).
  rewrite take_alnum_app by assumption.
  destruct g; [congruence | reflexivity].
Qed.

Lemma search_label_here (marker g rest : string) :
  g <> "" -> all_alnum g = true -> alnum_opt (head rest) = false ->
  search_label marker (marker +:+ g +:+ rest) = Some g.
Proof.
  intros Hne Hg Hrest.
  pose proof (label_at_here marker g rest Hne Hg Hrest) as H.
  destruct (marker +:+ g +:+ rest); simpl; now rewrite H.
Qed.

(** A marker that has a character other than a letter or a digit, and no
    space, does not start inside a run of letters and digits that a space
    follows. *)
Lemma drop_prefix_in_run (marker x rest : string) :
  has_char " "%char marker = false ->
  all_alnum marker = false ->
  all_alnum x = true ->
  drop_prefix marker (x +:+ String " "%char rest) = None.
Proof.
  unfold has_char, all_alnum. revert x.
  induction marker as [|a m IH]; intros x Hsp Hm Hx;
    cbn [list_ascii_of_string existsb forallb] in *; [discriminate |].
  apply orb_false_iff in Hsp as [Ha Hsp].
  destruct x as [|b x]; cbn [list_ascii_of_string forallb String.append drop_prefix] in *.
  - rewrite Ascii.eqb_sym, Ha. reflexivity.
  - apply andb_true_iff in Hx as [Hb Hx].
    destruct (Ascii.eqb a b) eqn:Hab; [| reflexivity].
    apply Ascii.eqb_eq in Hab as ->. rewrite Hb in Hm. simpl andb in Hm.
    now apply IH.
Qed.

Lemma search_label_skip_run (marker x rest : string) :
  has_char " "%char marker = false ->
  all_alnum marker = false ->
  all_alnum x = true ->
  search_label marker (x +:+ String " "%char rest)
  = search_label marker (String " "%char rest).
Proof.
  intros Hsp Hm. induction x as [|b x IH]; intros Hx; [reflexivity |].
  pose proof Hx as Hx'. unfold all_alnum in Hx'. simpl in Hx'.
  apply andb_true_iff in Hx' as [_ Hx'].
  change (String b x +:+ String " "%char rest) with (String b (x +:+ String " "%char rest)).
  simpl search_label. unfold label_at.
  change (String b (x +:+ String " "%char rest)) with (String b x +:+ String " "%char rest).
  rewrite (drop_prefix_in_run marker (String b x) rest Hsp Hm Hx).
  now apply IH.
Qed.

Lemma search_rest_skip_run (marker x rest : string) :
  has_char " "%char marker = false ->
  all_alnum marker = false ->
  all_alnum x = true ->
  search_rest marker (x +:+ String " "%char rest)
  = search_rest marker (String " "%char rest).
Proof.
  intros Hsp Hm. induction x as [|b x IH]; intros Hx; [reflexivity |].
  pose proof Hx as Hx'. unfold all_alnum in Hx'. simpl in Hx'.
  apply andb_true_iff in Hx' as [_ Hx'].
  change (String b x +:+ String " "%char rest) with (String b (x +:+ String " "%char rest)).
  simpl search_rest.
  change (String b (x +:+ String " "%char rest)) with (String b x +:+ String " "%char rest).
  rewrite (drop_prefix_in_run marker (String b x) rest Hsp Hm Hx).
  now apply IH.
Qed.

Lemma until_newline_none (r : string) :
  has_char newline r = false -> until_newline r = r.
Proof.
  unfold has_char. induction r as [|c r IH];
    cbn [list_ascii_of_string existsb until_newline]; [reflexivity |].
  intros H. apply orb_false_iff in H as [Hc Hr].
  rewrite Ascii.eqb_sym, Hc, IH by assumption. reflexivity.
Qed.

(** A reply in the format the prompt asks for is read back: the two labels
    as they are, the reason without the white space around it. *)
Theorem parse_labels_round_trip (sentiment intent reason : string) :
  sentiment <> "" -> all_alnum sentiment = true ->
  intent <> "" -> all_alnum intent = true ->
  has_char newline reason = false ->
  parse_labels (formatted_reply sentiment intent reason)
  = (sentiment, intent, strip reason).
Proof.
  intros Hs Hsa Hi Hia Hr. unfold parse_labels, formatted_reply.
  assert (HcS : contains "SENTIMENT="
                  ("SENTIMENT=" +:+ sentiment +:+ " INTENT=" +:+ intent
                   +:+ " REASON=" +:+ reason) = true).
  { apply contains_spec. now exists "", (sentiment +:+ " INTENT=" +:+ intent
                                          +:+ " REASON=" +:+ reason). }
  assert (HcI : contains "INTENT="
                  ("SENTIMENT=" +:+ sentiment +:+ " INTENT=" +:+ intent
                   +:+ " REASON=" +:+ reason) = true).
  { apply contains_spec. exists ("SENTIMENT=" +:+ sentiment +:+ " "),
      (intent +:+ " REASON=" +:+ reason).
    rewrite !append_assoc. reflexivity. }
  rewrite HcS, HcI. simpl andb. cbv iota.
  rewrite (search_label_here "SENTIMENT=" sentiment
             (" INTENT=" +:+ intent +:+ " REASON=" +:+ reason) Hs Hsa eq_refl).
  assert (HI : search_label "INTENT="
                 ("SENTIMENT=" +:+ sentiment +:+ " INTENT=" +:+ intent
                  +:+ " REASON=" +:+ reason) = Some intent).
  { change (search_label "INTENT="
              (sentiment +:+ String " "%char ("INTENT=" +:+ intent +:+ " REASON=" +:+ reason))
            = Some intent).
    rewrite search_label_skip_run by first [reflexivity | assumption].
    change (search_label "INTENT=" ("INTENT=" +:+ intent +:+ " REASON=" +:+ reason)
            = Some intent).
    now apply search_label_here. }
  rewrite HI.
  assert (HR : search_rest "REASON="
                 ("SENTIMENT=" +:+ sentiment +:+ " INTENT=" +:+ intent
                  +:+ " REASON=" +:+ reason) = Some reason).
  { change (search_rest "REASON="
              (sentiment +:+ String " "%char ("INTENT=" +:+ intent +:+ " REASON=" +:+ reason))
            = Some reason).
    rewrite search_rest_skip_run by first [reflexivity | assumption].
    change (search_rest "REASON="
              (intent +:+ String " "%char ("REASON=" +:+ reason)) = Some reason).
    rewrite search_rest_skip_run by first [reflexivity | assumption].
    change (Some (until_newline reason) = Some reason).
    now rewrite until_newline_none. }
  rewrite HR. reflexivity.
Qed.

Lemma parse_labels_round_trip_witness :
  parse_labels (formatted_reply "negative1" "harmful1" " two ships collided ")
  = ("negative1", "harmful1", "two ships collided").
Proof.
  apply (parse_labels_round_trip "negative1" "harmful1" " two ships collided ");
    first [discriminate | reflexivity].
Defined.

(** ** The two read endpoints *)

Lemma get_profiles_run (W : world) (s : state) :
  get_profiles W s
  = (if db_raises W (trace s ++ [EvDbConnect]) then ServerError Sqlite3Error
     else Json 200 (VList (map profile_row (top_profiles (db s)))),
     connect s).
Proof. unfold get_profiles. cbv zeta. cbn [connect trace]. now destruct (db_raises W _). Qed.

Lemma get_trends_run (W : world) (s : state) :
  get_trends W s
  = (if db_raises W (trace s ++ [EvDbConnect]) then ServerError Sqlite3Error
     else Json 200 (VList (map trend_row (top_trends (db s)))),
     connect s).
Proof. unfold get_trends. cbv zeta. cbn [connect trace]. now destruct (db_raises W _). Qed.

Section top_rows.

Context {A : Type} (count : A -> Z).

#[local] Instance by_count_desc_total : Total (by_count_desc count).
Proof. intros x y. unfold by_count_desc. lia. Qed.

#[local] Instance by_count_desc_trans : Transitive (by_count_desc count).
Proof. intros x y z. unfold by_count_desc. lia. Qed.

Lemma top_rows_sorted (n : nat) (m : gmap string A) :
  let rows := take n (merge_sort (by_count_desc count) (map_to_list m)) in
  length rows <= n /\
  StronglySorted (by_count_desc count) rows /\
  (forall k x, (k, x) ∈ rows -> m !! k = Some x).
Proof.
  cbv zeta. split; [| split].
  - rewrite length_take. lia.
  - apply (StronglySorted_app_1_l _ _
             (drop n (merge_sort (by_count_desc count) (map_to_list m)))).
    rewrite take_drop. apply StronglySorted_merge_sort; apply _.
  - intros k x Hin. apply elem_of_map_to_list.
    rewrite <- (merge_sort_Permutation (by_count_desc count)).
    rewrite <- (take_drop n (merge_sort (by_count_desc count) (map_to_list m))).
    apply elem_of_app. now left.
Qed.

End top_rows.

(** * Further properties of the code *)

(** ** The tag pattern of the Wikipedia adapter *)

Lemma tag_end_none_sub (s : string) :
  tag_end s = None -> tag_end (sub_tags_from 0 s) = None.
Proof.
  induction s as [|c s IH]; [reflexivity |].
  cbn [tag_end sub_tags_from].
  destruct (Ascii.eqb c ">"%char) eqn:Hgt; [discriminate |].
  destruct (Ascii.eqb c newline) eqn:Hnl.
  - intros _. destruct (Ascii.eqb c "<"%char) eqn:Hlt.
    + apply Ascii.eqb_eq in Hnl, Hlt. subst c. discriminate.
    + cbn [tag_end]. now rewrite Hgt, Hnl.
  - destruct (tag_end s) as [k|] eqn:Hs; [discriminate |]. intros _.
    destruct (Ascii.eqb c "<"%char); cbn [tag_end]; now rewrite Hgt, Hnl, IH.
Qed.

Lemma tag_free_sub (k : nat) (s : string) : tag_free (sub_tags_from k s) = true.
Proof.
  revert k. induction s as [|c s IH]; intros k; [reflexivity |].
  cbn [sub_tags_from]. destruct k as [|k]; [| apply IH].
  destruct (Ascii.eqb c "<"%char) eqn:Hlt.
  - destruct (tag_end s) as [k|] eqn:Hs; [apply IH |].
    cbn [tag_free]. now rewrite Hlt, (tag_end_none_sub s Hs), IH.
  - cbn [tag_free]. now rewrite Hlt, IH.
Qed.

Lemma tag_free_fixed (t : string) : tag_free t = true -> sub_tags_from 0 t = t.
Proof.
  induction t as [|c t IH]; [reflexivity |].
  cbn [tag_free sub_tags_from]. intros H. apply andb_true_iff in H as [Hc Ht].
  destruct (Ascii.eqb c "<"%char).
  - destruct (tag_end t); [discriminate |]. now rewrite IH.
  - now rewrite IH.
Qed.

Lemma tag_end_none_newline (inside after : string) :
  tag_end (inside +:+ String ">"%char after) = None -> has_char newline inside = true.
Proof.
  unfold has_char. induction inside as [|c inside IH];
    cbn [String.append tag_end list_ascii_of_string existsb]; [discriminate |].
  destruct (Ascii.eqb c ">"%char); [discriminate |].
  rewrite (Ascii.eqb_sym newline c).
  destruct (Ascii.eqb c newline); [reflexivity |].
  destruct (tag_end _) eqn:Ht; [discriminate |]. intros _. now apply IH.
Qed.

Lemma tag_free_no_tag (t before inside after : string) :
  tag_free t = true ->
  t = before +:+ "<" +:+ inside +:+ ">" +:+ after ->
  has_char newline inside = true.
Proof.
  revert t. induction before as [|b before IH]; intros t Ht ->.
  - change ("" +:+ "<" +:+ inside +:+ ">" +:+ after)
      with (String "<"%char (inside +:+ String ">"%char after)) in Ht.
    cbn [tag_free] in Ht. rewrite Ascii.eqb_refl in Ht.
    apply andb_true_iff in Ht as [Ht _].
    destruct (tag_end _) eqn:He; [discriminate |].
    now apply tag_end_none_newline in He.
  - change (String b before +:+ "<" +:+ inside +:+ ">" +:+ after)
      with (String b (before +:+ "<" +:+ inside +:+ ">" +:+ after)) in Ht.
    cbn [tag_free] in Ht. apply andb_true_iff in Ht as [_ Ht].
    now apply (IH _ Ht).
Qed.

Lemma tag_free_without_lt (s : string) : has_char "<"%char s = false -> tag_free s = true.
Proof.
  unfold has_char. induction s as [|c s IH];
    cbn [list_ascii_of_string existsb tag_free]; [reflexivity |].
  intros H. apply orb_false_iff in H as [Hc Hs].
  rewrite Ascii.eqb_sym, Hc, IH by assumption. reflexivity.
Qed.

Lemma sub_tags_from_length (k : nat) (s : string) :
  String.length (sub_tags_from k s) <= String.length s.
Proof.
  revert k. induction s as [|c s IH]; intros k; [reflexivity |].
  cbn [sub_tags_from String.length]. destruct k as [|k].
  - destruct (Ascii.eqb c "<"%char).
    + destruct (tag_end s) as [k|].
      * specialize (IH k). lia.
      * cbn [String.length]. specialize (IH 0). lia.
    + cbn [String.length]. specialize (IH 0). lia.
  - specialize (IH k). lia.
Qed.

(** The description of a Wikipedia article is the snippet with its markup
    removed.  No tag is left in it: wherever a [<] and a later [>] stand in
    it, a line feed stands between them (the pattern does not match across
    a line feed).  Removing the tags once more changes nothing, a snippet
    without [<] is kept as it is, and the description is never longer than
    the snippet. *)
Theorem wikipedia_description_has_no_tag (d a : dict) :
  wikipedia_article (VDict d) = Ok a ->
  exists snippet desc,
    dict_get "snippet" (VStr "") d = VStr snippet /\
    field "description" a = VStr desc /\
    desc = sub_tags snippet /\
    (forall before inside after,
       desc = before +:+ "<" +:+ inside +:+ ">" +:+ after ->
       has_char newline inside = true) /\
    sub_tags desc = desc /\
    (has_char "<"%char snippet = false -> desc = snippet) /\
    String.length desc <= String.length snippet.
Proof.
  unfold wikipedia_article.
  destruct (dict_get "snippet" (VStr "") d) as [| | |snippet| |] eqn:Hs; try discriminate.
  intros [= <-]. exists snippet, (sub_tags snippet).
  pose proof (tag_free_sub 0 snippet) as Hfree. fold (sub_tags snippet) in Hfree.
  repeat split.
  - intros before inside after. now apply tag_free_no_tag.
  - now apply tag_free_fixed.
  - intros H. apply tag_free_fixed. now apply tag_free_without_lt.
  - apply sub_tags_from_length.
Qed.

Lemma wikipedia_description_has_no_tag_witness :
  exists snippet desc,
    dict_get "snippet" (VStr "")
      [("title", VStr "Oil spill"); ("snippet", VStr "a <b>spill</b> of 3 < 4 barrels")]
      = VStr snippet /\
    field "description"
      [("source", VStr "Wikipedia"); ("title", VStr "Oil spill");
       ("description", VStr "a spill of 3 < 4 barrels");
       ("link", VStr "https://en.wikipedia.org/?curid=None");
       ("pub_date", VStr ""); ("keywords", VList []); ("api_type", VStr "wikipedia")]
      = VStr desc /\
    desc = sub_tags snippet /\
    (forall before inside after,
       desc = before +:+ "<" +:+ inside +:+ ">" +:+ after ->
       has_char newline inside = true) /\
    sub_tags desc = desc /\
    (has_char "<"%char snippet = false -> desc = snippet) /\
    String.length desc <= String.length snippet.
Proof.
  apply (wikipedia_description_has_no_tag
           [("title", VStr "Oil spill"); ("snippet", VStr "a <b>spill</b> of 3 < 4 barrels")]).
  reflexivity.
Defined.

(** ** The labels read from a reply *)

Lemma has_char_until_newline (s : string) : has_char newline (until_newline s) = false.
Proof.
  unfold has_char. induction s as [|c s IH]; [reflexivity |].
  cbn [until_newline]. destruct (Ascii.eqb c newline) eqn:Hc; [reflexivity |].
  cbn [list_ascii_of_string existsb]. now rewrite Ascii.eqb_sym, Hc, IH.
Qed.

Lemma has_char_lstrip (c : ascii) (s : string) :
  has_char c s = false -> has_char c (lstrip s) = false.
Proof.
  unfold has_char. induction s as [|b s IH]; [reflexivity |].
  cbn [lstrip]. destruct (is_space b); [| trivial].
  cbn [list_ascii_of_string existsb]. intros H.
  apply orb_false_iff in H as [_ H]. now apply IH.
Qed.

Lemma has_char_rstrip (c : ascii) (s : string) :
  has_char c s = false -> has_char c (rstrip s) = false.
Proof.
  unfold has_char. induction s as [|b s IH]; [reflexivity |].
  cbn [rstrip list_ascii_of_string existsb]. intros H.
  apply orb_false_iff in H as [Hb H]. specialize (IH H).
  destruct (rstrip s) as [|r rs].
  - destruct (is_space b); [reflexivity |].
    cbn [list_ascii_of_string existsb]. now rewrite Hb.
  - cbn [list_ascii_of_string existsb] in *. now rewrite Hb, IH.
Qed.

Lemma rstrip_idem (s : string) : rstrip (rstrip s) = rstrip s.
Proof.
  induction s as [|b s IH]; [reflexivity |].
  cbn [rstrip]. destruct (rstrip s) as [|r rs] eqn:Hr.
  - destruct (is_space b) eqn:Hb; [reflexivity |]. cbn [rstrip]. now rewrite Hb.
  - cbn [rstrip] in *. rewrite IH. reflexivity.
Qed.

(** A text that does not begin with white space. *)
Lemma lstrip_fixed (s : string) :
  match s with String c _ => is_space c = false | EmptyString => True end ->
  lstrip s = s.
Proof. destruct s as [|c s]; [reflexivity |]. cbn [lstrip]. now intros ->. Qed.

Lemma lstrip_head (s : string) :
  match lstrip s with String c _ => is_space c = false | EmptyString => True end.
Proof.
  induction s as [|c s IH]; [exact I |].
  cbn [lstrip]. destruct (is_space c) eqn:Hc; [exact IH | exact Hc].
Qed.

Lemma rstrip_head (s : string) :
  match s with String c _ => is_space c = false | EmptyString => True end ->
  match rstrip s with String c _ => is_space c = false | EmptyString => True end.
Proof.
  destruct s as [|c s]; [trivial |]. cbn [rstrip]. intros Hc.
  destruct (rstrip s); [now rewrite Hc | exact Hc].
Qed.

Lemma strip_idem (s : string) : strip (strip s) = strip s.
Proof.
  unfold strip.
  rewrite (lstrip_fixed (rstrip (lstrip s))) by apply rstrip_head, lstrip_head.
  apply rstrip_idem.
Qed.

Lemma search_label_shape (marker s : string) :
  match search_label marker s with
  | Some g => g <> "" /\ all_alnum g = true
  | None => True
  end.
Proof.
  destruct (search_label marker s) as [g|] eqn:H; [| exact I].
  apply search_label_spec in H as (Hne & Hg & _). auto.
Qed.

(** Whatever the reply is, the two labels read from it are runs of ASCII
    letters and digits (possibly empty), and the reason has no line feed and
    no white space around it.  An intent is read only together with a
    sentiment, and a reason only together with both: so an article is
    flagged harmful only on a reply that also gave a sentiment. *)
Theorem parse_labels_shape (reply : string) :
  match parse_labels reply with
  | (sentiment, intent, reason) =>
      all_alnum sentiment = true /\ all_alnum intent = true /\
      has_char newline reason = false /\ strip reason = reason /\
      (intent = "" \/ sentiment <> "") /\
      (reason = "" \/ intent <> "") /\
      (startswith "harmful" intent = false \/ sentiment <> "")
  end.
Proof.
  unfold parse_labels.
  destruct (contains "SENTIMENT=" reply && contains "INTENT=" reply);
    [| repeat split; auto].
  pose proof (search_label_shape "SENTIMENT=" reply) as Hs.
  pose proof (search_label_shape "INTENT=" reply) as Hi.
  destruct (search_label "SENTIMENT=" reply) as [sentiment|]; [| repeat split; auto].
  destruct Hs as [Hsne Hsa].
  destruct (search_label "INTENT=" reply) as [intent|]; [| repeat split; auto].
  destruct Hi as [Hine Hia].
  repeat split; auto.
  - destruct (search_rest "REASON=" reply) as [g|] eqn:Hg; [| reflexivity].
    unfold strip. apply has_char_rstrip, has_char_lstrip.
    revert Hg. clear. induction reply as [|c reply IH]; cbn [search_rest].
    + destruct (drop_prefix "REASON=" ""); [| discriminate].
      intros [= <-]. apply has_char_until_newline.
    + destruct (drop_prefix "REASON=" (String c reply)); [| exact IH].
      intros [= <-]. apply has_char_until_newline.
  - destruct (search_rest "REASON=" reply); [apply strip_idem | reflexivity].
Qed.

(** ** The detector and the case of the text *)

Lemma is_word_lower_char (c : ascii) : is_word (lower_char c) = is_word c.
Proof.
  assert (H : forall_ascii (fun c => Bool.eqb (is_word (lower_char c)) (is_word c)) = true)
    by (vm_compute; reflexivity).
  pose proof (forall_ascii_spec _ H c) as Hc. cbv beta in Hc.
  now apply Bool.eqb_prop in Hc.
Qed.

Lemma is_word_same_lower (a b : ascii) :
  lower_char a = lower_char b -> is_word a = is_word b.
Proof.
  intros H. now rewrite <- (is_word_lower_char a), H, is_word_lower_char.
Qed.

Lemma word_opt_head_lower (s1 s2 : string) :
  lower s1 = lower s2 -> word_opt (head s1) = word_opt (head s2).
Proof.
  destruct s1 as [|a s1], s2 as [|b s2]; cbn [lower]; try discriminate; [reflexivity |].
  intros [= H _]. cbn [head word_opt]. now apply is_word_same_lower.
Qed.

Lemma literal_then_boundary_lower (w s1 s2 : string) (p1 p2 : option ascii) :
  word_opt p1 = word_opt p2 -> lower s1 = lower s2 ->
  literal_then_boundary p1 w s1 = literal_then_boundary p2 w s2.
Proof.
  revert s1 s2 p1 p2. induction w as [|a w IH]; intros s1 s2 p1 p2 Hp Hs.
  - cbn [literal_then_boundary]. unfold at_boundary.
    now rewrite Hp, (word_opt_head_lower s1 s2 Hs).
  - cbn [literal_then_boundary].
    destruct s1 as [|b1 s1], s2 as [|b2 s2]; cbn [lower] in Hs; try discriminate;
      [reflexivity |].
    injection Hs as Hb Hs. unfold eq_ci. rewrite Hb. f_equal.
    apply IH; [| assumption]. cbn [word_opt]. now apply is_word_same_lower.
Qed.

Lemma search_word_from_lower (w s1 s2 : string) (p1 p2 : option ascii) :
  word_opt p1 = word_opt p2 -> lower s1 = lower s2 ->
  search_word_from p1 w s1 = search_word_from p2 w s2.
Proof.
  revert s2 p1 p2. induction s1 as [|b1 s1 IH]; intros s2 p1 p2 Hp Hs;
    destruct s2 as [|b2 s2]; cbn [lower] in Hs; try discriminate.
  - cbn [search_word_from]. f_equal. unfold at_boundary. rewrite Hp. f_equal.
    now apply literal_then_boundary_lower.
  - injection Hs as Hb Hs. cbn [search_word_from].
    rewrite (literal_then_boundary_lower w (String b1 s1) (String b2 s2) p1 p2 Hp)
      by (cbn [lower]; now rewrite Hb, Hs).
    unfold at_boundary. cbn [head word_opt].
    rewrite Hp, (is_word_same_lower b1 b2 Hb). f_equal.
    apply IH; [| assumption]. cbn [word_opt]. now apply is_word_same_lower.
Qed.

Lemma lower_char_idem (c : ascii) : lower_char (lower_char c) = lower_char c.
Proof.
  assert (H : forall_ascii (fun c => Ascii.eqb (lower_char (lower_char c)) (lower_char c))
              = true) by (vm_compute; reflexivity).
  apply Ascii.eqb_eq. exact (forall_ascii_spec _ H c).
Qed.

Lemma lower_idem (s : string) : lower (lower s) = lower s.
Proof.
  induction s as [|c s IH]; [reflexivity |].
  cbn [lower]. now rewrite lower_char_idem, IH.
Qed.

(** On text of the Latin-1 range, which is the text of this development,
    the detector does not see the case: two texts that are equal after
    [str.lower] give the same words, and so do a text and its lower-case
    form.  (Beyond that range [re.IGNORECASE] and [str.lower] part ways, on
    the dotted capital I for one, and the statement does not extend.) *)
Theorem detect_harmful_words_ignores_case (s1 s2 : string) :
  lower s1 = lower s2 ->
  detect_harmful_words (VStr s1) = detect_harmful_words (VStr s2) /\
  detect_harmful_words (VStr (lower s1)) = detect_harmful_words (VStr s1).
Proof.
  assert (Hgen : forall t1 t2, lower t1 = lower t2 ->
            detect_harmful_words (VStr t1) = detect_harmful_words (VStr t2)).
  { intros t1 t2 Hs. unfold detect_harmful_words. cbn [truthy py_str].
    assert (He : is_empty t1 = is_empty t2).
    { destruct t1, t2; cbn [lower] in Hs; try discriminate; reflexivity. }
    rewrite He. destruct (is_empty t2); [reflexivity |]. cbn [negb].
    do 2 f_equal. apply filter_ext. intros w. unfold search_word.
    now apply search_word_from_lower. }
  intros Hs. split; [now apply Hgen |]. apply Hgen, lower_idem.
Qed.

Lemma detect_harmful_words_ignores_case_witness :
  detect_harmful_words (VStr "A SCAM, they say") = detect_harmful_words (VStr "a Scam, THEY say") /\
  detect_harmful_words (VStr (lower "A SCAM, they say"))
  = detect_harmful_words (VStr "A SCAM, they say").
Proof.
  apply (detect_harmful_words_ignores_case "A SCAM, they say" "a Scam, THEY say").
  reflexivity.
Defined.

(** ** The detector and the tag test *)

Lemma whole_word_occurs (w text : string) :
  lower w = w -> occurs_as_whole_word w text -> occurs_ignoring_case w text.
Proof.
  intros Hw (before & mid & after & -> & Hmid & _ & _).
  exists (lower before), (lower after).
  now rewrite !lower_append, Hmid, Hw.
Qed.

(** On tags whose text is of the Latin-1 range, which is the text of this
    development, the substring test finds every word the detector would
    find in the tag: there it is the weaker of the two tests.  (Beyond that
    range the statement does not extend: [re.IGNORECASE] matches the long s
    with "s", and lower-casing the tag does not.) *)
Theorem tag_test_covers_detector (tag : pyval) (w : string) :
  w ∈ detect_harmful_words tag -> w ∈ harmful_in_tags [tag].
Proof.
  rewrite elem_of_detect_harmful_words, elem_of_harmful_in_tags.
  intros (_ & Hw & Hs). split; [assumption |].
  exists tag. split; [apply list_elem_of_singleton; reflexivity |].
  destruct (HARMFUL_KEYWORDS_letters w Hw) as [Hl Hne].
  apply whole_word_occurs; [now apply lower_letters_fixed |].
  now apply search_word_whole_word.
Qed.

Lemma tag_test_covers_detector_witness :
  "scam" ∈ detect_harmful_words (VStr "Scam alert") /\
  "scam" ∈ harmful_in_tags [VStr "Scam alert"].
Proof.
  assert (H : "scam" ∈ detect_harmful_words (VStr "Scam alert"))
    by (vm_compute; apply list_elem_of_here).
  split; [exact H |].
  exact (tag_test_covers_detector (VStr "Scam alert") "scam" H).
Defined.

(** ** The harmful words and the text of the prompt *)

Lemma eq_ci_letter_not_word (a c : ascii) :
  is_lower_letter a = true -> is_word c = false -> eq_ci a c = false.
Proof.
  intros Ha Hc. destruct (eq_ci a c) eqn:He; [| reflexivity].
  rewrite (eq_ci_letter_word a c Ha He) in Hc. discriminate.
Qed.

(** A word of letters does not match across a character that is not a word
    character, and [\b] sees such a character as it sees the end of the
    text. *)
Lemma literal_then_boundary_cut (w t r : string) (c : ascii) (p : option ascii) :
  lower_letters w = true -> is_word c = false ->
  literal_then_boundary p w (t +:+ String c r) = literal_then_boundary p w t.
Proof.
  intros Hw Hc. revert t p. induction w as [|a w IH]; intros t p.
  - cbn [literal_then_boundary]. unfold at_boundary.
    destruct t as [|b t]; [| reflexivity]. cbn [String.append head word_opt].
    now rewrite Hc.
  - unfold lower_letters in Hw. cbn [list_ascii_of_string forallb] in Hw.
    apply andb_true_iff in Hw as [Ha Hw].
    destruct t as [|b t]; cbn [String.append literal_then_boundary].
    + now rewrite (eq_ci_letter_not_word a c Ha Hc).
    + now rewrite (IH Hw).
Qed.

Lemma search_word_from_empty (w : string) (p : option ascii) :
  w <> "" -> search_word_from p w "" = false.
Proof.
  destruct w as [|a w]; [congruence |]. intros _.
  cbn [search_word_from literal_then_boundary]. now rewrite andb_false_r.
Qed.

Lemma search_word_from_cut (w t d : string) (c : ascii) (p : option ascii) :
  lower_letters w = true -> w <> "" -> is_word c = false ->
  search_word_from p w (t +:+ String c d)
  = search_word_from p w t || search_word_from (Some c) w d.
Proof.
  intros Hw Hne Hc. revert p. induction t as [|b t IH]; intros p.
  - rewrite (search_word_from_empty w p Hne). cbn [String.append orb search_word_from].
    change (String c d) with ("" +:+ String c d).
    rewrite (literal_then_boundary_cut w "" d c p Hw Hc).
    destruct w as [|a w]; [congruence |].
    cbn [literal_then_boundary]. now rewrite andb_false_r.
  - cbn [String.append search_word_from].
    change (String b (t +:+ String c d)) with (String b t +:+ String c d).
    rewrite (literal_then_boundary_cut w (String b t) d c p Hw Hc), IH.
    unfold at_boundary. cbn [String.append head]. now rewrite orb_assoc.
Qed.

(** The detector on a title and a description joined as the prompt joins
    them finds what it finds in the one or in the other. *)
Lemma search_word_joined (w title description : string) :
  lower_letters w = true -> w <> "" ->
  search_word w (title +:+ ". " +:+ description)
  = search_word w title || search_word w description.
Proof.
  intros Hw Hne. unfold search_word.
  change (title +:+ ". " +:+ description)
    with (title +:+ String "."%char (String " "%char description)).
  rewrite search_word_from_cut by first [assumption | reflexivity]. f_equal.
  change (String " "%char description) with ("" +:+ String " "%char description).
  rewrite search_word_from_cut by first [assumption | reflexivity].
  rewrite (search_word_from_empty w _ Hne). cbn [orb].
  now apply search_word_from_lower.
Qed.

Lemma detect_text_of (v : pyval) :
  text_or_empty v = true ->
  detect_harmful_words v = detect_harmful_words (VStr (text_of v)).
Proof.
  destruct v as [| b | z | x | l | d]; try reflexivity;
    cbn [text_or_empty text_of]; intros H; apply negb_true_iff in H;
    unfold detect_harmful_words; now rewrite H.
Qed.

Lemma elem_of_detect_joined (w title description : string) :
  w ∈ detect_harmful_words (VStr (title +:+ ". " +:+ description)) <->
  w ∈ detect_harmful_words (VStr title) \/ w ∈ detect_harmful_words (VStr description).
Proof.
  rewrite !elem_of_detect_harmful_words. cbn [py_str truthy].
  assert (Hjoin : negb (is_empty (title +:+ ". " +:+ description)) = true)
    by (destruct title; reflexivity).
  assert (Hfound : forall t, w ∈ HARMFUL_KEYWORDS -> search_word w t = true ->
                             negb (is_empty t) = true).
  { intros t Hw Hs. destruct t; [| reflexivity].
    destruct (HARMFUL_KEYWORDS_letters w Hw) as [_ Hne].
    unfold search_word in Hs. rewrite search_word_from_empty in Hs by assumption.
    discriminate. }
  split.
  - intros (_ & Hw & Hs). destruct (HARMFUL_KEYWORDS_letters w Hw) as [Hl Hne].
    rewrite search_word_joined in Hs by assumption.
    apply orb_true_iff in Hs as [Hs | Hs]; [left | right]; eauto.
  - intros [(_ & Hw & Hs) | (_ & Hw & Hs)];
      destruct (HARMFUL_KEYWORDS_letters w Hw) as [Hl Hne];
      (split; [exact Hjoin |]); (split; [exact Hw |]);
      rewrite search_word_joined by assumption; rewrite Hs;
      [reflexivity | apply orb_true_r].
Qed.

(** The harmful words of a classified article are the words the detector
    finds in the text the model was given (the title and the description
    joined by a full stop and a space), together with the words of the tag
    test: detecting in the two parts one by one loses and adds nothing. *)
Theorem harmful_words_match_prompt_text (W : world) (article a' : dict) (s s' : state) :
  categorize_article W article s = (Ok a', s') ->
  exists tags,
    py_iter (py_or (field "keywords" article) (VList [])) = Ok tags /\
    forall w,
      w ∈ harmful_words_of a' <->
      w ∈ detect_harmful_words
            (VStr (text_of (field "title" a') +:+ ". " +:+ text_of (field "description" a')))
      \/ w ∈ harmful_in_tags tags.
Proof.
  intros H.
  assert (Hc : classifiable article = true)
    by (apply (categorize_article_total W article s); eauto).
  unfold classifiable in Hc. apply andb_true_iff in Hc as [Hc Hd].
  apply andb_true_iff in Hc as [_ Ht].
  apply categorize_article_inv in H
    as (tags & prompt & sentiment & intent & reason & Htags & _ & _ & ->).
  exists tags. split; [exact Htags |]. intros w.
  unfold harmful_words_of. dict_fields. rewrite str_items_strings.
  unfold set_of. rewrite elem_of_remove_dups, !elem_of_app, elem_of_detect_joined.
  rewrite !detect_default, (detect_text_of _ Ht), (detect_text_of _ Hd).
  unfold field. tauto.
Qed.

Lemma harmful_words_match_prompt_text_witness :
  exists a' s' tags,
    categorize_article (sample_world ConnectionFailed (GText exact_reply))
      plain_article fresh = (Ok a', s') /\
    py_iter (py_or (field "keywords" plain_article) (VList [])) = Ok tags /\
    forall w,
      w ∈ harmful_words_of a' <->
      w ∈ detect_harmful_words
            (VStr (text_of (field "title" a') +:+ ". " +:+ text_of (field "description" a')))
      \/ w ∈ harmful_in_tags tags.
Proof.
  eassert (Hrun : categorize_article (sample_world ConnectionFailed (GText exact_reply))
                    plain_article fresh = (Ok _, _)) by (vm_compute; reflexivity).
  destruct (harmful_words_match_prompt_text _ _ _ _ _ Hrun) as (tags & Htags & Hw).
  eexists _, _, tags. split; [exact Hrun |]. split; [exact Htags | exact Hw].
Defined.

(** ** Articles the classification step accepts *)

Lemma categorize_article_raises (W : world) (article : dict) (s s' : state) (e : exn) :
  categorize_article W article s = (Raise e, s') -> e = TypeError.
Proof.
  unfold categorize_article. rewrite run_bind, run_lift.
  destruct (py_iter _) as [kws | e1] eqn:Hk.
  - rewrite run_bind, run_lift.
    destruct (str_operand (py_or (dict_get "title" VNone article) (VStr "")))
      as [title | e2] eqn:Ht.
    + rewrite run_bind, run_lift.
      destruct (str_operand (py_or (dict_get "description" VNone article) (VStr "")))
        as [description | e3] eqn:Hd.
      * rewrite run_bind, fetch_from_gemini_returns.
        destruct (parse_labels _) as [[sentiment intent] reason]. discriminate.
      * intros [= <- _].
        destruct (py_or (dict_get "description" VNone article) (VStr ""));
          cbn in Hd; congruence.
    + intros [= <- _].
      destruct (py_or (dict_get "title" VNone article) (VStr "")); cbn in Ht; congruence.
  - intros [= <- _].
    destruct (py_or (dict_get "keywords" VNone article) (VList [])); cbn in Hk; congruence.
Qed.

Lemma categorize_loop_returns (W : world) (articles acc : list dict) (s : state) :
  match fst (categorize_loop W articles acc s) with
  | Ok hits =>
      forallb classifiable articles = true /\ length hits = length acc + length articles
  | Raise e => e = TypeError /\ forallb classifiable articles = false
  end.
Proof.
  revert acc s. induction articles as [|a rest IH]; intros acc s.
  - cbn. split; [reflexivity | lia].
  - cbn [categorize_loop forallb]. rewrite run_bind.
    destruct (categorize_article W a s) as [[a' | e] s1] eqn:Ha.
    + rewrite (proj2 (categorize_article_total W a s)) by eauto.
      specialize (IH (acc ++ [a']) s1).
      destruct (fst (categorize_loop W rest (acc ++ [a']) s1)); [| exact IH].
      destruct IH as [Hrest Hlen]. split; [exact Hrest |].
      rewrite Hlen, length_app. cbn. lia.
    + cbn [fst]. split; [now apply categorize_article_raises in Ha |].
      destruct (classifiable a) eqn:Hc; [| reflexivity].
      apply (categorize_article_total W a s) in Hc as (a' & s' & Hc). congruence.
Qed.

(** The classification step returns on exactly the lists in which every
    article has tags that can be iterated (or none) and a title and a
    description that are strings (or empty); it then gives one classified
    article for each article.  On any other list it raises [TypeError]. *)
Theorem full_categorize_returns_exactly (W : world) (articles : list dict) (s : state) :
  match fst (full_categorize W articles s) with
  | Ok hits => forallb classifiable articles = true /\ length hits = length articles
  | Raise e => e = TypeError /\ forallb classifiable articles = false
  end.
Proof. apply (categorize_loop_returns W articles [] s). Qed.

(** ** Tags that are one string *)

Lemma no_keyword_in_a_character (c : ascii) :
  List.filter (fun word => contains word (lower (String c EmptyString))) HARMFUL_KEYWORDS
  = [].
Proof.
  assert (H : forall_ascii (fun c =>
              match List.filter (fun word => contains word (lower (String c EmptyString)))
                                HARMFUL_KEYWORDS with
              | [] => true
              | _ => false
              end) = true) by (vm_compute; reflexivity).
  pose proof (forall_ascii_spec _ H c) as Hc. cbv beta in Hc.
  destruct (List.filter _ HARMFUL_KEYWORDS); [reflexivity | discriminate].
Qed.

(** Tags that come as one string and not as a list are read character by
    character, so the tag test finds no word in them, whatever the string
    holds. *)
Theorem tags_in_one_string_find_nothing (W : world) (article a' : dict) (s s' : state)
    (tags : string) :
  field "keywords" article = VStr tags ->
  categorize_article W article s = (Ok a', s') ->
  forall w,
    w ∈ harmful_words_of a' <->
    w ∈ detect_harmful_words (field "title" article)
    \/ w ∈ detect_harmful_words (field "description" article).
Proof.
  intros Htags H. apply categorize_article_inv in H
    as (kws & prompt & sentiment & intent & reason & Hk & _ & _ & ->).
  rewrite Htags in Hk.
  assert (Hnone : harmful_in_tags kws = []).
  { assert (Hchars : kws = map (fun c => VStr (String c EmptyString))
                               (list_ascii_of_string tags)).
    { unfold py_or in Hk. destruct tags; cbn in Hk; injection Hk as <-; reflexivity. }
    rewrite Hchars. unfold harmful_in_tags. clear.
    induction (list_ascii_of_string tags) as [|c l IH]; [reflexivity |].
    cbn [map flat_map py_str]. now rewrite no_keyword_in_a_character, IH. }
  intros w. unfold harmful_words_of. dict_fields. rewrite str_items_strings.
  unfold set_of. rewrite elem_of_remove_dups, !elem_of_app, Hnone, !detect_default.
  rewrite elem_of_nil. tauto.
Qed.

Lemma tags_in_one_string_find_nothing_witness :
  exists a' s',
    categorize_article (sample_world ConnectionFailed (GText exact_reply))
      (dict_set "keywords" (VStr "scam, fraud") tagged_article) fresh = (Ok a', s') /\
    forall w,
      w ∈ harmful_words_of a' <->
      w ∈ detect_harmful_words
            (field "title" (dict_set "keywords" (VStr "scam, fraud") tagged_article))
      \/ w ∈ detect_harmful_words
               (field "description" (dict_set "keywords" (VStr "scam, fraud") tagged_article)).
Proof.
  eassert (Hrun : categorize_article (sample_world ConnectionFailed (GText exact_reply))
                    (dict_set "keywords" (VStr "scam, fraud") tagged_article) fresh
                  = (Ok _, _)) by (vm_compute; reflexivity).
  eexists _, _. split; [exact Hrun |].
  exact (tags_in_one_string_find_nothing _
           (dict_set "keywords" (VStr "scam, fraud") tagged_article) _ _ _
           "scam, fraud" eq_refl Hrun).
Defined.

(** ** The calls a request makes *)

(** One turn of the loop of [fetch_all_news], step by step. *)
Lemma fetch_provider_run (W : world) (query language country : string) (max_results : Z)
    (api : dict) (s : state) :
  fetch_provider W query language country max_results api s =
  match dict_lookup "base_url" api with
  | None => (Ok [], s)
  | Some url =>
      let params := request_params api query language country max_results in
      let s1 := after_request url params s in
      match http_get W (trace s) url params headers with
      | ConnectionFailed => (Ok [], s1)
      | Responded status_code json =>
          if raises_for_status status_code then (Ok [], s1)
          else match json with
               | None => (Ok [], s1)
               | Some data => (normalize (dict_get "type" VNone api) data, s1)
               end
      end
  end.
Proof.
  unfold fetch_provider, try_request. rewrite run_bind.
  destruct (dict_lookup "base_url" api) as [url |]; [| reflexivity].
  cbv zeta. set (params := request_params api query language country max_results).
  change ((h ← history; emit (EvHttpGet url params headers);;
           mret (match http_get W h url params headers with
                 | ConnectionFailed => None
                 | Responded status_code json =>
                     if raises_for_status status_code then None else json
                 end)) s)
    with (Ok (match http_get W (trace s) url params headers with
              | ConnectionFailed => None
              | Responded status_code json =>
                  if raises_for_status status_code then None else json
              end), after_request url params s).
  destruct (http_get W (trace s) url params headers) as [| code [data |]];
    cbv beta iota; try reflexivity; destruct (raises_for_status code); reflexivity.
Qed.

Lemma fetch_provider_trace (W : world) (query language country : string) (max_results : Z)
    (api : dict) (s : state) :
  trace (snd (fetch_provider W query language country max_results api s))
  = trace s ++ request_of query language country max_results api.
Proof.
  rewrite fetch_provider_run. unfold request_of.
  destruct (dict_lookup "base_url" api) as [url |]; [| now rewrite app_nil_r].
  cbv zeta.
  destruct (http_get W (trace s) url _ headers) as [| code [data |]]; try reflexivity;
    destruct (raises_for_status code); reflexivity.
Qed.

Lemma fetch_all_news_trace (W : world) (api_configs : list dict)
    (query language country : string) (max_results : Z) (s : state) :
  let r := fetch_all_news W api_configs query language country max_results s in
  exists asked skipped,
    api_configs = asked ++ skipped /\
    trace (snd r) = trace s ++ requests_of query language country max_results asked /\
    (skipped = [] \/ exists e, fst r = Raise e).
Proof.
  cbv zeta. revert s. induction api_configs as [|api rest IH]; intros s.
  - exists [], []. simpl. rewrite app_nil_r. auto.
  - rewrite fetch_all_news_cons, run_bind.
    pose proof (fetch_provider_trace W query language country max_results api s) as Ht.
    destruct (fetch_provider W query language country max_results api s)
      as [[articles | e] s1]; simpl in Ht.
    + rewrite run_bind. destruct (IH s1) as (asked & skipped & -> & Hs & Hend).
      exists (api :: asked), skipped.
      destruct (fetch_all_news W (asked ++ skipped) query language country max_results s1)
        as [[more | e] s2]; simpl in *.
      * rewrite Hs, Ht, <- app_assoc. repeat split.
        destruct Hend as [-> | (e & He)]; [now left | discriminate].
      * rewrite Hs, Ht, <- app_assoc. repeat split. right. eauto.
    + exists [api], rest. simpl. unfold requests_of. simpl. rewrite app_nil_r.
      repeat split; [assumption |]. right. eauto.
Qed.

(** The requests of [fetch_all_news].  It sends one request to each provider
    of the list that has a [base_url], in the order of the list, with the
    parameters of the provider's kind and the fixed headers, and nothing
    else; it does not touch the store.  It stops before the end of the list
    only by raising. *)
Theorem fetch_all_news_requests (W : world) (api_configs : list dict)
    (query language country : string) (max_results : Z) (s : state) :
  let r := fetch_all_news W api_configs query language country max_results s in
  db (snd r) = db s /\
  exists asked skipped,
    api_configs = asked ++ skipped /\
    trace (snd r) = trace s ++ requests_of query language country max_results asked /\
    (skipped = [] \/ exists e, fst r = Raise e).
Proof.
  cbv zeta. split; [apply keeps_db_fetch_loop | apply fetch_all_news_trace].
Qed.

(** ** Bodies that make the request fail *)

Lemma returns_mapM {A B : Type} (f : A -> result B) (l : list A) :
  returns (result_mapM f l) = forallb (fun x => returns (f x)) l.
Proof.
  induction l as [|x l IH]; [reflexivity |].
  cbn [result_mapM forallb]. destruct (f x) as [y | e]; [| reflexivity].
  cbn [returns andb]. rewrite <- IH.
  destruct (result_mapM f l); reflexivity.
Qed.

Lemma returns_items {B : Type} (f : pyval -> result B) (reads : pyval -> bool) (v : pyval) :
  (forall x, returns (f x) = reads x) ->
  returns (items ← py_iter v; result_mapM f items) = items_read reads v.
Proof.
  intros Hf. unfold items_read. destruct (py_iter v) as [items | e]; [| reflexivity].
  cbn. rewrite returns_mapM.
  induction items as [|x items IH]; [reflexivity |].
  cbn [forallb]. now rewrite Hf, IH.
Qed.

Lemma returns_wikipedia_article (item : pyval) :
  returns (wikipedia_article item) = wikipedia_item_reads item.
Proof.
  destruct item as [| | | | | d]; try reflexivity. cbn.
  destruct (dict_get "snippet" (VStr "") d); reflexivity.
Qed.

Lemma returns_newsdata_article (item : pyval) :
  returns (newsdata_article item) = is_dict item.
Proof. destruct item; reflexivity. Qed.

Lemma returns_newsapi_article (item : pyval) :
  returns (newsapi_article item) = newsapi_item_reads item.
Proof.
  destruct item as [| | | | | d]; try reflexivity. cbn.
  destruct (dict_get "source" (VDict []) d); reflexivity.
Qed.

Lemma returns_normalize (api_type data : pyval) :
  returns (normalize api_type data) = body_reads api_type data.
Proof.
  unfold normalize, body_reads, field.
  destruct (is_str api_type "wikipedia").
  - destruct data as [| | | | | d]; try reflexivity. cbn [py_get mbind result_bind].
    destruct (dict_get "query" (VDict []) d) as [| | | | | q]; try reflexivity.
    cbn [py_get]. apply returns_items, returns_wikipedia_article.
  - destruct (is_str api_type "newsdata").
    + destruct data as [| | | | | d]; try reflexivity. cbn [py_get mbind result_bind].
      destruct (ne_str (dict_get "status" VNone d) "success"); [reflexivity |].
      cbn [orb]. apply returns_items, returns_newsdata_article.
    + destruct data as [| | | | | d]; try reflexivity. cbn [py_get mbind result_bind].
      destruct (ne_str (dict_get "status" VNone d) "ok"); [reflexivity |].
      cbn [orb]. apply returns_items, returns_newsapi_article.
Qed.

Lemma result_mapM_Forall {A B : Type} (f : A -> result B) (P : B -> Prop)
    (l : list A) (ys : list B) :
  (forall x y, f x = Ok y -> P y) ->
  result_mapM f l = Ok ys -> Forall P ys.
Proof.
  intros Hf. revert ys. induction l as [|x l IH]; intros ys.
  - intros [= <-]. constructor.
  - cbn [result_mapM]. destruct (f x) as [y | e] eqn:Hx; [| discriminate].
    cbn. destruct (result_mapM f l) as [ys' | e]; [| discriminate].
    intros [= <-]. constructor; eauto.
Qed.

(** An Article record as an adapter writes it. *)
Lemma adapters_write_articles (a : dict) :
  (exists item, wikipedia_article item = Ok a \/ newsdata_article item = Ok a
                \/ newsapi_article item = Ok a) ->
  map fst a = article_keys /\
  (field "api_type" a = VStr "news" \/ field "api_type" a = VStr "wikipedia").
Proof.
  intros (item & [H | [H | H]]); destruct item as [| | | | | d]; try discriminate.
  - cbn in H. destruct (dict_get "snippet" (VStr "") d); try discriminate.
    injection H as <-. split; [reflexivity | now right].
  - injection H as <-. split; [reflexivity | now left].
  - cbn in H. destruct (dict_get "source" (VDict []) d); try discriminate.
    injection H as <-. split; [reflexivity | now left].
Qed.

Lemma normalize_articles (api_type data : pyval) (articles : list dict) :
  normalize api_type data = Ok articles ->
  Forall (fun a => map fst a = article_keys /\
                   (field "api_type" a = VStr "news" \/ field "api_type" a = VStr "wikipedia"))
         articles.
Proof.
  assert (Hitems : forall f v,
            (forall x y, f x = Ok y ->
               map fst y = article_keys /\
               (field "api_type" y = VStr "news" \/ field "api_type" y = VStr "wikipedia")) ->
            (items ← py_iter v; result_mapM f items) = Ok articles ->
            Forall (fun a => map fst a = article_keys /\
                     (field "api_type" a = VStr "news" \/ field "api_type" a = VStr "wikipedia"))
                   articles).
  { intros f v Hf. destruct (py_iter v) as [items | e]; [| discriminate].
    cbn. now apply result_mapM_Forall. }
  unfold normalize. destruct (is_str api_type "wikipedia").
  - destruct data as [| | | | | d]; try discriminate. cbn [py_get mbind result_bind].
    destruct (dict_get "query" (VDict []) d) as [| | | | | q]; try discriminate.
    cbn [py_get]. apply Hitems. intros x y H. apply adapters_write_articles. eauto.
  - destruct (is_str api_type "newsdata").
    + destruct data as [| | | | | d]; try discriminate. cbn [py_get mbind result_bind].
      destruct (ne_str (dict_get "status" VNone d) "success"); [intros [= <-]; constructor |].
      apply Hitems. intros x y H. apply adapters_write_articles. eauto.
    + destruct data as [| | | | | d]; try discriminate. cbn [py_get mbind result_bind].
      destruct (ne_str (dict_get "status" VNone d) "ok"); [intros [= <-]; constructor |].
      apply Hitems. intros x y H. apply adapters_write_articles. eauto 6.
Qed.

(** The adapters raise on exactly the bodies that are not of the shape
    [body_reads]: a body that is not an object, items that cannot be
    iterated, an item that is not an object, a Wikipedia snippet that is
    there and is not a string, a NewsAPI source that is there and is not an
    object.  A news body whose status is not the success word is not read
    any further.  When the adapter returns, each article it gives has the
    seven keys of the Article record, in their order. *)
Theorem normalize_returns_exactly (api_type data : pyval) :
  returns (normalize api_type data) = body_reads api_type data /\
  (forall articles,
     normalize api_type data = Ok articles ->
     Forall (fun a => map fst a = article_keys) articles).
Proof.
  split; [apply returns_normalize |].
  intros articles H. apply normalize_articles in H.
  eapply Forall_impl; [exact H |]. now intros a [Hkeys _].
Qed.

(** A body the adapter cannot read ends the whole fetch: the exception
    leaves [fetch_all_news] right after the request of that provider, the
    articles already fetched are lost and the providers after it are not
    asked.  Whenever the fetch raises, the endpoint answers with a server
    error, and nothing has been classified or stored. *)
Theorem unreadable_body_aborts (W : world) :
  (forall query language country max_results before after api url s s1 l1 status_code data,
     fetch_all_news W before query language country max_results s = (Ok l1, s1) ->
     dict_lookup "base_url" api = Some url ->
     http_get W (trace s1) url (request_params api query language country max_results)
       headers = Responded status_code (Some data) ->
     raises_for_status status_code = false ->
     body_reads (dict_get "type" VNone api) data = false ->
     exists e,
       fetch_all_news W (before ++ api :: after) query language country max_results s
       = (Raise e,
          after_request url (request_params api query language country max_results) s1)) /\
  (forall query s e s',
     query <> "" ->
     fetch_all_news W (API_CONFIGS W) query "en" "my" 5 s = (Raise e, s') ->
     api_analyze W (Some query) s = (ServerError e, s') /\ db s' = db s).
Proof.
  split.
  - intros query language country max_results before after api url s s1 l1 code data
      Hbefore Hurl Hget Hcode Hbody.
    rewrite <- returns_normalize in Hbody.
    destruct (normalize (dict_get "type" VNone api) data) as [l | e] eqn:Hn;
      [discriminate |].
    exists e. rewrite fetch_all_news_app, run_bind, Hbefore. cbv beta iota.
    rewrite run_bind, fetch_all_news_cons, run_bind, fetch_provider_run, Hurl.
    cbv zeta. now rewrite Hget, Hcode, Hn.
  - intros query s e s' Hq Hf.
    pose proof (keeps_db_fetch_loop W query "en" "my" 5 (API_CONFIGS W) [] s) as Hdb.
    fold (fetch_all_news W (API_CONFIGS W) query "en" "my" 5) in Hdb.
    rewrite Hf in Hdb. split; [| exact Hdb].
    unfold api_analyze. destruct query as [|c query]; [congruence |].
    cbn [is_empty]. unfold analyze. now rewrite run_bind, Hf.
Qed.

Lemma unreadable_body_aborts_witness :
  exists e s',
    fetch_all_news (sample_world (Responded 200 (Some newsapi_null_source)) (GText exact_reply))
      (API_CONFIGS (sample_world (Responded 200 (Some newsapi_null_source))
                                 (GText exact_reply)))
      "oil" "en" "my" 5 fresh = (Raise e, s') /\
    length (trace s') = 1 /\
    api_analyze (sample_world (Responded 200 (Some newsapi_null_source)) (GText exact_reply))
      (Some "oil") fresh = (ServerError e, s') /\
    db s' = db fresh.
Proof.
  pose proof (unreadable_body_aborts
                (sample_world (Responded 200 (Some newsapi_null_source)) (GText exact_reply)))
    as [Hfetch Hanswer].
  destruct (Hfetch "oil" "en" "my" 5%Z []
              [[("name", VStr "NewsData.io"); ("type", VStr "newsdata");
                ("base_url", VStr "https://newsdata.io/api/1/latest");
                ("api_key", VStr "YOUR_FALLBACK_KEY")];
               [("name", VStr "Wikipedia"); ("type", VStr "wikipedia");
                ("base_url", VStr "https://en.wikipedia.org/w/api.php")]]
              [("name", VStr "NewsAPI"); ("type", VStr "newsapi");
               ("base_url", VStr "https://newsapi.org/v2/everything");
               ("api_key", VStr "YOUR_FALLBACK_KEY")]
              (VStr "https://newsapi.org/v2/everything")
              fresh fresh [] 200%Z newsapi_null_source
              eq_refl eq_refl eq_refl eq_refl eq_refl) as (e & Hf).
  eexists e, _. split; [exact Hf |]. split; [reflexivity |].
  apply (Hanswer "oil" fresh e _); [discriminate | exact Hf].
Defined.

(** ** The calls of the classification step *)

Lemma dict_lookup_set_ne (k k' : string) (v : pyval) (d : dict) :
  String.eqb k k' = false ->
  dict_lookup k (dict_set k' v d) = dict_lookup k d.
Proof.
  intros Hk. induction d as [|[k0 v0] d IH]; cbn [dict_set dict_lookup].
  - now rewrite Hk.
  - destruct (String.eqb k' k0) eqn:H0; cbn [dict_lookup].
    + apply String.eqb_eq in H0 as ->. now rewrite Hk.
    + now rewrite IH.
Qed.

Lemma text_of_operand (v : pyval) (t : string) :
  str_operand (py_or v (VStr "")) = Ok t -> text_of v = t.
Proof.
  unfold py_or. destruct v as [| [] | z | x | l | d]; cbn; try congruence.
  - destruct (z =? 0)%Z; cbn; congruence.
  - destruct x; cbn; congruence.
  - destruct l; cbn; congruence.
  - destruct d; cbn; congruence.
Qed.

Lemma not_classification_key (k : string) :
  k ∉ classification_keys ->
  String.eqb k "harmful" = false /\ String.eqb k "harmful_words" = false /\
  String.eqb k "gemini_sentiment" = false /\ String.eqb k "gemini_intent" = false /\
  String.eqb k "gemini_reason" = false /\ String.eqb k "gemini_raw" = false.
Proof.
  intros Hk. repeat split; apply String.eqb_neq; intros ->; apply Hk;
    unfold classification_keys;
    repeat first [apply list_elem_of_here | apply list_elem_of_further].
Qed.

(** What one turn of the loop of [full_categorize] does to the trace and to
    the article. *)
Lemma categorize_article_call (W : world) (article a' : dict) (s s' : state) :
  categorize_article W article s = (Ok a', s') ->
  s' = State (db s) (trace s ++ [EvGenerateContent (prompt_of a')]) /\
  field "gemini_raw" a'
    = VStr (returned_text (generate_content W (trace s) (prompt_of a'))) /\
  (forall k, k ∉ classification_keys -> dict_lookup k a' = dict_lookup k article).
Proof.
  unfold categorize_article. rewrite run_bind, run_lift.
  destruct (py_iter _) as [kws | e]; [| discriminate].
  rewrite run_bind, run_lift.
  destruct (str_operand (py_or (dict_get "title" VNone article) (VStr "")))
    as [title | e] eqn:Ht; [| discriminate].
  rewrite run_bind, run_lift.
  destruct (str_operand (py_or (dict_get "description" VNone article) (VStr "")))
    as [description | e] eqn:Hd; [| discriminate].
  rewrite run_bind, fetch_from_gemini_returns.
  match goal with
  | |- context [returned_text (generate_content W (trace s) ?p)] => set (prompt := p)
  end.
  destruct (parse_labels _) as [[sentiment intent] reason].
  rewrite run_ret. intros [= <- <-].
  match goal with
  | |- context [prompt_of ?a] => assert (Hp : prompt_of a = prompt)
  end.
  { unfold prompt_of, harmful_words_of, field. dict_fields.
    rewrite str_items_strings.
    rewrite (text_of_operand _ _ Ht), (text_of_operand _ _ Hd). subst prompt.
    destruct (set_of _); reflexivity. }
  rewrite Hp. split; [reflexivity |]. split; [now dict_fields |].
  intros k Hk. apply not_classification_key in Hk as (H1 & H2 & H3 & H4 & H5 & H6).
  now rewrite !dict_lookup_set_ne.
Qed.

Lemma categorize_loop_calls (W : world) (articles acc hits : list dict) (s s' : state) :
  categorize_loop W articles acc s = (Ok hits, s') ->
  exists new,
    hits = acc ++ new /\
    trace s' = trace s ++ map (fun a' => EvGenerateContent (prompt_of a')) new /\
    Forall2 (fun a a' => forall k, k ∉ classification_keys ->
                                   dict_lookup k a' = dict_lookup k a) articles new.
Proof.
  revert acc s. induction articles as [|a rest IH]; intros acc s.
  - simpl. rewrite run_ret. intros [= <- <-]. exists []. now rewrite !app_nil_r.
  - simpl. rewrite run_bind.
    destruct (categorize_article W a s) as [[a' | e] s1] eqn:Ha; [| discriminate].
    apply categorize_article_call in Ha as (-> & _ & Hkeep).
    intros H. apply IH in H as (new & -> & Ht & Hnew).
    exists (a' :: new). rewrite <- app_assoc. split; [reflexivity |].
    split; [| now constructor].
    rewrite Ht. cbn [trace map]. now rewrite <- app_assoc.
Qed.

(** The classification step calls the model once for each article, in the
    order of the list, with the prompt that can be read back from the
    classified article (its title, its description and its harmful words);
    it does not touch the store, and it changes no field of an article other
    than the six it writes. *)
Theorem full_categorize_calls (W : world) (articles hits : list dict) (s s' : state) :
  full_categorize W articles s = (Ok hits, s') ->
  db s' = db s /\
  trace s' = trace s ++ map (fun a' => EvGenerateContent (prompt_of a')) hits /\
  Forall2 (fun a a' => forall k, k ∉ classification_keys ->
                                 dict_lookup k a' = dict_lookup k a) articles hits.
Proof.
  intros H. pose proof (keeps_db_categorize_loop W articles [] s) as Hdb.
  unfold full_categorize in H. rewrite H in Hdb.
  apply categorize_loop_calls in H as (new & -> & Ht & Hnew). auto.
Qed.

Lemma full_categorize_calls_witness :
  exists hits s',
    full_categorize (sample_world ConnectionFailed (GText exact_reply))
      [plain_article; tagged_article] fresh = (Ok hits, s') /\
    db s' = db fresh /\
    trace s' = trace fresh ++ map (fun a' => EvGenerateContent (prompt_of a')) hits /\
    Forall2 (fun a a' => forall k, k ∉ classification_keys ->
                                   dict_lookup k a' = dict_lookup k a)
            [plain_article; tagged_article] hits.
Proof.
  eassert (Hrun : full_categorize (sample_world ConnectionFailed (GText exact_reply))
                    [plain_article; tagged_article] fresh = (Ok _, _))
    by (vm_compute; reflexivity).
  eexists _, _. split; [exact Hrun |].
  exact (full_categorize_calls _ _ _ _ _ Hrun).
Defined.

(** ** When no provider answers *)

Lemma fetch_provider_no_answer (W : world) (query language country : string)
    (max_results : Z) (api : dict) (s : state) :
  no_provider_answers W ->
  fetch_provider W query language country max_results api s
  = (Ok [], State (db s) (trace s ++ request_of query language country max_results api)).
Proof.
  intros Hdown. rewrite fetch_provider_run. unfold request_of.
  destruct (dict_lookup "base_url" api) as [url |].
  - cbv zeta. specialize (Hdown (trace s) url
      (request_params api query language country max_results) headers).
    destruct (http_get W (trace s) url _ headers) as [| code json]; [reflexivity |].
    destruct (raises_for_status code); [reflexivity |].
    destruct Hdown as [Hd | ->]; [discriminate | reflexivity].
  - rewrite app_nil_r. now destruct s.
Qed.

Lemma fetch_all_news_no_answer (W : world) (api_configs : list dict)
    (query language country : string) (max_results : Z) (s : state) :
  no_provider_answers W ->
  fetch_all_news W api_configs query language country max_results s
  = (Ok [], State (db s)
              (trace s ++ requests_of query language country max_results api_configs)).
Proof.
  intros Hdown. revert s. induction api_configs as [|api rest IH]; intros s.
  - unfold requests_of. simpl. rewrite app_nil_r. now destruct s.
  - rewrite fetch_all_news_cons, run_bind, fetch_provider_no_answer by assumption.
    cbv beta iota. rewrite run_bind, IH. cbn [db trace].
    unfold requests_of. cbn [flat_map]. now rewrite <- app_assoc.
Qed.

(** When every provider is down (no answer, an error status, or a body that
    is not JSON), a request with a query is answered 200 with the empty
    list: the three providers were asked once each, the model was not
    called and the store was not opened. *)
Theorem no_provider_answers_empty_list (W : world) (query : string) (s : state) :
  no_provider_answers W ->
  query <> "" ->
  api_analyze W (Some query) s
  = (Json 200 (VList []),
     State (db s) (trace s ++ requests_of query "en" "my" 5 (API_CONFIGS W))) /\
  length (requests_of query "en" "my" 5 (API_CONFIGS W)) = 3.
Proof.
  intros Hdown Hq. split; [| reflexivity].
  unfold api_analyze. destruct query as [|c query]; [congruence |].
  cbn [is_empty]. unfold analyze.
  rewrite run_bind, fetch_all_news_no_answer by assumption.
  reflexivity.
Qed.

Lemma no_provider_answers_empty_list_witness :
  api_analyze (sample_world (Responded 503 None) (GText harmful_reply)) (Some "oil") fresh
  = (Json 200 (VList []),
     State (db fresh)
       (trace fresh ++ requests_of "oil" "en" "my" 5
          (API_CONFIGS (sample_world (Responded 503 None) (GText harmful_reply))))) /\
  length (requests_of "oil" "en" "my" 5
            (API_CONFIGS (sample_world (Responded 503 None) (GText harmful_reply)))) = 3.
Proof.
  apply (no_provider_answers_empty_list
           (sample_world (Responded 503 None) (GText harmful_reply)) "oil" fresh).
  - intros h url params hd. simpl. left. reflexivity.
  - discriminate.
Defined.

(** ** The phases of a request *)

Lemma flag_article_trace (W : world) (article : dict) (s : state) :
  trace (flag_article W article s)
  = trace s ++ repeat EvDbConnect (match harmful_words_of article with [] => 1 | _ => 2 end).
Proof.
  unfold flag_article. destruct (harmful_words_of article); cbn [trace repeat];
    [reflexivity | now rewrite <- app_assoc].
Qed.

Lemma persist_trace (W : world) (hits : list dict) (s s' : state) :
  persist W hits s = (Ok tt, s') ->
  trace s' = trace s ++ repeat EvDbConnect (connections hits).
Proof.
  revert s. induction hits as [|a rest IH]; intros s.
  - rewrite persist_nil. intros [= <-]. unfold connections. simpl. now rewrite app_nil_r.
  - rewrite persist_cons. intros H. apply IH in H. rewrite H.
    unfold connections. cbn [map sum_list]. fold (connections rest).
    rewrite repeat_app, app_assoc. f_equal.
    unfold connections_of. destruct (is_flagged a).
    + apply flag_article_trace.
    + simpl. now rewrite app_nil_r.
Qed.

(** A request that is answered runs in three phases, and the trace shows
    them one after the other: one request to each of the three providers,
    then one model call for each article of the answer, then the
    connections to the store, one for each flagged article and one more when
    the article has harmful words.  An answer without a flagged article
    leaves the store as it was. *)
Theorem analyze_runs_in_phases (W : world) (query : string) (hits : list dict) (s s' : state) :
  analyze W query s = (Ok hits, s') ->
  trace s' = trace s
             ++ requests_of query "en" "my" 5 (API_CONFIGS W)
             ++ map (fun a' => EvGenerateContent (prompt_of a')) hits
             ++ repeat EvDbConnect (connections hits) /\
  length (requests_of query "en" "my" 5 (API_CONFIGS W)) = 3 /\
  (List.filter is_flagged hits = [] -> db s' = db s).
Proof.
  intros Ha.
  destruct (analyze_cases W query s)
    as [(e & s0 & Ha' & _) | (ah & t1 & h & t2 & s3 & Hf & Hc & Hp & Hdb & Ha')];
    rewrite Ha in Ha'; [discriminate |].
  injection Ha' as <- <-.
  split; [| split; [reflexivity |]].
  - apply persist_trace in Hp. rewrite Hp.
    unfold full_categorize in Hc.
    apply categorize_loop_calls in Hc as (new & -> & Ht & _). rewrite Ht.
    destruct (fetch_all_news_trace W (API_CONFIGS W) query "en" "my" 5 s)
      as (asked & skipped & Hcfg & Hreq & Hend).
    rewrite Hf in Hreq, Hend. cbn [fst snd] in Hreq, Hend.
    destruct Hend as [-> | (e & He)]; [| discriminate].
    rewrite app_nil_r in Hcfg. subst asked. rewrite Hreq.
    cbn [app]. now rewrite <- !app_assoc.
  - intros Hnone. rewrite persist_flagged_only, Hnone, persist_nil in Hp.
    injection Hp as <-. exact Hdb.
Qed.

Lemma analyze_runs_in_phases_witness :
  exists hits s',
    analyze (one_provider_down (GText harmful_reply)) "oil" fresh = (Ok hits, s') /\
    trace s' = trace fresh
               ++ requests_of "oil" "en" "my" 5
                    (API_CONFIGS (one_provider_down (GText harmful_reply)))
               ++ map (fun a' => EvGenerateContent (prompt_of a')) hits
               ++ repeat EvDbConnect (connections hits) /\
    length (requests_of "oil" "en" "my" 5
              (API_CONFIGS (one_provider_down (GText harmful_reply)))) = 3 /\
    (List.filter is_flagged hits = [] -> db s' = db fresh).
Proof.
  eassert (Hrun : analyze (one_provider_down (GText harmful_reply)) "oil" fresh
                  = (Ok _, _)) by (vm_compute; reflexivity).
  eexists _, _. split; [exact Hrun |].
  exact (analyze_runs_in_phases _ _ _ _ _ Hrun).
Defined.

(** ** Requests that fail *)

Lemma requests_of_no_connect (query language country : string) (max_results : Z)
    (api_configs : list dict) :
  existsb is_db_connect (requests_of query language country max_results api_configs)
  = false.
Proof.
  unfold requests_of. induction api_configs as [|api rest IH]; [reflexivity |].
  cbn [flat_map]. rewrite existsb_app, IH, orb_false_r.
  unfold request_of. now destruct (dict_lookup "base_url" api).
Qed.

Lemma model_calls_no_connect (prompts : list string) :
  existsb is_db_connect (map EvGenerateContent prompts) = false.
Proof. induction prompts as [|p l IH]; [reflexivity | exact IH]. Qed.

Lemma categorize_article_raise_state (W : world) (article : dict) (s s' : state) (e : exn) :
  categorize_article W article s = (Raise e, s') -> s' = s.
Proof.
  unfold categorize_article. rewrite run_bind, run_lift.
  destruct (py_iter _) as [kws | e1]; [| now intros [= _ <-]].
  rewrite run_bind, run_lift.
  destruct (str_operand (py_or (dict_get "title" VNone article) (VStr "")))
    as [title | e2]; [| now intros [= _ <-]].
  rewrite run_bind, run_lift.
  destruct (str_operand (py_or (dict_get "description" VNone article) (VStr "")))
    as [description | e3]; [| now intros [= _ <-]].
  rewrite run_bind, fetch_from_gemini_returns.
  destruct (parse_labels _) as [[sentiment intent] reason]. discriminate.
Qed.

Lemma categorize_loop_trace (W : world) (articles acc : list dict) (s : state) :
  exists prompts,
    trace (snd (categorize_loop W articles acc s))
    = trace s ++ map EvGenerateContent prompts.
Proof.
  revert acc s. induction articles as [|a rest IH]; intros acc s.
  - exists []. cbn. now rewrite app_nil_r.
  - cbn [categorize_loop]. rewrite run_bind.
    destruct (categorize_article W a s) as [[a' | e] s1] eqn:Ha.
    + apply categorize_article_call in Ha as (-> & _ & _).
      destruct (IH (acc ++ [a']) (State (db s) (trace s ++ [EvGenerateContent (prompt_of a')])))
        as [prompts Hp].
      exists (prompt_of a' :: prompts). rewrite Hp. cbn [trace map].
      now rewrite <- app_assoc.
    + apply categorize_article_raise_state in Ha as ->.
      exists []. cbn. now rewrite app_nil_r.
Qed.

(** A request that ends in a server error has stored nothing and has not
    opened the store: the third step starts only after every article has
    been classified, so a failure in the first or the second step leaves
    both tables as they were. *)
Theorem failed_request_stores_nothing (W : world) (q : option string) (s s' : state)
    (e : exn) :
  api_analyze W q s = (ServerError e, s') ->
  db s' = db s /\
  exists calls, trace s' = trace s ++ calls /\ existsb is_db_connect calls = false.
Proof.
  unfold api_analyze. destruct (is_empty _); [discriminate |].
  set (query := match q with Some query => query | None => "" end).
  destruct (analyze_cases W query s)
    as [(e' & s0 & Ha & Hdb & Hwhere) | (ah & t1 & h & t2 & s3 & _ & _ & _ & _ & Ha)];
    rewrite Ha; [| discriminate].
  intros [= <- <-]. split; [exact Hdb |].
  destruct Hwhere as [Hf | (all_hits & s1 & Hf & Hc)].
  - destruct (fetch_all_news_trace W (API_CONFIGS W) query "en" "my" 5 s)
      as (asked & skipped & _ & Hreq & _).
    rewrite Hf in Hreq. cbn [snd] in Hreq.
    eexists. split; [exact Hreq | apply requests_of_no_connect].
  - destruct (fetch_all_news_trace W (API_CONFIGS W) query "en" "my" 5 s)
      as (asked & skipped & _ & Hreq & _).
    rewrite Hf in Hreq. cbn [snd] in Hreq.
    destruct (categorize_loop_trace W all_hits [] s1) as [prompts Hp].
    unfold full_categorize in Hc. rewrite Hc in Hp. cbn [snd] in Hp.
    eexists. split; [rewrite Hp, Hreq, <- app_assoc; reflexivity |].
    now rewrite existsb_app, requests_of_no_connect, model_calls_no_connect.
Qed.

Lemma failed_request_stores_nothing_witness :
  exists e s',
    api_analyze (sample_world (Responded 200 (Some newsapi_null_source)) (GText exact_reply))
      (Some "oil") fresh = (ServerError e, s') /\
    db s' = db fresh /\
    exists calls, trace s' = trace fresh ++ calls /\ existsb is_db_connect calls = false.
Proof.
  eassert (Hrun : api_analyze
                    (sample_world (Responded 200 (Some newsapi_null_source)) (GText exact_reply))
                    (Some "oil") fresh = (ServerError _, _)) by (vm_compute; reflexivity).
  eexists _, _. split; [exact Hrun |].
  exact (failed_request_stores_nothing _ _ _ _ _ Hrun).
Defined.

(** ** The requests of the endpoint *)







(** ** The articles of an answer *)

Lemma fetch_all_news_articles (W : world) (api_configs : list dict)
    (query language country : string) (max_results : Z) (s s' : state)
    (articles : list dict) :
  fetch_all_news W api_configs query language country max_results s = (Ok articles, s') ->
  Forall (fun a => map fst a = article_keys /\
                   (field "api_type" a = VStr "news" \/ field "api_type" a = VStr "wikipedia"))
         articles.
Proof.
  revert s articles. induction api_configs as [|api rest IH]; intros s articles.
  - intros [= <- <-]. constructor.
  - rewrite fetch_all_news_cons, run_bind.
    destruct (fetch_provider W query language country max_results api s)
      as [[l | e] s1] eqn:Hp; [| discriminate].
    rewrite run_bind.
    destruct (fetch_all_news W rest query language country max_results s1)
      as [[more | e] s2] eqn:Hr; [| discriminate].
    rewrite run_ret. intros [= <- <-]. apply Forall_app. split; [| now apply (IH s1)].
    rewrite fetch_provider_run in Hp.
    destruct (dict_lookup "base_url" api) as [url |]; [| injection Hp as <- <-; constructor].
    cbv zeta in Hp.
    destruct (http_get W (trace s) url _ headers) as [| code [data |]];
      try (injection Hp as <- <-; constructor);
      destruct (raises_for_status code); try (injection Hp as <- <-; constructor).
    injection Hp as Hn _. now apply normalize_articles in Hn.
Qed.

(** The harmful words the classification step stores: words of the fixed
    list, each once. *)
Lemma categorize_article_words (W : world) (article a' : dict) (s s' : state) :
  categorize_article W article s = (Ok a', s') ->
  exists ws,
    field "harmful_words" a' = VList (map VStr ws) /\
    harmful_words_of a' = ws /\
    NoDup ws /\ Forall (fun w => w ∈ HARMFUL_KEYWORDS) ws.
Proof.
  intros H. apply categorize_article_inv in H
    as (tags & prompt & sentiment & intent & reason & _ & _ & _ & ->).
  eexists. unfold harmful_words_of. dict_fields.
  split; [reflexivity |]. split; [apply str_items_strings |].
  split; [apply NoDup_remove_dups |].
  apply Forall_forall. intros w Hw. unfold set_of in Hw.
  rewrite elem_of_remove_dups, !elem_of_app in Hw. destruct Hw as [Hw | [Hw | Hw]].
  - now apply elem_of_detect_harmful_words in Hw as (_ & Hw & _).
  - now apply elem_of_detect_harmful_words in Hw as (_ & Hw & _).
  - now apply elem_of_harmful_in_tags in Hw as (Hw & _).
Qed.

Lemma categorize_article_keys (W : world) (article a' : dict) (s s' : state) :
  map fst article = article_keys ->
  categorize_article W article s = (Ok a', s') ->
  map fst a' = article_keys ++ classification_keys.
Proof.
  intros Hkeys H. apply categorize_article_inv in H
    as (tags & prompt & sentiment & intent & reason & _ & _ & _ & ->).
  do 7 (destruct article as [|[? ?] article]; [discriminate |]).
  destruct article; [| discriminate].
  cbn in Hkeys. injection Hkeys as -> -> -> -> -> -> ->. reflexivity.
Qed.

(** Every article of a 200 answer is an object with the same thirteen
    keys, each once: the seven of the Article record and the six of the
    classification.  The statement is about the keys as a set: the order in
    which the body lists them is the one [jsonify] writes.  [harmful] is a
    boolean, [harmful_words] a list of different words of the harmful list,
    the three labels and the raw reply are strings, and [api_type] is
    "news" or "wikipedia". *)
Theorem answer_articles_shape (W : world) (q : option string) (s s' : state)
    (hits : list dict) :
  api_analyze W q s = (Json 200 (VList (map VDict hits)), s') ->
  Forall (fun a' =>
            map fst a' ≡ₚ article_keys ++ classification_keys /\
            NoDup (map fst a') /\
            (exists flag, field "harmful" a' = VBool flag) /\
            (exists ws, field "harmful_words" a' = VList (map VStr ws) /\
                        NoDup ws /\ Forall (fun w => w ∈ HARMFUL_KEYWORDS) ws) /\
            is_text (field "gemini_sentiment" a') = true /\
            is_text (field "gemini_intent" a') = true /\
            is_text (field "gemini_reason" a') = true /\
            is_text (field "gemini_raw" a') = true /\
            (field "api_type" a' = VStr "news" \/ field "api_type" a' = VStr "wikipedia"))
         hits.
Proof.
  intros H. apply api_analyze_200 in H as (query & -> & Ha).
  destruct (analyze_cases W query s)
    as [(e & s0 & Ha' & _) | (ah & t1 & h & t2 & s3 & Hf & Hc & _ & _ & Ha')];
    rewrite Ha in Ha'; [discriminate |].
  injection Ha' as <- <-.
  apply fetch_all_news_articles in Hf.
  unfold full_categorize in Hc.
  apply categorize_loop_Forall2 in Hc as (new & -> & Hnew). cbn [app].
  clear Ha. induction Hnew as [|a a' l l' (sa & sa' & Hcat) _ IH]; [constructor |].
  inversion Hf as [|? ? [Hkeys Htype] Hrest]; subst.
  constructor; [| now apply IH].
  pose proof (categorize_article_keys W a a' sa sa' Hkeys Hcat) as Hall.
  split; [now rewrite Hall |].
  split; [rewrite Hall; apply (bool_decide_unpack _); vm_compute; exact I |].
  destruct (categorize_article_words W a a' sa sa' Hcat) as (ws & Hws & _ & Hnd & Hin).
  destruct (categorize_article_fields W a a' sa sa' Hcat)
    as (tags & prompt & sentiment & intent & reason & _ & _ & _ & Hraw & Hs & Hi & Hr
        & Hflag & _ & _).
  split; [eauto |]. split; [eauto |].
  rewrite Hs, Hi, Hr, Hraw. repeat split.
  destruct (categorize_article_call W a a' sa sa' Hcat) as (_ & _ & Hkeep).
  unfold field, dict_get in *. rewrite Hkeep; [exact Htype |].
  unfold classification_keys. intros Hkey.
  repeat (apply elem_of_cons in Hkey; destruct Hkey as [Hkey | Hkey]; [discriminate |]).
  now apply elem_of_nil in Hkey.
Qed.

Lemma answer_articles_shape_witness :
  exists hits s',
    api_analyze (one_provider_down (GText harmful_reply)) (Some "oil") fresh
    = (Json 200 (VList (map VDict hits)), s') /\
    length hits = 2 /\
    Forall (fun a' =>
              map fst a' ≡ₚ article_keys ++ classification_keys /\
              NoDup (map fst a') /\
              (exists flag, field "harmful" a' = VBool flag) /\
              (exists ws, field "harmful_words" a' = VList (map VStr ws) /\
                          NoDup ws /\ Forall (fun w => w ∈ HARMFUL_KEYWORDS) ws) /\
              is_text (field "gemini_sentiment" a') = true /\
              is_text (field "gemini_intent" a') = true /\
              is_text (field "gemini_reason" a') = true /\
              is_text (field "gemini_raw" a') = true /\
              (field "api_type" a' = VStr "news" \/ field "api_type" a' = VStr "wikipedia"))
           hits.
Proof.
  eassert (Ha : analyze (one_provider_down (GText harmful_reply)) "oil" fresh = (Ok _, _))
    by (vm_compute; reflexivity).
  apply api_analyze_ok in Ha as Hrun; [| discriminate].
  eexists _, _. split; [exact Hrun |]. split; [reflexivity |].
  exact (answer_articles_shape _ _ _ _ _ Hrun).
Defined.

(** ** The keyword table *)

Lemma record_keywords_cons (kw : string) (keywords : list string) (d : database) :
  record_keywords (kw :: keywords) d = record_keywords keywords (upsert_keyword kw d).
Proof. reflexivity. Qed.

Lemma trend_total_upsert_keyword (k kw : string) (d : database) :
  trend_total (upsert_keyword k d) kw
  = if bool_decide (k = kw) then sql_succ (trend_total d kw) else trend_total d kw.
Proof.
  unfold trend_total, upsert_keyword. simpl.
  destruct (decide (k = kw)) as [-> | Hne].
  - rewrite lookup_insert_eq, bool_decide_eq_true_2 by reflexivity.
    destruct (keyword_trends d !! kw); reflexivity.
  - rewrite lookup_insert_ne, bool_decide_eq_false_2 by assumption. reflexivity.
Qed.

Lemma trend_total_record_keywords (keywords : list string) (kw : string) (d : database) :
  NoDup keywords ->
  trend_total (record_keywords keywords d) kw
  = if bool_decide (kw ∈ keywords) then sql_succ (trend_total d kw) else trend_total d kw.
Proof.
  intros Hnd. revert d. induction Hnd as [|k ks Hk Hnd IH]; intros d.
  - now rewrite bool_decide_eq_false_2 by apply not_elem_of_nil.
  - rewrite record_keywords_cons, IH, trend_total_upsert_keyword.
    destruct (decide (k = kw)) as [-> | Hne].
    + rewrite (bool_decide_eq_true_2 (kw = kw)) by reflexivity.
      rewrite (bool_decide_eq_false_2 (kw ∈ ks)) by assumption.
      now rewrite (bool_decide_eq_true_2 (kw ∈ kw :: ks)) by (now left).
    + rewrite (bool_decide_eq_false_2 (k = kw)) by assumption.
      destruct (decide (kw ∈ ks)) as [Hin | Hout].
      * rewrite (bool_decide_eq_true_2 (kw ∈ ks)) by assumption.
        now rewrite (bool_decide_eq_true_2 (kw ∈ k :: ks)) by (now right).
      * rewrite (bool_decide_eq_false_2 (kw ∈ ks)) by assumption.
        rewrite (bool_decide_eq_false_2 (kw ∈ k :: ks)); [reflexivity |].
        intros H. apply elem_of_cons in H as [-> | H]; [congruence | contradiction].
Qed.

Lemma keyword_trends_record_source (key : option string) (now : string) (d : database) :
  keyword_trends (record_source key now d) = keyword_trends d.
Proof. destruct key; reflexivity. Qed.

Lemma keyword_trends_upsert_other (k kw : string) (d : database) :
  k <> kw -> keyword_trends (upsert_keyword k d) !! kw = keyword_trends d !! kw.
Proof. intros Hne. unfold upsert_keyword. simpl. now rewrite lookup_insert_ne. Qed.

Lemma keyword_trends_record_other (keywords : list string) (kw : string) (d : database) :
  kw ∉ keywords ->
  keyword_trends (record_keywords keywords d) !! kw = keyword_trends d !! kw.
Proof.
  revert d. induction keywords as [|k ks IH]; intros d Hkw; [reflexivity |].
  rewrite record_keywords_cons, IH, keyword_trends_upsert_other; [reflexivity | |].
  - intros ->. apply Hkw. now left.
  - intros Hin. apply Hkw. now right.
Qed.

Lemma keyword_row_after_record (keywords : list string) (kw : string) (d : database) :
  is_Some (keyword_trends d !! kw) \/ kw ∈ keywords ->
  is_Some (keyword_trends (record_keywords keywords d) !! kw).
Proof.
  revert d. induction keywords as [|k ks IH]; intros d.
  - intros [H | H]; [exact H | now apply elem_of_nil in H].
  - intros H. rewrite record_keywords_cons. apply IH.
    destruct (decide (k = kw)) as [-> | Hne].
    + left. unfold upsert_keyword. simpl. rewrite lookup_insert_eq. eauto.
    + rewrite keyword_trends_upsert_other by assumption.
      destruct H as [H | H]; [now left |].
      apply elem_of_cons in H as [-> | H]; [congruence | now right].
Qed.

(** The third step, after fetching and classifying: it starts from the
    store of the request, and the harmful words of each article it goes
    through are different words of the harmful list. *)
Lemma analyze_persist (W : world) (query : string) (hits : list dict) (s s' : state) :
  analyze W query s = (Ok hits, s') ->
  exists s2,
    db s2 = db s /\
    persist W hits s2 = (Ok tt, s') /\
    Forall (fun a' => NoDup (harmful_words_of a') /\
                      Forall (fun w => w ∈ HARMFUL_KEYWORDS) (harmful_words_of a')) hits.
Proof.
  intros Ha.
  destruct (analyze_cases W query s)
    as [(e & s0 & Ha' & _) | (ah & t1 & h & t2 & s3 & _ & Hc & Hp & Hdb & Ha')];
    rewrite Ha in Ha'; [discriminate |].
  injection Ha' as <- <-. exists t2. split; [exact Hdb |]. split; [exact Hp |].
  unfold full_categorize in Hc.
  apply categorize_loop_Forall2 in Hc as (new & -> & Hnew). cbn [app].
  clear -Hnew. induction Hnew as [|a a' l l' (sa & sa' & Hcat) _ IH]; constructor;
    [| exact IH].
  destruct (categorize_article_words W a a' sa sa' Hcat) as (ws & _ & -> & Hnd & Hin).
  auto.
Qed.

Lemma trend_total_record_source (key : option string) (now kw : string) (d : database) :
  trend_total (record_source key now d) kw = trend_total d kw.
Proof. unfold trend_total. now rewrite keyword_trends_record_source. Qed.

(** The counter of a keyword is incremented once for each flagged article
    that has the keyword. *)
Lemma persist_trend_steps (W : world) (hits : list dict) (s s' : state) (kw : string) :
  engine_ok W ->
  Forall (fun a => NoDup (harmful_words_of a)) hits ->
  persist W hits s = (Ok tt, s') ->
  trend_total (db s') kw = Nat.iter (mentions_for kw hits) sql_succ (trend_total (db s) kw).
Proof.
  intros Hok Hall. revert s. induction Hall as [|a hits Hnd Hall IH]; intros s.
  - rewrite persist_nil. intros [= <-]. reflexivity.
  - rewrite persist_cons. intros H. apply IH in H. rewrite H. clear H IH.
    unfold mentions_for. simpl List.filter.
    destruct (is_flagged a); simpl; [| reflexivity].
    destruct (db_flag_article W a s Hok) as [now ->].
    rewrite trend_total_record_keywords, trend_total_record_source by assumption.
    destruct (bool_decide (kw ∈ harmful_words_of a)); simpl length; [| reflexivity].
    symmetry. apply Nat.iter_succ_r.
Qed.

Lemma persist_trend_total (W : world) (hits : list dict) (s s' : state) (kw : string) :
  engine_ok W ->
  Forall (fun a => NoDup (harmful_words_of a)) hits ->
  persist W hits s = (Ok tt, s') ->
  (- 2 ^ 63 <= trend_total (db s) kw)%Z ->
  (trend_total (db s) kw + Z.of_nat (mentions_for kw hits) < 2 ^ 63)%Z ->
  trend_total (db s') kw = (trend_total (db s) kw + Z.of_nat (mentions_for kw hits))%Z.
Proof.
  intros Hok Hall Hp Hlo Hhi. rewrite (persist_trend_steps W hits s s' kw Hok Hall Hp).
  now apply iter_sql_succ.
Qed.

Lemma persist_keyword_row_exists (W : world) (hits : list dict) (s s' : state)
    (kw : string) :
  engine_ok W ->
  persist W hits s = (Ok tt, s') ->
  is_Some (keyword_trends (db s) !! kw) \/ (0 < mentions_for kw hits)%nat ->
  is_Some (keyword_trends (db s') !! kw).
Proof.
  intros Hok. revert s. induction hits as [|a hits IH]; intros s.
  - rewrite persist_nil. intros [= <-] [H | H]; [assumption |].
    unfold mentions_for in H. simpl in H. lia.
  - rewrite persist_cons. intros H Hor. apply IH in H; [assumption |]. clear IH.
    unfold mentions_for in *. simpl List.filter in Hor.
    destruct (is_flagged a); simpl in *; [| assumption].
    destruct (db_flag_article W a s Hok) as [now ->].
    destruct (bool_decide (kw ∈ harmful_words_of a)) eqn:Hk.
    + apply bool_decide_eq_true in Hk. left. apply keyword_row_after_record. now right.
    + destruct Hor as [Hs | Hpos]; [| now right].
      left. apply keyword_row_after_record. left.
      now rewrite keyword_trends_record_source.
Qed.

(** With a storage engine that does not raise, an analyze call raises the
    counter of each keyword by the number of flagged articles of the answer
    that have the keyword among their harmful words (a counter that was
    absent counts as zero), provided the counter is and stays an INTEGER of
    the 64-bit range: beyond [2 ^ 63 - 1] the sum becomes a REAL, which
    later increments leave as it is.  Such a keyword has a row
    afterwards. *)
Theorem keyword_counts_exact (W : world) (q : option string) (s s' : state)
    (hits : list dict) :
  engine_ok W ->
  api_analyze W q s = (Json 200 (VList (map VDict hits)), s') ->
  forall kw,
    ((- 2 ^ 63 <= trend_total (db s) kw)%Z ->
     (trend_total (db s) kw + Z.of_nat (mentions_for kw hits) < 2 ^ 63)%Z ->
     trend_total (db s') kw
     = (trend_total (db s) kw + Z.of_nat (mentions_for kw hits))%Z) /\
    ((0 < mentions_for kw hits)%nat -> is_Some (keyword_trends (db s') !! kw)).
Proof.
  intros Hok H kw. apply api_analyze_200 in H as (query & -> & Ha).
  apply analyze_persist in Ha as (s2 & Hdb & Hp & Hall). rewrite <- Hdb. split.
  - apply (persist_trend_total W hits s2 s' kw Hok); [| exact Hp].
    eapply Forall_impl; [exact Hall |]. now intros a [Hnd _].
  - intros Hpos. apply (persist_keyword_row_exists W hits s2 s' kw Hok Hp). now right.
Qed.

Lemma keyword_counts_exact_witness :
  exists hits s',
    api_analyze (one_provider_down (GText harmful_reply)) (Some "oil") fresh
    = (Json 200 (VList (map VDict hits)), s') /\
    mentions_for "attack" hits = 2 /\
    trend_total (db fresh) "attack" = 0%Z /\
    trend_total (db s') "attack" = 2%Z /\
    is_Some (keyword_trends (db s') !! "attack").
Proof.
  eassert (Ha : analyze (one_provider_down (GText harmful_reply)) "oil" fresh = (Ok _, _))
    by (vm_compute; reflexivity).
  apply api_analyze_ok in Ha as Hrun; [| discriminate].
  eexists _, _. split; [exact Hrun |].
  pose proof (keyword_counts_exact (one_provider_down (GText harmful_reply)) _ _ _ _
                (fun _ => eq_refl) Hrun "attack") as [Hcount Hrow].
  split; [reflexivity |]. split; [reflexivity |].
  split; [apply Hcount; [vm_compute; discriminate | vm_compute; reflexivity] |].
  apply Hrow. vm_compute. lia.
Defined.

(** ** The vocabulary of the keyword table *)




Lemma in_vocabulary_eq (d d' : database) :
  d' = d -> in_vocabulary d -> in_vocabulary d'.
Proof. now intros ->. Qed.





(** ** Rows a request does not touch *)

Lemma source_profiles_record_source_other (key : option string) (now name : string)
    (d : database) :
  key <> Some name ->
  source_profiles (record_source key now d) !! name = source_profiles d !! name.
Proof.
  destruct key as [k |]; [| reflexivity]. intros Hk. unfold record_source, upsert_source.
  simpl. rewrite lookup_insert_ne; [reflexivity | congruence].
Qed.

Lemma flag_article_source_other (W : world) (article : dict) (s : state) (name : string) :
  source_key article <> Some name ->
  source_profiles (db (flag_article W article s)) !! name = source_profiles (db s) !! name.
Proof.
  intros Hk. unfold flag_article. cbv zeta.
  assert (H1 : source_profiles
                 (if db_raises W (trace s ++ [EvDbConnect]) then db s
                  else record_source (source_key article)
                         (current_timestamp W (trace s ++ [EvDbConnect])) (db s)) !! name
               = source_profiles (db s) !! name).
  { destruct (db_raises W _); [reflexivity |].
    now apply source_profiles_record_source_other. }
  destruct (harmful_words_of article); cbn [db]; [exact H1 |].
  destruct (db_raises W ((trace s ++ [EvDbConnect]) ++ [EvDbConnect])); [exact H1 |].
  now rewrite source_profiles_record_keywords.
Qed.

Lemma flag_article_keyword_other (W : world) (article : dict) (s : state) (kw : string) :
  kw ∉ harmful_words_of article ->
  keyword_trends (db (flag_article W article s)) !! kw = keyword_trends (db s) !! kw.
Proof.
  intros Hk. unfold flag_article. cbv zeta.
  assert (H1 : keyword_trends
                 (if db_raises W (trace s ++ [EvDbConnect]) then db s
                  else record_source (source_key article)
                         (current_timestamp W (trace s ++ [EvDbConnect])) (db s))
               = keyword_trends (db s)).
  { destruct (db_raises W _); [reflexivity | apply keyword_trends_record_source]. }
  destruct (harmful_words_of article) as [|w ws] eqn:Hws; cbn [db]; [now rewrite H1 |].
  destruct (db_raises W ((trace s ++ [EvDbConnect]) ++ [EvDbConnect])); [now rewrite H1 |].
  rewrite keyword_trends_record_other by assumption. now rewrite H1.
Qed.

Lemma persist_source_other (W : world) (hits : list dict) (s s' : state) (name : string) :
  persist W hits s = (Ok tt, s') ->
  flags_for name hits = 0 ->
  source_profiles (db s') !! name = source_profiles (db s) !! name.
Proof.
  revert s. induction hits as [|a hits IH]; intros s.
  - rewrite persist_nil. now intros [= <-].
  - rewrite persist_cons. intros H Hnone.
    unfold flags_for in Hnone. simpl List.filter in Hnone.
    destruct (is_flagged a); cbn [andb] in Hnone.
    + destruct (bool_decide (source_key a = Some name)) eqn:Hk; [discriminate |].
      apply bool_decide_eq_false in Hk.
      rewrite (IH _ H Hnone). now apply flag_article_source_other.
    + exact (IH _ H Hnone).
Qed.

Lemma persist_keyword_other (W : world) (hits : list dict) (s s' : state) (kw : string) :
  persist W hits s = (Ok tt, s') ->
  mentions_for kw hits = 0 ->
  keyword_trends (db s') !! kw = keyword_trends (db s) !! kw.
Proof.
  revert s. induction hits as [|a hits IH]; intros s.
  - rewrite persist_nil. now intros [= <-].
  - rewrite persist_cons. intros H Hnone.
    unfold mentions_for in Hnone. simpl List.filter in Hnone.
    destruct (is_flagged a); cbn [andb] in Hnone.
    + destruct (bool_decide (kw ∈ harmful_words_of a)) eqn:Hk; [discriminate |].
      apply bool_decide_eq_false in Hk.
      rewrite (IH _ H Hnone). now apply flag_article_keyword_other.
    + exact (IH _ H Hnone).
Qed.

(** An analyze call changes only the rows of what it flags, whether the
    storage engine raises or not: the row of a source that is flagged in no
    article of the answer is as it was (its counter and its time stamp, or
    its absence), and so is the row of a keyword that is among the harmful
    words of no flagged article. *)
Theorem untouched_rows_stay (W : world) (q : option string) (s s' : state)
    (hits : list dict) :
  api_analyze W q s = (Json 200 (VList (map VDict hits)), s') ->
  (forall name, flags_for name hits = 0 ->
     source_profiles (db s') !! name = source_profiles (db s) !! name) /\
  (forall kw, mentions_for kw hits = 0 ->
     keyword_trends (db s') !! kw = keyword_trends (db s) !! kw).
Proof.
  intros H. apply api_analyze_200 in H as (query & -> & Ha).
  apply analyze_persist in Ha as (s2 & Hdb & Hp & _). rewrite <- Hdb. split.
  - intros name. now apply (persist_source_other W hits s2 s').
  - intros kw. now apply (persist_keyword_other W hits s2 s').
Qed.

Lemma untouched_rows_stay_witness :
  exists hits s',
    api_analyze (one_provider_down (GText harmful_reply)) (Some "oil") fresh
    = (Json 200 (VList (map VDict hits)), s') /\
    flags_for "NewsData.io" hits = 0 /\
    source_profiles (db s') !! "NewsData.io" = source_profiles (db fresh) !! "NewsData.io" /\
    mentions_for "scam" hits = 0 /\
    keyword_trends (db s') !! "scam" = keyword_trends (db fresh) !! "scam".
Proof.
  eassert (Ha : analyze (one_provider_down (GText harmful_reply)) "oil" fresh = (Ok _, _))
    by (vm_compute; reflexivity).
  apply api_analyze_ok in Ha as Hrun; [| discriminate].
  eexists _, _. split; [exact Hrun |].
  destruct (untouched_rows_stay _ _ _ _ _ Hrun) as [Hsource Hkeyword].
  split; [reflexivity |]. split; [apply Hsource; reflexivity |].
  split; [reflexivity |]. apply Hkeyword. reflexivity.
Defined.

(** ** The rows the read endpoints leave out *)

Section rows_kept.

Context {A : Type} (count : A -> Z).

Lemma top_rows_kept (n : nat) (m : gmap string A) :
  let rows := take n (merge_sort (by_count_desc count) (map_to_list m)) in
  NoDup (map fst rows) /\
  length rows = min n (size m) /\
  (forall k x, m !! k = Some x ->
     (k, x) ∈ rows \/ forall k' x', (k', x') ∈ rows -> (count x <= count x')%Z).
Proof.
  cbv zeta. set (l := merge_sort (by_count_desc count) (map_to_list m)).
  assert (Hperm : l ≡ₚ map_to_list m) by apply merge_sort_Permutation.
  assert (Hsorted : StronglySorted (by_count_desc count) l).
  { pose proof (by_count_desc_total count). pose proof (by_count_desc_trans count).
    apply StronglySorted_merge_sort; apply _. }
  split; [| split].
  - change (NoDup ((take n l).*1)). rewrite fmap_take.
    apply (sublist_NoDup _ (l.*1)); [| apply sublist_take].
    rewrite Hperm. apply NoDup_fst_map_to_list.
  - rewrite length_take. f_equal. unfold l.
    now rewrite merge_sort_Permutation, length_map_to_list.
  - intros k x Hk. apply elem_of_map_to_list in Hk. rewrite <- Hperm in Hk.
    rewrite <- (take_drop n l) in Hk, Hsorted.
    apply elem_of_app in Hk as [Hk | Hk]; [now left | right].
    intros k' x' Hk'.
    exact (StronglySorted_app_1_elem_of _ _ _ _ _ Hsorted Hk' Hk).
Qed.

End rows_kept.

(** The read endpoints.  When the storage engine raises, the exception
    leaves the view and the request ends in a server error.  Otherwise the
    answer is 200 with [dict(row)] for twenty rows of the table, or for all
    of them when the table has fewer, in descending order of the counter.
    The store is left as it is in both cases. *)
Theorem read_endpoints_top_twenty (W : world) (s : state) :
  (db (snd (get_profiles W s)) = db s /\
   (db_raises W (trace s ++ [EvDbConnect]) = true ->
    fst (get_profiles W s) = ServerError Sqlite3Error) /\
   (db_raises W (trace s ++ [EvDbConnect]) = false ->
    exists rows,
      fst (get_profiles W s) = Json 200 (VList (map profile_row rows)) /\
      length rows = min 20 (size (source_profiles (db s))) /\
      StronglySorted (by_count_desc flag_count) rows /\
      (forall k r, (k, r) ∈ rows -> source_profiles (db s) !! k = Some r))) /\
  (db (snd (get_trends W s)) = db s /\
   (db_raises W (trace s ++ [EvDbConnect]) = true ->
    fst (get_trends W s) = ServerError Sqlite3Error) /\
   (db_raises W (trace s ++ [EvDbConnect]) = false ->
    exists rows,
      fst (get_trends W s) = Json 200 (VList (map trend_row rows)) /\
      length rows = min 20 (size (keyword_trends (db s))) /\
      StronglySorted (by_count_desc id) rows /\
      (forall k n, (k, n) ∈ rows -> keyword_trends (db s) !! k = Some n))).
Proof.
  split.
  - rewrite get_profiles_run. cbn [fst snd].
    split; [reflexivity |]. split; [now intros -> |]. intros ->.
    destruct (top_rows_sorted flag_count 20 (source_profiles (db s))) as (_ & Hs & Hin).
    destruct (top_rows_kept flag_count 20 (source_profiles (db s))) as (_ & Hlen & _).
    exists (top_profiles (db s)). repeat split; assumption.
  - rewrite get_trends_run. cbn [fst snd].
    split; [reflexivity |]. split; [now intros -> |]. intros ->.
    destruct (top_rows_sorted id 20 (keyword_trends (db s))) as (_ & Hs & Hin).
    destruct (top_rows_kept id 20 (keyword_trends (db s))) as (_ & Hlen & _).
    exists (top_trends (db s)). repeat split; assumption.
Qed.

Lemma read_endpoints_top_twenty_witness :
  (exists rows,
     fst (get_profiles (sample_world ConnectionFailed (GText exact_reply)) two_sources)
     = Json 200 (VList (map profile_row rows)) /\
     length rows = min 20 (size (source_profiles (db two_sources))) /\
     StronglySorted (by_count_desc flag_count) rows /\
     (forall k r, (k, r) ∈ rows -> source_profiles (db two_sources) !! k = Some r)) /\
  fst (get_profiles (locked_store (sample_world ConnectionFailed (GText exact_reply)))
         two_sources)
  = ServerError Sqlite3Error.
Proof.
  split.
  - destruct (read_endpoints_top_twenty
                (sample_world ConnectionFailed (GText exact_reply)) two_sources)
      as [(_ & _ & H) _].
    apply H. reflexivity.
  - destruct (read_endpoints_top_twenty
                (locked_store (sample_world ConnectionFailed (GText exact_reply)))
                two_sources)
      as [(_ & H & _) _].
    apply H. reflexivity.
Defined.

(** What the read endpoints leave out.  In a 200 answer of
    [/api/profiles] no source comes twice, and a row of the table that is
    not in the answer has a counter no larger than any row of the answer.
    The same holds for [/api/trends]. *)
Theorem read_endpoints_keep_largest (W : world) (s : state) :
  (db_raises W (trace s ++ [EvDbConnect]) = false ->
   exists rows,
     fst (get_profiles W s) = Json 200 (VList (map profile_row rows)) /\
     NoDup (map fst rows) /\
     (forall k r, source_profiles (db s) !! k = Some r ->
        (k, r) ∈ rows \/
        forall k' r', (k', r') ∈ rows -> (flag_count r <= flag_count r')%Z)) /\
  (db_raises W (trace s ++ [EvDbConnect]) = false ->
   exists rows,
     fst (get_trends W s) = Json 200 (VList (map trend_row rows)) /\
     NoDup (map fst rows) /\
     (forall k n, keyword_trends (db s) !! k = Some n ->
        (k, n) ∈ rows \/ forall k' n', (k', n') ∈ rows -> (n <= n')%Z)).
Proof.
  split; intros Hok.
  - rewrite get_profiles_run, Hok. cbn [fst].
    destruct (top_rows_kept flag_count 20 (source_profiles (db s))) as (Hnd & _ & Hin).
    exists (top_profiles (db s)). repeat split; assumption.
  - rewrite get_trends_run, Hok. cbn [fst].
    destruct (top_rows_kept id 20 (keyword_trends (db s))) as (Hnd & _ & Hin).
    exists (top_trends (db s)). repeat split; assumption.
Qed.

Lemma read_endpoints_keep_largest_witness :
  exists rows,
    fst (get_profiles (sample_world ConnectionFailed (GText exact_reply)) two_sources)
    = Json 200 (VList (map profile_row rows)) /\
    NoDup (map fst rows) /\
    (forall k r, source_profiles (db two_sources) !! k = Some r ->
       (k, r) ∈ rows \/
       forall k' r', (k', r') ∈ rows -> (flag_count r <= flag_count r')%Z).
Proof.
  destruct (read_endpoints_keep_largest
              (sample_world ConnectionFailed (GText exact_reply)) two_sources) as [H _].
  apply H. reflexivity.
Defined.

(** ** The answer and the store *)

Lemma API_CONFIGS_same (W W' : world) :
  same_outside W W' -> API_CONFIGS W = API_CONFIGS W'.
Proof.
  intros (Henv & _ & _). unfold API_CONFIGS, getenv_or. now rewrite !Henv.
Qed.

Lemma fetch_provider_same (W W' : world) (query language country : string)
    (max_results : Z) (api : dict) (s t : state) :
  same_outside W W' -> trace s = trace t ->
  fst (fetch_provider W query language country max_results api s)
  = fst (fetch_provider W' query language country max_results api t) /\
  trace (snd (fetch_provider W query language country max_results api s))
  = trace (snd (fetch_provider W' query language country max_results api t)).
Proof.
  intros (_ & Hget & _) Ht. rewrite !fetch_provider_run.
  destruct (dict_lookup "base_url" api) as [url |]; [| auto].
  cbv zeta. rewrite <- Ht, <- Hget. unfold after_request. rewrite <- Ht.
  destruct (http_get W (trace s) url _ headers) as [| code [data |]]; auto;
    destruct (raises_for_status code); auto.
Qed.

Lemma fetch_all_news_same (W W' : world) (api_configs : list dict)
    (query language country : string) (max_results : Z) (s t : state) :
  same_outside W W' -> trace s = trace t ->
  fst (fetch_all_news W api_configs query language country max_results s)
  = fst (fetch_all_news W' api_configs query language country max_results t) /\
  trace (snd (fetch_all_news W api_configs query language country max_results s))
  = trace (snd (fetch_all_news W' api_configs query language country max_results t)).
Proof.
  intros Hsame. revert s t. induction api_configs as [|api rest IH]; intros s t Ht.
  - auto.
  - rewrite !fetch_all_news_cons, !run_bind.
    destruct (fetch_provider_same W W' query language country max_results api s t Hsame Ht)
      as [Hr Htr].
    destruct (fetch_provider W query language country max_results api s) as [r1 s1].
    destruct (fetch_provider W' query language country max_results api t) as [r1' t1].
    cbn [fst snd] in Hr, Htr. subst r1'.
    destruct r1 as [articles | e]; [| auto].
    rewrite !run_bind. destruct (IH s1 t1 Htr) as [Hr2 Htr2].
    destruct (fetch_all_news W rest query language country max_results s1) as [r2 s2].
    destruct (fetch_all_news W' rest query language country max_results t1) as [r2' t2].
    cbn [fst snd] in Hr2, Htr2. subst r2'.
    destruct r2 as [more | e]; auto.
Qed.

Lemma categorize_article_same (W W' : world) (article : dict) (s t : state) :
  same_outside W W' -> trace s = trace t ->
  fst (categorize_article W article s) = fst (categorize_article W' article t) /\
  trace (snd (categorize_article W article s))
  = trace (snd (categorize_article W' article t)).
Proof.
  intros (_ & _ & Hgen) Ht. unfold categorize_article. rewrite !run_bind, !run_lift.
  destruct (py_iter _) as [kws | e]; [| auto].
  rewrite !run_bind, !run_lift.
  destruct (str_operand (py_or (dict_get "title" VNone article) (VStr "")))
    as [title | e]; [| auto].
  rewrite !run_bind, !run_lift.
  destruct (str_operand (py_or (dict_get "description" VNone article) (VStr "")))
    as [description | e]; [| auto].
  rewrite !run_bind, !fetch_from_gemini_returns, <- Ht, <- Hgen.
  destruct (parse_labels _) as [[sentiment intent] reason].
  rewrite !run_ret. cbn [fst snd trace]. auto.
Qed.

Lemma categorize_loop_same (W W' : world) (articles acc : list dict) (s t : state) :
  same_outside W W' -> trace s = trace t ->
  fst (categorize_loop W articles acc s) = fst (categorize_loop W' articles acc t) /\
  trace (snd (categorize_loop W articles acc s))
  = trace (snd (categorize_loop W' articles acc t)).
Proof.
  intros Hsame. revert acc s t. induction articles as [|a rest IH]; intros acc s t Ht.
  - auto.
  - cbn [categorize_loop]. rewrite !run_bind.
    destruct (categorize_article_same W W' a s t Hsame Ht) as [Hr Htr].
    destruct (categorize_article W a s) as [r1 s1].
    destruct (categorize_article W' a t) as [r1' t1].
    cbn [fst snd] in Hr, Htr. subst r1'.
    destruct r1 as [a' | e]; [| auto]. now apply IH.
Qed.

Lemma persist_same (W W' : world) (hits : list dict) (s t : state) :
  trace s = trace t ->
  fst (persist W hits s) = fst (persist W' hits t) /\
  trace (snd (persist W hits s)) = trace (snd (persist W' hits t)).
Proof.
  intros Ht.
  destruct (persist_total W hits s) as [s' Hs].
  destruct (persist_total W' hits t) as [t' Hp].
  rewrite Hs, Hp. cbn [fst snd]. split; [reflexivity |].
  apply persist_trace in Hs, Hp. congruence.
Qed.

(** The answer of the analyze endpoint does not depend on the store: with
    the same environment, providers and model, and after the same calls,
    the response is the same whatever the tables hold, whatever the clock
    says and whether the storage engine raises or not; and the same calls
    are made. *)
Theorem answer_does_not_depend_on_store (W W' : world) (q : option string) (s t : state) :
  same_outside W W' ->
  trace s = trace t ->
  fst (api_analyze W q s) = fst (api_analyze W' q t) /\
  trace (snd (api_analyze W q s)) = trace (snd (api_analyze W' q t)).
Proof.
  intros Hsame Ht. unfold api_analyze.
  destruct (is_empty _); [auto |].
  set (query := match q with Some query => query | None => "" end).
  unfold analyze. rewrite !run_bind, <- (API_CONFIGS_same W W' Hsame).
  destruct (fetch_all_news_same W W' (API_CONFIGS W) query "en" "my" 5 s t Hsame Ht)
    as [Hr Htr].
  destruct (fetch_all_news W (API_CONFIGS W) query "en" "my" 5 s) as [r1 s1].
  destruct (fetch_all_news W' (API_CONFIGS W) query "en" "my" 5 t) as [r1' t1].
  cbn [fst snd] in Hr, Htr. subst r1'.
  destruct r1 as [all_hits | e]; [| auto].
  rewrite !run_bind. unfold full_categorize.
  destruct (categorize_loop_same W W' all_hits [] s1 t1 Hsame Htr) as [Hr2 Htr2].
  destruct (categorize_loop W all_hits [] s1) as [r2 s2].
  destruct (categorize_loop W' all_hits [] t1) as [r2' t2].
  cbn [fst snd] in Hr2, Htr2. subst r2'.
  destruct r2 as [hits | e]; [| auto].
  rewrite !run_bind.
  destruct (persist_same W W' hits s2 t2 Htr2) as [Hr3 Htr3].
  destruct (persist W hits s2) as [r3 s3]. destruct (persist W' hits t2) as [r3' t3].
  cbn [fst snd] in Hr3, Htr3. subst r3'.
  destruct r3 as [[] | e]; rewrite ?run_ret; auto.
Qed.

Lemma answer_does_not_depend_on_store_witness :
  fst (api_analyze (one_provider_down (GText harmful_reply)) (Some "oil") fresh)
  = fst (api_analyze (locked_store (one_provider_down (GText harmful_reply)))
           (Some "oil") fresh) /\
  trace (snd (api_analyze (one_provider_down (GText harmful_reply)) (Some "oil") fresh))
  = trace (snd (api_analyze (locked_store (one_provider_down (GText harmful_reply)))
                  (Some "oil") fresh)).
Proof.
  apply (answer_does_not_depend_on_store
           (one_provider_down (GText harmful_reply))
           (locked_store (one_provider_down (GText harmful_reply)))
           (Some "oil") fresh fresh).
  - repeat split.
  - reflexivity.
Defined.

(** ** The time stamp of a source *)

Lemma persist_trace_grows (W : world) (hits : list dict) (s s' : state) :
  persist W hits s = (Ok tt, s') -> trace s `prefix_of` trace s'.
Proof. intros H. apply persist_trace in H. rewrite H. now eexists. Qed.

Lemma persist_last_seen (W : world) (hits : list dict) (s s' : state) (name : string) :
  engine_ok W ->
  persist W hits s = (Ok tt, s') ->
  (0 < flags_for name hits)%nat ->
  exists r h,
    source_profiles (db s') !! name = Some r /\
    last_seen r = current_timestamp W h /\
    trace s `prefix_of` h /\ h `prefix_of` trace s'.
Proof.
  intros Hok. revert s. induction hits as [|a hits IH]; intros s.
  - unfold flags_for. simpl. lia.
  - rewrite persist_cons. intros Hp Hpos.
    destruct (Nat.eq_dec (flags_for name hits) 0) as [Hzero | Hmore].
    + unfold flags_for in Hpos, Hzero. simpl List.filter in Hpos.
      destruct (is_flagged a) eqn:Hflag; cbn [andb] in Hpos;
        [| rewrite Hzero in Hpos; lia].
      destruct (bool_decide (source_key a = Some name)) eqn:Hk;
        [| rewrite Hzero in Hpos; lia].
      apply bool_decide_eq_true in Hk.
      rewrite (persist_source_other W hits _ s' name Hp Hzero).
      pose proof (persist_trace_grows W hits _ s' Hp) as Hpre.
      rewrite flag_article_trace in Hpre.
      exists (SourceProfile
                (match source_profiles (db s) !! name with
                 | Some r => sql_succ (flag_count r)
                 | None => 1%Z
                 end)
                (current_timestamp W (trace s ++ [EvDbConnect]))),
        (trace s ++ [EvDbConnect]).
      split; [| split; [reflexivity | split]].
      * unfold flag_article. cbv zeta. rewrite Hok, Hk.
        assert (Hrow : source_profiles
                         (record_source (Some name)
                            (current_timestamp W (trace s ++ [EvDbConnect])) (db s))
                       !! name
                       = Some (SourceProfile
                                 (match source_profiles (db s) !! name with
                                  | Some r => sql_succ (flag_count r)
                                  | None => 1%Z
                                  end)
                                 (current_timestamp W (trace s ++ [EvDbConnect])))).
        { unfold record_source, upsert_source. cbn [source_profiles].
          rewrite lookup_insert_eq. now destruct (source_profiles (db s) !! name). }
        destruct (harmful_words_of a); cbn [db]; [exact Hrow |].
        rewrite Hok, source_profiles_record_keywords. exact Hrow.
      * now eexists.
      * destruct Hpre as [k Hk']. rewrite Hk'.
        destruct (harmful_words_of a); cbn [repeat].
        -- now eexists.
        -- change (EvDbConnect :: EvDbConnect :: [])
             with ([EvDbConnect] ++ [EvDbConnect]).
           rewrite app_assoc, <- (app_assoc (trace s ++ [EvDbConnect])). now eexists.
    + destruct (IH _ Hp) as (r & h & Hr & Hseen & Hpre1 & Hpre2); [lia |].
      exists r, h. split; [exact Hr |]. split; [exact Hseen |]. split; [| exact Hpre2].
      etransitivity; [| exact Hpre1].
      destruct (is_flagged a); [| reflexivity].
      rewrite flag_article_trace. now eexists.
Qed.

(** With a storage engine that does not raise, the row of a source that
    the answer flags carries a time stamp the clock gave during the third
    step of this very request: every flag refreshes [last_seen]. *)
Theorem last_seen_is_refreshed (W : world) (q : option string) (s s' : state)
    (hits : list dict) (name : string) :
  engine_ok W ->
  api_analyze W q s = (Json 200 (VList (map VDict hits)), s') ->
  (0 < flags_for name hits)%nat ->
  exists r h,
    source_profiles (db s') !! name = Some r /\
    last_seen r = current_timestamp W h /\
    trace s `prefix_of` h /\ h `prefix_of` trace s'.
Proof.
  intros Hok H Hpos. apply api_analyze_200 in H as (query & -> & Ha).
  destruct (analyze_cases W query s)
    as [(e & s0 & Ha' & _) | (ah & t1 & h & t2 & s3 & Hf & Hc & Hp & _ & Ha')];
    rewrite Ha in Ha'; [discriminate |].
  injection Ha' as <- <-.
  destruct (persist_last_seen W hits t2 s' name Hok Hp Hpos)
    as (r & h & Hr & Hseen & Hpre1 & Hpre2).
  exists r, h. split; [exact Hr |]. split; [exact Hseen |]. split; [| exact Hpre2].
  etransitivity; [| exact Hpre1].
  unfold full_categorize in Hc. apply categorize_loop_calls in Hc as (new & _ & Ht & _).
  rewrite Ht.
  destruct (fetch_all_news_trace W (API_CONFIGS W) query "en" "my" 5 s)
    as (asked & skipped & _ & Hreq & _).
  rewrite Hf in Hreq. cbn [snd] in Hreq. rewrite Hreq, <- app_assoc. now eexists.
Qed.

Lemma last_seen_is_refreshed_witness :
  exists hits s' r h,
    api_analyze (one_provider_down (GText harmful_reply)) (Some "oil") fresh
    = (Json 200 (VList (map VDict hits)), s') /\
    source_profiles (db s') !! "Reuters" = Some r /\
    last_seen r = current_timestamp (one_provider_down (GText harmful_reply)) h /\
    trace fresh `prefix_of` h /\ h `prefix_of` trace s'.
Proof.
  eassert (Ha : analyze (one_provider_down (GText harmful_reply)) "oil" fresh = (Ok _, _))
    by (vm_compute; reflexivity).
  apply api_analyze_ok in Ha as Hrun; [| discriminate].
  destruct (last_seen_is_refreshed (one_provider_down (GText harmful_reply)) _ _ _ _
              "Reuters" (fun _ => eq_refl) Hrun) as (r & h & H); [vm_compute; lia |].
  eexists _, _, r, h. split; [exact Hrun | exact H].
Defined.

(** ** Sample evaluations *)

Example py_str_list :
  py_str (VList [VInt 1; VStr "a"; VNone; VBool true; VDict [("k", VList [])]; VInt (-20)])
  = "[1, 'a', None, True, {'k': []}, -20]".
Proof. vm_compute. reflexivity. Qed.

Example sub_tags_snippet :
  sub_tags "an <span class=x>oil</span> spill < 3 > 2" = "an oil spill  2".
Proof. vm_compute. reflexivity. Qed.

Example search_label_skips :
  search_label "INTENT=" "INTENT= INTENT=harmful1, x" = Some "harmful1".
Proof. vm_compute. reflexivity. Qed.

